(** * pre-commit-dune-format-dune-file: the formatting hook, embedded

    A shallow embedding of [src/pre_commit_dune_format_dune_file/format.py].

    The Python program is effectful: it probes and rewrites files, creates
    temporary files, starts the external formatter and prints.  Each Python
    function is a function in a small monad [M] that threads the state of
    the machine (the filesystem and the run's temporary directory), may
    raise a Python exception, and records what it did to the outside as a
    list of events.

    What is outside the program is a parameter of the development:
    - [shutil_which_dune], what [shutil.which("dune")] answers;
    - [run_process], what starting a command yields (exit status and
      captured output, or the exception [subprocess.run] raises);
    - [pre_commit_dune_format_dune_file_version], the string of the generated
      module [_version.py].

    Modelling conventions.
    - A [Path] is a [str] in Python ([path.Path] subclasses [str]); two
      paths are the same dictionary key exactly when the strings are equal.
      The filesystem maps path strings to nodes; two different strings name
      two different files (no links, no [./] normalisation).
    - The formatter is an external process that reads the filesystem and
      writes to its standard output; it does not modify the filesystem, and
      what it does is a function of its command line and of the filesystem.
    - Text is a [string]; encoding and newline translation are not
      modelled.  What [subprocess.run] captures is the text the program
      later writes or prints.
    - Logging goes to standard error (the [RichHandler] is built on
      [Console(stderr=True)]); log calls are left out, except where
      building the message can raise.
    - [argparse] is library code: the model starts from the parsed
      [Namespace].  [main] yields the integer handed to [sys.exit]. *)

From Stdlib Require Import ZArith Lia.
From stdpp Require Import base option list strings gmap fin_maps.

Local Open Scope string_scope.
Local Open Scope list_scope.

(** ** Python exceptions *)

Inductive exn : Type :=
| TypeError (msg : string)
| PermissionError (msg : string)
| FileNotFoundError (msg : string)
| IsADirectoryError (msg : string)
| UnboundLocalError (msg : string)
| OSError (msg : string)
| CalledProcessError (returncode : Z) (output : string)
| KeyboardInterrupt.

(** [issubclass(type(e), Exception)]: everything above but
    [KeyboardInterrupt], which derives from [BaseException] only. *)
Definition is_Exception (e : exn) : bool :=
  match e with
  | KeyboardInterrupt => false
  | _ => true
  end.

Definition is_CalledProcessError (e : exn) : bool :=
  match e with
  | CalledProcessError _ _ => true
  | _ => false
  end.

Inductive py_result (A : Type) : Type :=
| Ret (a : A)
| Raise (e : exn).
Arguments Ret {A} a.
Arguments Raise {A} e.

(** ** The machine *)

(** [path.Path], a [str]. *)
Abbreviation Path := string (only parsing).

Record file : Type := File {
  readable : bool;
  writable : bool;
  content : string
}.

Inductive node : Type :=
| Directory (dir_readable dir_writable : bool)
| Regular (f : file).

(** The run's temporary directory is kept apart from the rest of the
    tree: [mkdtemp] makes it for this run alone, under a name no input
    path can point into.  Its files are named by numbers, and
    [tempfile.NamedTemporaryFile] picks a name that is not in use. *)
Abbreviation TmpPath := nat (only parsing).

Record world : Type := World {
  fs : gmap Path node;
  tmpdir : option (gmap TmpPath string)
}.

Inductive access_mode : Type := R_OK | W_OK.

(** What [subprocess.run] observes of the started process. *)
Inductive run_outcome : Type :=
| Completed (returncode : Z) (stdout : string)
| Raised (e : exn).

(** What the program does to the outside, in order: probing a path,
    starting a process, printing to standard output, writing a file that
    is not a temporary file. *)
Inductive event : Type :=
| EvIsFile (p : Path)
| EvAccess (p : Path) (mode : access_mode)
| EvRun (cmd : list string) (o : run_outcome)
| EvPrint (s : string)
| EvWrite (p : Path) (s : string).

(** ** The monad: state, exceptions, events *)

Definition M (A : Type) : Type := world -> py_result A * world * list event.

Definition ret {A} (a : A) : M A := fun w => (Ret a, w, []).

Definition raise {A} (e : exn) : M A := fun w => (Raise e, w, []).

Definition bind {A B} (m : M A) (k : A -> M B) : M B := fun w =>
  match m w with
  | (Ret a, w1, t1) =>
      match k a w1 with
      | (r, w2, t2) => (r, w2, t1 ++ t2)
      end
  | (Raise e, w1, t1) => (Raise e, w1, t1)
  end.

(** [try: m except ... as e:] hands the exception to the handler. *)
Definition try {A} (m : M A) : M (py_result A) := fun w =>
  match m w with
  | (r, w1, t1) => (Ret r, w1, t1)
  end.

Definition emit (e : event) : M unit := fun w => (Ret tt, w, [e]).

Definition get_world : M world := fun w => (Ret w, w, []).

Notation "'do' x <- m ; k" := (bind m (fun x => k))
  (at level 10, x name, m at level 100, k at level 200).
Notation "m ;; k" := (bind m (fun _ => k))
  (at level 100, k at level 200, right associativity).

(** ** Strings *)

Definition newline : string := String (Ascii.ascii_of_nat 10) EmptyString.

Definition slash : Ascii.ascii := Ascii.ascii_of_nat 47.

Fixpoint has_slash (s : string) : bool :=
  match s with
  | EmptyString => false
  | String c r => if Ascii.eqb c slash then true else has_slash r
  end.

(** [os.path.basename]: what follows the last slash. *)
Fixpoint basename (s : string) : string :=
  match s with
  | EmptyString => EmptyString
  | String c r =>
      if Ascii.eqb c slash then basename r
      else if has_slash r then basename r
      else s
  end.

Definition program_name : string := "pre-commit-dune-format-dune-file".

Definition _dune_file_names : list string :=
  ["dune"; "dune-project"; "dune-workspace"].

(** ** Filesystem primitives *)

(** [os.path.isfile]. *)
Definition isfile (p : Path) : M bool := fun w =>
  (Ret (match fs w !! p with Some (Regular _) => true | _ => false end),
   w, [EvIsFile p]).

(** [os.access(p, mode)]. *)
Definition access (p : Path) (mode : access_mode) : M bool := fun w =>
  (Ret (match fs w !! p with
        | Some (Regular f) =>
            match mode with R_OK => readable f | W_OK => writable f end
        | Some (Directory r wr) =>
            match mode with R_OK => r | W_OK => wr end
        | None => false
        end),
   w, [EvAccess p mode]).

(** [open(p, "w")] followed by [write(s)]: an existing regular file is
    truncated and rewritten, a missing one is created. *)
Definition write_text (p : Path) (s : string) : M unit := fun w =>
  match fs w !! p with
  | Some (Regular f) =>
      if writable f then
        (Ret tt,
         World (<[p := Regular (File (readable f) (writable f) s)]> (fs w))
               (tmpdir w),
         [EvWrite p s])
      else (Raise (PermissionError p), w, [])
  | Some (Directory _ _) => (Raise (IsADirectoryError p), w, [])
  | None =>
      (Ret tt, World (<[p := Regular (File true true s)]> (fs w)) (tmpdir w),
       [EvWrite p s])
  end.

(** [tempfile.NamedTemporaryFile(mode="w", dir=d, delete=False).name]: a
    new empty file in the temporary directory. *)
Definition NamedTemporaryFile : M TmpPath := fun w =>
  match tmpdir w with
  | Some m =>
      let t := fresh (dom m) in
      (Ret t, World (fs w) (Some (<[t := EmptyString]> m)), [])
  | None => (Raise (FileNotFoundError "tempdir"), w, [])
  end.

(** [open(t, "w")] and [write(s)] on a temporary file: the file is
    created when it is not there. *)
Definition write_tmp (t : TmpPath) (s : string) : M unit := fun w =>
  match tmpdir w with
  | Some m => (Ret tt, World (fs w) (Some (<[t := s]> m)), [])
  | None => (Raise (FileNotFoundError "tempdir"), w, [])
  end.

(** [open(t).read()] on a temporary file. *)
Definition read_tmp (t : TmpPath) : M string := fun w =>
  match tmpdir w with
  | Some m =>
      match m !! t with
      | Some s => (Ret s, w, [])
      | None => (Raise (FileNotFoundError "tempfile"), w, [])
      end
  | None => (Raise (FileNotFoundError "tempdir"), w, [])
  end.

Definition print (s : string) : M unit := emit (EvPrint s).

(** ** The resolver: [get_dune_file_path] *)

Definition get_dune_file_path (arg : string) : M (option Path) :=
  do is_file <- isfile arg;
  if is_file && bool_decide (basename arg ∈ _dune_file_names) then
    do r <- access arg R_OK;
    if negb r then
      raise (PermissionError ("Can't read dune file '" +:+ arg +:+ "'"))
    else
      do wr <- access arg W_OK;
      if negb wr then
        raise (PermissionError ("Can't write dune file '" +:+ arg +:+ "'"))
      else ret (Some arg)
  else ret None.

(** ** The staging dictionary

    [orig_dune_to_tmp_dune : dict[Path, Optional[Path]]].  A Python dict
    iterates in the order its keys were first inserted; assigning to a key
    that is present replaces the value and keeps the position. *)

Abbreviation staging := (list (Path * option TmpPath)) (only parsing).

Fixpoint dict_set (k : Path) (v : option TmpPath) (d : staging) : staging :=
  match d with
  | [] => [(k, v)]
  | (k', v') :: d' =>
      if decide (k' = k) then (k', v) :: d' else (k', v') :: dict_set k v d'
  end.

Definition dict_keys (d : staging) : list Path := d.*1.

(** ** Vocabulary of the statements *)

Definition permitted_name (p : string) : Prop :=
  basename p ∈ _dune_file_names.

(** A path the resolver accepts: a regular file with a permitted base
    name that can be read and written. *)
Definition valid_target (f : gmap string node) (p : string) : Prop :=
  ∃ c, f !! p = Some (Regular (File true true c)) ∧ permitted_name p.

(** A regular file with a permitted base name that cannot be read or
    cannot be written. *)
Definition permission_denied (f : gmap string node) (p : string) : Prop :=
  ∃ fl, f !! p = Some (Regular fl) ∧ permitted_name p ∧
        readable fl && writable fl = false.

Definition file_content (f : gmap string node) (p : string) : option string :=
  match f !! p with
  | Some (Regular fl) => Some (content fl)
  | _ => None
  end.

(** Projections of a trace. *)
Definition runs (t : list event) : list (list string * run_outcome) :=
  omap (λ e, match e with EvRun c o => Some (c, o) | _ => None end) t.

Definition writes (t : list event) : list (string * string) :=
  omap (λ e, match e with EvWrite p s => Some (p, s) | _ => None end) t.

Definition prints (t : list event) : list string :=
  omap (λ e, match e with EvPrint s => Some s | _ => None end) t.

Definition probes (t : list event) : list string :=
  omap (λ e, match e with
             | EvIsFile p => Some p
             | EvAccess p _ => Some p
             | _ => None
             end) t.

(** What the run wrote to standard output. *)
Definition stdout_text (t : list event) : string :=
  foldr String.append EmptyString (prints t).

(** The keys of a dict filled from [files], in iteration order: every
    path once, at the place of its first occurrence. *)
Definition add_key (acc : list string) (k : string) : list string :=
  if decide (k ∈ acc) then acc else acc ++ [k].

Definition ordered_keys (files : list string) : list string :=
  foldl add_key [] files.

(** The dict the staging loop builds when every path resolves, and the
    temporary directory it leaves, from the directory [m] it finds. *)
Fixpoint staged (in_place : bool) (files : list Path)
    (m : gmap TmpPath string) (d : staging)
  : staging * gmap TmpPath string :=
  match files with
  | [] => (d, m)
  | f :: rest =>
      if in_place then
        staged in_place rest (<[fresh (dom m) := EmptyString]> m)
          (dict_set f (Some (fresh (dom m))) d)
      else staged in_place rest m (dict_set f None d)
  end.

Definition stage_events (files : list string) : list event :=
  files ≫= λ p, [EvIsFile p; EvAccess p R_OK; EvAccess p W_OK].

Definition not_a_dune_file_msg (p : string) : string :=
  p +:+ " should be named either 'dune', 'dune-project' or 'dune-workspace'.".

(** The staging dict of an in-place run in the temporary directory [m]:
    no key twice, no temporary file twice, every temporary file made. *)
Definition well_staged (m : gmap TmpPath string) (d : staging) : Prop :=
  NoDup d.*1 ∧ NoDup d.*2 ∧ ∀ k v, (k, v) ∈ d → ∃ t, v = Some t ∧ t ∈ dom m.

(** How the formatting loop ends once a started formatter did not
    complete with status 0. *)
Definition stops_with (o : run_outcome) (r : py_result (option Z)) : Prop :=
  match o with
  | Completed rc _ => rc = 0%Z ∨ r = Ret (Some rc)
  | Raised (CalledProcessError rc _) => r = Ret (Some rc)
  | Raised e =>
      if is_Exception e
      then r = Ret (Some 1%Z) ∨ r = Raise (UnboundLocalError "df_res")
      else r = Raise e
  end.

(** The outputs of the processes of a trace that completed with status
    0, in order. *)
Definition successes (rs : list (list string * run_outcome)) : list string :=
  omap (λ x, match x.2 with
             | Completed rc out => if (rc =? 0)%Z then Some out else None
             | Raised _ => None
             end) rs.

(** The value of the local variable [df_res] once the formatters on
    [keys] have all completed with status 0, [out] giving their outputs. *)
Definition df_after (out : string → string) (df : option string)
    (keys : list Path) : option string :=
  foldl (λ _ k, Some (out k)) df keys.

(** ** [SaveableTempDir.__super_kwargs__]

    Keyword arguments are a dict from names to values, kept here with its
    order; the values are of any type. *)

Definition my_kwargs : list string := ["save"].

Definition __super_kwargs__ {V : Type} (kwargs : list (string * V))
  : list (string * V) :=
  filter (λ kv, kv.1 ∉ my_kwargs) kwargs.

(** ** Parsed command line *)

Record Namespace : Type := {
  version : bool;
  verbose_hook : bool;
  save_dune_temps : bool;
  in_place : bool;
  dune_files : list Path
}.

(** ** A concrete machine

    A small tree, used to run the program on explicit inputs. *)

Definition ex_fs : gmap string node :=
  <["dune" := Regular (File true true "(library(name foo))")]>
  (<["sub/dune-project" := Regular (File true true "(lang dune 3.0)")]>
  (<["locked/dune" := Regular (File false true "(rule)")]>
  (<["BUILD.bazel" := Regular (File false false "cc_library()")]>
  (<["ws/dune-workspace" := Directory true true]> ∅)))).

Definition ex_world : world := World ex_fs None.

Definition ex_out (p : string) : string :=
  match ex_fs !! p with
  | Some (Regular fl) => "formatted:" +:+ content fl
  | _ => EmptyString
  end.

(** A formatter that succeeds on every regular file. *)
Definition ex_run (cmd : list string) (f : gmap string node) : run_outcome :=
  match cmd with
  | [_; _; p] =>
      if decide (p = "--version") then Completed 0 ("3.16.0" +:+ newline)
      else
        match f !! p with
        | Some (Regular fl) => Completed 0 ("formatted:" +:+ content fl)
        | _ => Completed 1 "no such file"
        end
  | _ => Raised (OSError "usage")
  end.

(** A formatter that exits with status 2 on [sub/dune-project]. *)
Definition ex_run_fail (cmd : list string) (f : gmap string node)
  : run_outcome :=
  match cmd with
  | [_; _; p] =>
      if decide (p = "sub/dune-project") then Completed 2 "syntax error"
      else ex_run cmd f
  | _ => ex_run cmd f
  end.

(** The executable is gone by the time it is started. *)
Definition ex_run_vanished (cmd : list string) (f : gmap string node)
  : run_outcome := Raised (FileNotFoundError "dune").

(** The user interrupts while the formatter runs. *)
Definition ex_run_interrupted (cmd : list string) (f : gmap string node)
  : run_outcome := Raised KeyboardInterrupt.

Definition ex_exe : string := "/usr/bin/dune".

Definition ex_args (ip : bool) (files : list string) : Namespace :=
  {| version := false; verbose_hook := false; save_dune_temps := false;
     in_place := ip; dune_files := files |}.

Definition ex_version_args (files : list string) : Namespace :=
  {| version := true; verbose_hook := false; save_dune_temps := false;
     in_place := false; dune_files := files |}.

Definition ex_save_args (ip : bool) (files : list string) : Namespace :=
  {| version := false; verbose_hook := false; save_dune_temps := true;
     in_place := ip; dune_files := files |}.

(** A formatter whose output depends on the content alone and that leaves
    its own output as it is. *)
Definition ex_tidy (c : string) : string :=
  if decide (c = "(library(name foo))") then "(library (name foo))" else c.

Definition ex_run_tidy (cmd : list string) (f : gmap string node)
  : run_outcome :=
  match cmd with
  | [_; _; p] =>
      match f !! p with
      | Some (Regular fl) => Completed 0 (ex_tidy (content fl))
      | _ => Completed 1 "no such file"
      end
  | _ => Raised (OSError "usage")
  end.

(** ** The program *)

Section Program.

(** The answer of [shutil.which("dune")]. *)
Variable shutil_which_dune : option string.

(** Starting [cmd] while the filesystem is [fs]: how the process ends and
    what the [stdout] attribute of the result holds under the redirections
    of the call. *)
Variable run_process : list string -> gmap string node -> run_outcome.

(** [_version.__version__], a generated module. *)
Variable pre_commit_dune_format_dune_file_version : string.

(** [functools.cache] keeps the first answer; [shutil.which] has one
    answer here, so the cache is not visible. *)
Definition dune_get_exe : M Path :=
  match shutil_which_dune with
  | None =>
      raise (FileNotFoundError
               "'dune' executable not found. Try running 'opam install dune'.")
  | Some p => ret p
  end.

(** [subprocess.run(cmd, ..., text=True, check=check).stdout]. *)
Definition subprocess_run (check : bool) (cmd : list string) : M string :=
  do w <- get_world;
  let o := run_process cmd (fs w) in
  emit (EvRun cmd o);;
  match o with
  | Completed rc out =>
      if check && negb (rc =? 0)%Z then raise (CalledProcessError rc out)
      else ret out
  | Raised e => raise e
  end.

Definition format_cmd (exe orig : Path) : list string :=
  [exe; "format-dune-file"; orig].

Definition version_cmd (exe : Path) : list string :=
  [exe; "format-dune-file"; "--version"].

(** How often a trace starts the formatter on [p], and how often it
    writes over [p]. *)
Definition times_formatted (exe p : string) (t : list event) : nat :=
  length (filter (λ x, x.1 = format_cmd exe p) (runs t)).

Definition times_committed (p : string) (t : list event) : nat :=
  length (filter (λ x, x.1 = p) (writes t)).

(** What the formatting loop does on [keys] when every formatter
    completes with status 0. *)
Definition ok_events (exe : Path) (out : string → string) (in_place : bool)
    (keys : list Path) : list event :=
  if in_place
  then (λ k, EvRun (format_cmd exe k) (Completed 0 (out k))) <$> keys
  else keys ≫= λ k, [EvRun (format_cmd exe k) (Completed 0 (out k));
                     EvPrint (out k)].

(** What the formatter printed on [k], if it completed. *)
Definition captured (exe : Path) (f : gmap Path node) (k : Path) : string :=
  match run_process (format_cmd exe k) f with
  | Completed _ out => out
  | Raised _ => EmptyString
  end.

(** The ways the formatting loop can end: it runs to its end, returns
    1, returns the status of a formatter, or raises because the
    executable is missing, because [df_res] is unbound, or because what
    came out of a started process is no [Exception]. *)
Definition loop_outcome (r : py_result (option Z)) (t : list event) : Prop :=
  match r with
  | Ret None => True
  | Ret (Some rc) =>
      rc = 1%Z
      ∨ (∃ cmd out, EvRun cmd (Completed rc out) ∈ t ∧ rc ≠ 0%Z)
      ∨ (∃ cmd out, EvRun cmd (Raised (CalledProcessError rc out)) ∈ t)
  | Raise e =>
      (shutil_which_dune = None ∧
       e = FileNotFoundError
             "'dune' executable not found. Try running 'opam install dune'.")
      ∨ e = UnboundLocalError "df_res"
      ∨ (is_Exception e = false ∧ ∃ cmd, EvRun cmd (Raised e) ∈ t)
  end.

(** Lines 111-130: validate every argument and stage a temporary file. *)
Fixpoint stage_loop (in_place : bool) (files : list Path) (d : staging)
  : M staging :=
  match files with
  | [] => ret d
  | should_be_dune_file :: rest =>
      do r <- get_dune_file_path should_be_dune_file;
      match r with
      | None =>
          raise (TypeError (not_a_dune_file_msg should_be_dune_file))
      | Some orig_dune_file =>
          if in_place then
            do this_tmp_dune_file <- NamedTemporaryFile;
            stage_loop in_place rest
              (dict_set orig_dune_file (Some this_tmp_dune_file) d)
          else
            stage_loop in_place rest (dict_set orig_dune_file None d)
      end
  end.

Definition missing_tmp_msg (orig : string) : string :=
  program_name +:+
  " can't find temporary formatted dune file for original '" +:+ orig +:+ "'.".

(** Lines 132-168: format every staged file.  [df_res] is the local
    variable of that name, unbound until the first call has returned; the
    result [Some rc] is a [return rc] from inside the loop. *)
Fixpoint format_loop (in_place : bool) (items : staging)
    (df_res : option string) : M (option Z) :=
  match items with
  | [] => ret None
  | (orig_dune_file, tmp_dune_file) :: rest =>
      do exe <- dune_get_exe;
      do r <- try (subprocess_run true (format_cmd exe orig_dune_file));
      match r with
      | Raise (CalledProcessError returncode _) => ret (Some returncode)
      | Raise e =>
          if is_Exception e then
            match df_res with
            | None => raise (UnboundLocalError "df_res")
            | Some _ => ret (Some 1%Z)
            end
          else raise e
      | Ret out =>
          if in_place then
            match tmp_dune_file with
            | None => raise (FileNotFoundError (missing_tmp_msg orig_dune_file))
            | Some t =>
                write_tmp t out;;
                read_tmp t;;
                format_loop in_place rest (Some out)
            end
          else
            print out;;
            format_loop in_place rest (Some out)
      end
  end.

(** Lines 174-183: copy every temporary file over its original. *)
Fixpoint commit_loop (items : staging) : M unit :=
  match items with
  | [] => ret tt
  | (orig_dune_file, tmp_dune_file) :: rest =>
      match tmp_dune_file with
      | None => raise (FileNotFoundError (missing_tmp_msg orig_dune_file))
      | Some t =>
          do formatted <- read_tmp t;
          write_text orig_dune_file formatted;;
          commit_loop rest
      end
  end.

(** [with SaveableTempDir(prefix=..., save=save) as d:]: [mkdtemp] makes
    an empty directory; leaving the block, by any way, removes it unless
    [save] is set. *)
Definition with_SaveableTempDir {A} (save : bool) (body : M A) : M A :=
  fun w =>
    match body (World (fs w) (Some ∅)) with
    | (r, w1, t) =>
        (r, if save then w1 else World (fs w1) None, t)
    end.

Definition real_main (args : Namespace) : M Z :=
  if version args then
    print (program_name +:+ " version: " +:+
           pre_commit_dune_format_dune_file_version +:+ newline);;
    do exe <- dune_get_exe;
    do out <- subprocess_run false (version_cmd exe);
    print ("dune format-dune-file version: " +:+ out);;
    ret 0%Z
  else
    with_SaveableTempDir (save_dune_temps args) (
      do orig_dune_to_tmp_dune <- stage_loop (in_place args) (dune_files args) [];
      do returned <- format_loop (in_place args) orig_dune_to_tmp_dune None;
      match returned with
      | Some rc => ret rc
      | None =>
          if in_place args then
            commit_loop orig_dune_to_tmp_dune;;
            ret 0%Z
          else ret 0%Z
      end).

(** The two handlers of [main]: [except Exception] gives 1,
    [except KeyboardInterrupt] gives 0. *)
Definition main_handler (r : py_result Z) : Z :=
  match r with
  | Ret rc => rc
  | Raise e => if is_Exception e then 1%Z else 0%Z
  end.

Definition main (args : Namespace) (w : world) : Z * world * list event :=
  match real_main args w with
  | (r, w', t) => (main_handler r, w', t)
  end.

(** * Properties *)

(** ** The helpers on small inputs *)

Example basename_nested : basename "a/b/dune-project" = "dune-project".
Proof. reflexivity. Qed.

Example basename_plain : basename "dune" = "dune".
Proof. reflexivity. Qed.

Example basename_trailing_slash : basename "dune/" = EmptyString.
Proof. reflexivity. Qed.

Example basename_suffix_is_not_enough :
  bool_decide (permitted_name "a/dune.inc") = false
  ∧ bool_decide (permitted_name "my-dune") = false
  ∧ bool_decide (permitted_name "x/dune-workspace") = true.
Proof. split_and!; vm_compute; reflexivity. Qed.

Example dict_set_keeps_the_place :
  dict_set "a" (Some 7) [("a", Some 1); ("b", Some 2)]
  = [("a", Some 7); ("b", Some 2)].
Proof. reflexivity. Qed.

Example dict_set_appends :
  dict_set "c" None [("a", Some 1); ("b", Some 2)]
  = [("a", Some 1); ("b", Some 2); ("c", None)].
Proof. reflexivity. Qed.

Example ordered_keys_first_occurrence :
  ordered_keys ["a"; "b"; "a"; "c"; "b"] = ["a"; "b"; "c"].
Proof. reflexivity. Qed.

(** ** The monad *)

Lemma bind_ret_eq {A B} (m : M A) (k : A -> M B) w a w1 t1 :
  m w = (Ret a, w1, t1) ->
  bind m k w = match k a w1 with (r, w2, t2) => (r, w2, t1 ++ t2) end.
Proof. unfold bind. by intros ->. Qed.

Lemma bind_raise_eq {A B} (m : M A) (k : A -> M B) w e w1 t1 :
  m w = (Raise e, w1, t1) -> bind m k w = (Raise e, w1, t1).
Proof. unfold bind. by intros ->. Qed.

(** ** Traces *)

Lemma runs_app t1 t2 : runs (t1 ++ t2) = runs t1 ++ runs t2.
Proof. apply omap_app. Qed.

Lemma writes_app t1 t2 : writes (t1 ++ t2) = writes t1 ++ writes t2.
Proof. apply omap_app. Qed.

Lemma prints_app t1 t2 : prints (t1 ++ t2) = prints t1 ++ prints t2.
Proof. apply omap_app. Qed.

Lemma elem_of_runs cmd o t : EvRun cmd o ∈ t ↔ (cmd, o) ∈ runs t.
Proof.
  unfold runs. rewrite list_elem_of_omap. split.
  - intros H. by exists (EvRun cmd o).
  - intros ([] & H & [= -> ->]). done.
Qed.

Lemma stage_events_runs files : runs (stage_events files) = [].
Proof. induction files as [|f files IH]; [done|]. apply IH. Qed.

Lemma stage_events_writes files : writes (stage_events files) = [].
Proof. induction files as [|f files IH]; [done|]. apply IH. Qed.

Lemma stage_events_prints files : prints (stage_events files) = [].
Proof. induction files as [|f files IH]; [done|]. apply IH. Qed.

(** ** The resolver *)

Lemma get_dune_file_path_eq arg w :
  get_dune_file_path arg w =
  match fs w !! arg with
  | Some (Regular fl) =>
      if bool_decide (permitted_name arg) then
        if readable fl then
          if writable fl then
            (Ret (Some arg), w,
             [EvIsFile arg; EvAccess arg R_OK; EvAccess arg W_OK])
          else
            (Raise (PermissionError ("Can't write dune file '" +:+ arg +:+ "'")),
             w, [EvIsFile arg; EvAccess arg R_OK; EvAccess arg W_OK])
        else
          (Raise (PermissionError ("Can't read dune file '" +:+ arg +:+ "'")),
           w, [EvIsFile arg; EvAccess arg R_OK])
      else (Ret None, w, [EvIsFile arg])
  | _ => (Ret None, w, [EvIsFile arg])
  end.
Proof.
  unfold get_dune_file_path, bind, isfile, access, ret, raise, permitted_name.
  destruct (fs w !! arg) as [[|fl]|] eqn:Hl; simpl; try done.
  destruct (bool_decide _); simpl; [|done].
  rewrite Hl. destruct (readable fl); simpl; [|done].
  rewrite Hl. by destruct (writable fl).
Qed.

Lemma resolve_valid arg w :
  valid_target (fs w) arg ->
  get_dune_file_path arg w =
  (Ret (Some arg), w, [EvIsFile arg; EvAccess arg R_OK; EvAccess arg W_OK]).
Proof.
  intros (c & Hl & Hn). rewrite get_dune_file_path_eq, Hl.
  by rewrite bool_decide_eq_true_2.
Qed.

Lemma resolve_denied arg w :
  permission_denied (fs w) arg ->
  ∃ msg t, get_dune_file_path arg w = (Raise (PermissionError msg), w, t).
Proof.
  intros (fl & Hl & Hn & Hp). rewrite get_dune_file_path_eq, Hl.
  rewrite bool_decide_eq_true_2 by done.
  destruct (readable fl); [destruct (writable fl); [done|]|]; eauto.
Qed.

Lemma resolve_other arg w :
  ¬ valid_target (fs w) arg -> ¬ permission_denied (fs w) arg ->
  get_dune_file_path arg w = (Ret None, w, [EvIsFile arg]).
Proof.
  intros Hv Hd. rewrite get_dune_file_path_eq.
  destruct (fs w !! arg) as [[|[r wr c]]|] eqn:Hl; try done.
  case_bool_decide as Hn; [|done]. simpl.
  destruct r, wr; simpl.
  - destruct Hv. by exists c.
  - destruct Hd. by eexists.
  - destruct Hd. by eexists.
  - destruct Hd. by eexists.
Qed.

Lemma resolve_cases arg w :
  valid_target (fs w) arg ∨ permission_denied (fs w) arg
  ∨ (¬ valid_target (fs w) arg ∧ ¬ permission_denied (fs w) arg).
Proof.
  destruct (fs w !! arg) as [[|[r wr c]]|] eqn:Hl.
  - right; right. split; intros (? & ? & ?); congruence.
  - destruct (decide (permitted_name arg)) as [Hn|Hn].
    + destruct r, wr.
      * left. by exists c.
      * right; left. by eexists.
      * right; left. by eexists.
      * right; left. by eexists.
    + right; right. split; [intros (? & ? & ?)|intros (? & ? & ? & ?)]; done.
  - right; right. split; intros (? & ? & ?); congruence.
Qed.

(** ** The staging dictionary *)

Lemma add_key_elem acc k x : x ∈ add_key acc k ↔ x ∈ acc ∨ x = k.
Proof.
  unfold add_key. case_decide as Hk.
  - split; [tauto|]. intros [?| ->]; done.
  - rewrite elem_of_app, list_elem_of_singleton. tauto.
Qed.

Lemma add_key_NoDup acc k : NoDup acc → NoDup (add_key acc k).
Proof.
  intros Hnd. unfold add_key. case_decide as Hk; [done|].
  apply NoDup_app. split_and!; [done| |apply NoDup_singleton].
  intros x Hx ->%list_elem_of_singleton. done.
Qed.

Lemma foldl_add_key_NoDup files : ∀ acc,
  NoDup acc → NoDup (foldl add_key acc files).
Proof.
  induction files as [|f files IH]; intros acc Hnd; simpl; [done|].
  by apply IH, add_key_NoDup.
Qed.

Lemma elem_of_foldl_add_key files : ∀ acc x,
  x ∈ foldl add_key acc files ↔ x ∈ acc ∨ x ∈ files.
Proof.
  induction files as [|f files IH]; intros acc x; simpl.
  - rewrite elem_of_nil. tauto.
  - rewrite IH, add_key_elem, elem_of_cons. tauto.
Qed.

Lemma foldl_add_key_id files : ∀ acc,
  NoDup (acc ++ files) → foldl add_key acc files = acc ++ files.
Proof.
  induction files as [|f files IH]; intros acc Hnd; simpl.
  - by rewrite app_nil_r.
  - assert (add_key acc f = acc ++ [f]) as ->.
    { unfold add_key. case_decide as Hf; [|done].
      apply NoDup_app in Hnd as (_ & Hd & _). destruct (Hd f Hf). left. }
    rewrite IH; rewrite <- app_assoc; done.
Qed.

Lemma ordered_keys_NoDup files : NoDup (ordered_keys files).
Proof. apply foldl_add_key_NoDup, NoDup_nil_2. Qed.

Lemma elem_of_ordered_keys files x : x ∈ ordered_keys files ↔ x ∈ files.
Proof.
  unfold ordered_keys. rewrite elem_of_foldl_add_key, elem_of_nil. tauto.
Qed.

Lemma ordered_keys_id files : NoDup files → ordered_keys files = files.
Proof. intros Hnd. by apply (foldl_add_key_id files []). Qed.

Lemma dict_keys_set k v d : dict_keys (dict_set k v d) = add_key (dict_keys d) k.
Proof.
  unfold dict_keys, add_key. induction d as [|[k' v'] d IH]; csimpl.
  - done.
  - destruct (decide (k' = k)) as [->|Hne]; csimpl.
    + rewrite decide_True; [done|]. left.
    + rewrite IH. case_decide as Hk.
      * rewrite decide_True; [done|]. by right.
      * rewrite decide_False; [done|].
        intros [->|?]%elem_of_cons; done.
Qed.

Lemma elem_of_dict_set k v d k0 v0 :
  (k0, v0) ∈ dict_set k v d → v0 = v ∨ (k0, v0) ∈ d.
Proof.
  induction d as [|[k' v'] d IH]; simpl.
  - intros [= -> ->]%list_elem_of_singleton. by left.
  - destruct (decide (k' = k)) as [->|Hne].
    + intros [[= -> ->]|?]%elem_of_cons; [by left|]. right. by right.
    + intros [[= -> ->]|H]%elem_of_cons; [right; left|].
      destruct (IH H); [by left|]. right. by right.
Qed.

Lemma elem_of_dict_set_values k v d x :
  x ∈ (dict_set k v d).*2 → x = v ∨ x ∈ d.*2.
Proof.
  intros ([k0 v0] & -> & H)%list_elem_of_fmap. simpl.
  destruct (elem_of_dict_set _ _ _ _ _ H) as [?|H']; [by left|].
  right. apply list_elem_of_fmap. by exists (k0, v0).
Qed.

Lemma dict_set_values_NoDup k v d :
  NoDup d.*2 → v ∉ d.*2 → NoDup (dict_set k v d).*2.
Proof.
  induction d as [|[k' v'] d IH]; csimpl; intros Hnd Hv.
  - apply NoDup_singleton.
  - apply NoDup_cons in Hnd as [Hv' Hnd].
    apply not_elem_of_cons in Hv as [Hne Hv].
    destruct (decide (k' = k)) as [->|Hk]; csimpl.
    + by apply NoDup_cons.
    + apply NoDup_cons. split; [|by apply IH].
      intros [->|?]%elem_of_dict_set_values; done.
Qed.

Lemma dict_set_well_staged m k d :
  well_staged m d →
  well_staged (<[fresh (dom m) := EmptyString]> m) (dict_set k (Some (fresh (dom m))) d).
Proof.
  intros (Hk & Hv & Hb). split_and!.
  - change (NoDup (dict_keys (dict_set k (Some (fresh (dom m))) d))).
    rewrite dict_keys_set. by apply add_key_NoDup.
  - apply dict_set_values_NoDup; [done|].
    intros ([k0 v0] & Heq & Hin)%list_elem_of_fmap. simpl in Heq. subst v0.
    destruct (Hb _ _ Hin) as (t & [= <-] & Hdom).
    by apply (is_fresh (dom m)).
  - intros k0 v0 [->|Hin]%elem_of_dict_set.
    + exists (fresh (dom m)). split; [done|]. rewrite dom_insert_L. set_solver.
    + destruct (Hb _ _ Hin) as (t & -> & Hdom). exists t. split; [done|].
      rewrite dom_insert_L. set_solver.
Qed.

Lemma staged_well_staged files : ∀ m d,
  well_staged m d →
  well_staged (staged true files m d).2 (staged true files m d).1.
Proof.
  induction files as [|f files IH]; intros m d Hd; simpl; [done|].
  by apply IH, dict_set_well_staged.
Qed.

Lemma staged_keys ip files : ∀ m d,
  dict_keys (staged ip files m d).1 = foldl add_key (dict_keys d) files.
Proof.
  induction files as [|f files IH]; intros m d; simpl; [done|].
  destruct ip; by rewrite IH, dict_keys_set.
Qed.

Lemma staged_keys_nil ip files m :
  dict_keys (staged ip files m []).1 = ordered_keys files.
Proof. apply staged_keys. Qed.

Lemma staged_stream files : ∀ m d, (staged false files m d).2 = m.
Proof. induction files as [|f files IH]; intros m d; simpl; [done|apply IH]. Qed.

(** ** Staging *)

Lemma NamedTemporaryFile_eq w m :
  tmpdir w = Some m →
  NamedTemporaryFile w
  = (Ret (fresh (dom m)), World (fs w) (Some (<[fresh (dom m) := EmptyString]> m)), []).
Proof. unfold NamedTemporaryFile. by intros ->. Qed.

Lemma stage_loop_valid ip files : ∀ d w m,
  tmpdir w = Some m → Forall (valid_target (fs w)) files →
  stage_loop ip files d w =
  (Ret (staged ip files m d).1,
   World (fs w) (Some (staged ip files m d).2),
   stage_events files).
Proof.
  induction files as [|f files IH]; intros d w m Hm Hall.
  - destruct w as [f0 td]. simpl in *. by subst td.
  - apply Forall_cons in Hall as [Hf Hall]. simpl.
    rewrite (bind_ret_eq _ _ _ _ _ _ (resolve_valid _ _ Hf)).
    destruct ip.
    + rewrite (bind_ret_eq _ _ _ _ _ _ (NamedTemporaryFile_eq _ _ Hm)).
      rewrite (IH _ _ (<[fresh (dom m) := EmptyString]> m)); done.
    + rewrite (IH _ _ m); done.
Qed.

(** Whatever the arguments, staging either resolves them all or stops at
    the first one that does not resolve; it starts no process, writes no
    file and prints nothing. *)
Lemma stage_loop_cases ip files : ∀ d w m,
  tmpdir w = Some m →
  Forall (valid_target (fs w)) files
  ∨ ∃ pre q post e w' t,
      files = pre ++ q :: post ∧ Forall (valid_target (fs w)) pre ∧
      ((permission_denied (fs w) q ∧ ∃ msg, e = PermissionError msg)
       ∨ (¬ permitted_name q ∨ ¬ (∃ fl, fs w !! q = Some (Regular fl))) ∧
         e = TypeError (not_a_dune_file_msg q)) ∧
      stage_loop ip files d w = (Raise e, w', t) ∧
      fs w' = fs w ∧ runs t = [] ∧ writes t = [] ∧ prints t = [].
Proof.
  induction files as [|f files IH]; intros d w m Hl; [by left|].
  destruct (resolve_cases f w) as [Hv|[Hd|[Hnv Hnd]]].
  - set (n := if ip then Some (fresh (dom m)) else None).
    set (w1 := if ip then World (fs w) (Some (<[fresh (dom m) := EmptyString]> m))
               else w).
    set (l1 := if ip then <[fresh (dom m) := EmptyString]> m else m).
    assert (tmpdir w1 = Some l1) as Hl1 by (subst w1 l1; by destruct ip).
    assert (fs w1 = fs w) as Hfs by (subst w1; by destruct ip).
    assert (∀ r w' t, stage_loop ip files (dict_set f n d) w1 = (r, w', t) →
              stage_loop ip (f :: files) d w =
              (r, w', [EvIsFile f; EvAccess f R_OK; EvAccess f W_OK] ++ t))
      as Hstep.
    { intros r w' t Hr. simpl.
      rewrite (bind_ret_eq _ _ _ _ _ _ (resolve_valid _ _ Hv)).
      subst n w1. destruct ip.
      - rewrite (bind_ret_eq _ _ _ _ _ _ (NamedTemporaryFile_eq _ _ Hl)).
        by rewrite Hr.
      - by rewrite Hr. }
    destruct (IH (dict_set f n d) w1 l1 Hl1) as
      [Hall|(pre & q & post & e & w' & t & -> & Hpre & He & Hr & Hw & Ht)].
    + left. apply Forall_cons. split; [done|]. by rewrite <- Hfs.
    + right. exists (f :: pre), q, post, e, w', (stage_events [f] ++ t).
      rewrite Hfs in *.
      split_and!; try done.
      * by apply Forall_cons.
      * by apply Hstep.
      * rewrite runs_app. by destruct Ht as (-> & _ & _).
      * rewrite writes_app. by destruct Ht as (_ & -> & _).
      * rewrite prints_app. by destruct Ht as (_ & _ & ->).
  - right. destruct (resolve_denied _ _ Hd) as (msg & t & Hr).
    exists [], f, files, (PermissionError msg), w, t.
    split_and!; try done.
    + left. split; [done|]. by exists msg.
    + simpl. by rewrite (bind_raise_eq _ _ _ _ _ _ Hr).
    + rewrite get_dune_file_path_eq in Hr.
      repeat case_match; by simplify_eq.
    + rewrite get_dune_file_path_eq in Hr.
      repeat case_match; by simplify_eq.
    + rewrite get_dune_file_path_eq in Hr.
      repeat case_match; by simplify_eq.
  - right.
    exists [], f, files, (TypeError (not_a_dune_file_msg f)), w, [EvIsFile f].
    split_and!; try done.
    + right. split; [|done].
      destruct (decide (permitted_name f)) as [Hn|Hn]; [|by left].
      right. intros ([r wr c] & Hfl).
      destruct r, wr;
        first [destruct Hnv; by exists c | destruct Hnd; by eexists].
    + simpl. by rewrite (bind_ret_eq _ _ _ _ _ _ (resolve_other _ _ Hnv Hnd)).
Qed.

(** ** Starting the formatter *)

Lemma subprocess_run_eq check cmd w :
  subprocess_run check cmd w =
  match run_process cmd (fs w) with
  | Completed rc out =>
      if check && negb (rc =? 0)%Z
      then (Raise (CalledProcessError rc out), w, [EvRun cmd (Completed rc out)])
      else (Ret out, w, [EvRun cmd (Completed rc out)])
  | Raised e => (Raise e, w, [EvRun cmd (Raised e)])
  end.
Proof.
  unfold subprocess_run, bind, get_world, emit, ret, raise.
  destruct (run_process cmd (fs w)) as [rc out|e]; [|done].
  by destruct (check && negb (rc =? 0)%Z).
Qed.

(** ** Formatting *)

(** One turn of the formatting loop, written out. *)
Lemma format_loop_cons ip k v rest df w :
  format_loop ip ((k, v) :: rest) df w =
  match shutil_which_dune with
  | None =>
      (Raise (FileNotFoundError
                "'dune' executable not found. Try running 'opam install dune'."),
       w, [])
  | Some exe =>
      let cmd := format_cmd exe k in
      let o := run_process cmd (fs w) in
      match o with
      | Completed rc out =>
          if negb (rc =? 0)%Z then (Ret (Some rc), w, [EvRun cmd o])
          else if ip then
            match v with
            | None =>
                (Raise (FileNotFoundError (missing_tmp_msg k)), w, [EvRun cmd o])
            | Some t =>
                match tmpdir w with
                | Some m =>
                    match format_loop ip rest (Some out)
                            (World (fs w) (Some (<[t := out]> m))) with
                    | (r, w2, t2) => (r, w2, EvRun cmd o :: t2)
                    end
                | None => (Raise (FileNotFoundError "tempdir"), w, [EvRun cmd o])
                end
            end
          else
            match format_loop ip rest (Some out) w with
            | (r, w2, t2) => (r, w2, EvRun cmd o :: EvPrint out :: t2)
            end
      | Raised e =>
          match e with
          | CalledProcessError rc _ => (Ret (Some rc), w, [EvRun cmd o])
          | _ =>
              if is_Exception e then
                match df with
                | None => (Raise (UnboundLocalError "df_res"), w, [EvRun cmd o])
                | Some _ => (Ret (Some 1%Z), w, [EvRun cmd o])
                end
              else (Raise e, w, [EvRun cmd o])
          end
      end
  end.
Proof.
  simpl. unfold dune_get_exe. destruct shutil_which_dune as [exe|]; [|done].
  unfold bind at 1. unfold ret at 1. unfold bind at 1. unfold try at 1.
  rewrite subprocess_run_eq. simpl.
  destruct (run_process (format_cmd exe k) (fs w)) as [rc out|e].
  - destruct (rc =? 0)%Z; simpl; [|done].
    destruct ip.
    + destruct v as [t|]; [|done].
      unfold bind at 1, write_tmp.
      destruct (tmpdir w) as [m|]; [|done].
      unfold bind at 1, read_tmp. simpl.
      rewrite lookup_insert_eq.
      by destruct (format_loop _ _ _ _) as [[r w2] t2].
    + unfold bind at 1, print, emit.
      by destruct (format_loop _ _ _ _) as [[r w2] t2].
  - destruct e; simpl; try done; by destruct df.
Qed.

Ltac format_step H :=
  rewrite format_loop_cons in H; cbv zeta in H;
  repeat case_match; simplify_eq.

Ltac use_IH IH :=
  match goal with
  | H : format_loop _ _ _ _ = _ |- _ => apply IH in H
  end; destruct_and?; simpl in *.

(** The formatting loop leaves the filesystem alone. *)
Lemma format_loop_inert ip items : ∀ df w r w' t,
  format_loop ip items df w = (r, w', t) →
  fs w' = fs w ∧ writes t = [] ∧ probes t = [] ∧ (ip = true → prints t = []).
Proof.
  induction items as [|[k v] items IH]; intros df w r w' t H.
  - by injection H as <- <- <-.
  - format_step H; try done; use_IH IH; split_and!; auto; congruence.
Qed.

(** A formatter that did not complete with status 0 ends the loop. *)
Lemma format_loop_stops ip items : ∀ df w r w' t cmd o,
  format_loop ip items df w = (r, w', t) → EvRun cmd o ∈ t → stops_with o r.
Proof.
  induction items as [|[k v] items IH]; intros df w r w' t cmd o H Hin.
  - injection H as <- <- <-. by apply elem_of_nil in Hin.
  - format_step H;
      repeat (apply elem_of_cons in Hin as [Heq|Hin]; simplify_eq);
      try (by apply elem_of_nil in Hin);
      try (by eapply IH);
      unfold stops_with; simpl; auto;
      left; by apply Z.eqb_eq, negb_false_iff.
Qed.

(** The formatters started are those of an initial part of the dict, in
    its order. *)
Lemma format_loop_runs_prefix exe ip items : ∀ df w r w' t,
  shutil_which_dune = Some exe →
  format_loop ip items df w = (r, w', t) →
  (runs t).*1 `prefix_of` (format_cmd exe <$> items.*1).
Proof.
  induction items as [|[k v] items IH]; intros df w r w' t Hexe H.
  - injection H as <- <- <-. apply prefix_nil.
  - format_step H; csimpl;
      try (apply prefix_cons, prefix_nil);
      apply prefix_cons; by eapply IH.
Qed.

Lemma format_loop_no_exe ip items : ∀ df w r w' t,
  shutil_which_dune = None →
  format_loop ip items df w = (r, w', t) → t = [].
Proof.
  intros df w r w' t Hexe H. destruct items as [|[k v] items].
  - by injection H as <- <- <-.
  - by format_step H.
Qed.

Lemma well_staged_cons m k v d :
  well_staged m ((k, v) :: d) →
  (∃ t, v = Some t ∧ Some t ∉ d.*2) ∧ (k ∉ d.*1) ∧ well_staged m d.
Proof.
  intros (Hk & Hv & Hb). csimpl in *.
  apply NoDup_cons in Hk as [Hk1 Hk2]. apply NoDup_cons in Hv as [Hv1 Hv2].
  destruct (Hb k v) as (t & -> & Hdom); [left|].
  split; [by exists t|]. split; [done|]. split_and!; [done|done|].
  intros k0 v0 Hin. apply (Hb k0). by right.
Qed.

Lemma well_staged_insert m t s d :
  well_staged m d → well_staged (<[t := s]> m) d.
Proof.
  intros (Hk & Hv & Hb). split_and!; [done|done|].
  intros k v Hin. destruct (Hb k v Hin) as (t0 & -> & Hdom).
  exists t0. split; [done|]. rewrite dom_insert_L. set_solver.
Qed.

(** In-place mode, every formatter completing with status 0: every
    staged temporary file ends up holding the output for its original. *)
Lemma format_loop_in_place_ok exe (out : string → string) items : ∀ df w m,
  shutil_which_dune = Some exe →
  tmpdir w = Some m →
  (∀ k, k ∈ items.*1 →
        run_process (format_cmd exe k) (fs w) = Completed 0 (out k)) →
  well_staged m items →
  ∃ m', format_loop true items df w =
          (Ret None, World (fs w) (Some m'),
           (λ k, EvRun (format_cmd exe k) (Completed 0 (out k))) <$> items.*1)
        ∧ (∀ k t, (k, Some t) ∈ items → m' !! t = Some (out k))
        ∧ (∀ t, Some t ∉ items.*2 → m' !! t = m !! t).
Proof.
  induction items as [|[k v] items IH]; intros df w m Hexe Hm Hrun Hws.
  - exists m. split_and!; [| |done].
    + destruct w as [f td]. simpl in *. by subst td.
    + intros k t Hin. by apply elem_of_nil in Hin.
  - apply well_staged_cons in Hws as ((t & -> & Htv) & Hk & Hws).
    rewrite format_loop_cons, Hexe. cbv zeta.
    rewrite (Hrun k) by left. simpl. rewrite Hm.
    destruct (IH (Some (out k)) (World (fs w) (Some (<[t:=out k]> m)))
                (<[t:=out k]> m) Hexe eq_refl) as (m' & -> & Hin & Hout).
    { intros k' Hk'. apply Hrun. by right. }
    { by apply well_staged_insert. }
    exists m'. split_and!; [done| |].
    + intros k0 t0 [[= -> ->]|H0]%elem_of_cons; [|by apply Hin].
      rewrite Hout by done. apply lookup_insert_eq.
    + intros t0 [Hne H0]%not_elem_of_cons.
      rewrite Hout by done. apply lookup_insert_ne. congruence.
Qed.

(** Stream mode, every formatter completing with status 0. *)
Lemma format_loop_stream_ok exe (out : string → string) items : ∀ df w,
  shutil_which_dune = Some exe →
  (∀ k, k ∈ items.*1 →
        run_process (format_cmd exe k) (fs w) = Completed 0 (out k)) →
  format_loop false items df w =
  (Ret None, w,
   items.*1 ≫= λ k, [EvRun (format_cmd exe k) (Completed 0 (out k));
                      EvPrint (out k)]).
Proof.
  induction items as [|[k v] items IH]; intros df w Hexe Hrun; [done|].
  rewrite format_loop_cons, Hexe. cbv zeta.
  rewrite (Hrun k) by left. simpl. rewrite IH; [done|done|].
  intros k' Hk'. apply Hrun. by right.
Qed.

(** The formatters before [k] completing with status 0 and the one on
    [k] with another status: the loop starts the formatter on [k] and
    returns its status. *)
Lemma format_loop_fails_at exe (out : string → string) ip k v post rc err :
  ∀ pre df w m,
  shutil_which_dune = Some exe →
  tmpdir w = Some m →
  (∀ p, p ∈ pre.*1 →
        run_process (format_cmd exe p) (fs w) = Completed 0 (out p)) →
  run_process (format_cmd exe k) (fs w) = Completed rc err → rc ≠ 0%Z →
  (ip = true → ∀ p v', (p, v') ∈ pre → is_Some v') →
  ∃ w' t,
    format_loop ip (pre ++ (k, v) :: post) df w = (Ret (Some rc), w', t) ∧
    EvRun (format_cmd exe k) (Completed rc err) ∈ t.
Proof.
  intros pre. induction pre as [|[p v'] pre IH];
    intros df w m Hexe Hm Hpre Hk Hrc Hsome.
  - rewrite app_nil_l, format_loop_cons, Hexe. cbv zeta. rewrite Hk.
    apply Z.eqb_neq in Hrc. rewrite Hrc. simpl.
    eexists _, _. split; [done|]. left.
  - rewrite <- app_comm_cons, format_loop_cons, Hexe. cbv zeta.
    rewrite (Hpre p) by left. simpl.
    assert (∀ q, q ∈ pre.*1 →
                 run_process (format_cmd exe q) (fs w) = Completed 0 (out q))
      as Hpre' by (intros q Hq; apply Hpre; by right).
    assert (ip = true → ∀ q v0, (q, v0) ∈ pre → is_Some v0) as Hsome'
      by (intros Hip q v0 Hq; apply (Hsome Hip q); by right).
    destruct ip.
    + destruct (Hsome eq_refl p v') as [t ->]; [left|]. rewrite Hm.
      destruct (IH (Some (out p)) (World (fs w) (Some (<[t:=out p]> m)))
                  (<[t:=out p]> m) Hexe eq_refl Hpre' Hk Hrc Hsome')
        as (w' & t' & -> & Hin).
      eexists _, _. split; [done|]. by right.
    + destruct (IH (Some (out p)) w m Hexe Hm Hpre' Hk Hrc Hsome')
        as (w' & t' & -> & Hin).
      eexists _, _. split; [done|]. right. by right.
Qed.

(** ** Committing *)

Lemma commit_loop_trace items : ∀ w r w' t,
  commit_loop items w = (r, w', t) →
  runs t = [] ∧ prints t = [] ∧ probes t = [] ∧
  (writes t).*1 `prefix_of` items.*1.
Proof.
  induction items as [|[k v] items IH]; intros w r w' t H.
  - injection H as <- <- <-. split_and!; try done.
  - simpl in H. destruct v as [tp|].
    2:{ injection H as <- <- <-. split_and!; try done. apply prefix_nil. }
    unfold bind at 1, read_tmp in H.
    destruct (tmpdir w) as [l|].
    2:{ injection H as <- <- <-. split_and!; try done. apply prefix_nil. }
    destruct (l !! tp) as [s|].
    2:{ injection H as <- <- <-. split_and!; try done. apply prefix_nil. }
    unfold bind at 1, write_text in H.
    destruct (fs w !! k) as [[|fl]|].
    + injection H as <- <- <-. split_and!; try done. apply prefix_nil.
    + destruct (writable fl).
      * destruct (commit_loop items _) as [[r2 w2] t2] eqn:Hrest.
        injection H as <- <- <-. apply IH in Hrest as (? & ? & ? & ?).
        split_and!; try done. csimpl. by apply prefix_cons.
      * injection H as <- <- <-. split_and!; try done. apply prefix_nil.
    + destruct (commit_loop items _) as [[r2 w2] t2] eqn:Hrest.
      injection H as <- <- <-. apply IH in Hrest as (? & ? & ? & ?).
      split_and!; try done. csimpl. by apply prefix_cons.
Qed.

(** Every staged temporary file holding the output for its original,
    every original resolved: the commit writes each output over its
    original and touches nothing else. *)
Lemma commit_loop_ok (out : string → string) items : ∀ w l,
  tmpdir w = Some l →
  (∀ k v, (k, v) ∈ items → ∃ t, v = Some t ∧ l !! t = Some (out k)) →
  NoDup items.*1 →
  (∀ k, k ∈ items.*1 → valid_target (fs w) k) →
  ∃ f', commit_loop items w =
          (Ret tt, World f' (Some l), (λ k, EvWrite k (out k)) <$> items.*1)
        ∧ (∀ k, k ∈ items.*1 →
                f' !! k = Some (Regular (File true true (out k))))
        ∧ (∀ p, p ∉ items.*1 → f' !! p = fs w !! p).
Proof.
  induction items as [|[k v] items IH]; intros w l Hl Htmp Hnd Hval.
  - exists (fs w). split_and!; [|by intros k ?%elem_of_nil|done].
    destruct w as [f td]. simpl in *. by subst td.
  - csimpl in *. apply NoDup_cons in Hnd as [Hk Hnd].
    destruct (Htmp k v) as (t & -> & Ht); [left|].
    destruct (Hval k) as (c & Hc & Hname); [left|].
    unfold bind at 1, read_tmp. rewrite Hl, Ht.
    unfold bind at 1, write_text. rewrite Hc. simpl. rewrite Hl.
    set (f1 := <[k:=Regular (File true true (out k))]> (fs w)).
    destruct (IH (World f1 (Some l)) l eq_refl) as (f' & -> & Hin & Hout).
    { intros k0 v0 H0. apply (Htmp k0). by right. }
    { done. }
    { intros k0 H0. destruct (Hval k0) as (c0 & Hc0 & Hn0); [by right|].
      exists c0. split; [|done]. simpl. subst f1.
      rewrite lookup_insert_ne; [done|]. by intros ->. }
    exists f'. split_and!; [done| |].
    + intros k0 [->|H0]%elem_of_cons; [|by apply Hin].
      rewrite Hout by done. simpl. subst f1. apply lookup_insert_eq.
    + intros p [Hne Hp]%not_elem_of_cons.
      rewrite Hout by done. simpl. subst f1. by apply lookup_insert_ne.
Qed.

(** ** The whole run *)

Lemma stage_loop_inert ip files d w l r w' t :
  tmpdir w = Some l →
  stage_loop ip files d w = (r, w', t) →
  fs w' = fs w ∧ runs t = [] ∧ writes t = [] ∧ prints t = [] ∧
  match r with
  | Ret d' =>
      Forall (valid_target (fs w)) files ∧ d' = (staged ip files l d).1 ∧
      tmpdir w' = Some (staged ip files l d).2
  | Raise e => is_Exception e = true
  end.
Proof.
  intros Hl H.
  destruct (stage_loop_cases ip files d w l Hl) as
    [Hall|(pre & q & post & e & w1 & t1 & -> & Hpre & He & Hr & Hw & Ht)].
  - rewrite (stage_loop_valid _ _ _ _ _ Hl Hall) in H.
    injection H as <- <- <-. simpl.
    rewrite stage_events_runs, stage_events_writes, stage_events_prints.
    done.
  - rewrite Hr in H. injection H as <- <- <-.
    destruct Ht as (? & ? & ?). split_and!; try done.
    destruct He as [(_ & msg & ->)|(_ & ->)]; done.
Qed.

(** A run that formats is: stage, format, and in in-place mode commit. *)
Lemma real_main_formatting args w r w' t :
  version args = false →
  real_main args w = (r, w', t) →
  ∃ r1 w1 t1,
    stage_loop (in_place args) (dune_files args) [] (World (fs w) (Some ∅))
    = (r1, w1, t1) ∧
    match r1 with
    | Raise e => r = Raise e ∧ t = t1 ∧ fs w' = fs w1
    | Ret d =>
        ∃ r2 w2 t2,
          format_loop (in_place args) d None w1 = (r2, w2, t2) ∧
          match r2 with
          | Raise e => r = Raise e ∧ t = t1 ++ t2 ∧ fs w' = fs w2
          | Ret (Some rc) => r = Ret rc ∧ t = t1 ++ t2 ∧ fs w' = fs w2
          | Ret None =>
              if in_place args then
                ∃ r3 w3 t3,
                  commit_loop d w2 = (r3, w3, t3) ∧
                  t = t1 ++ t2 ++ t3 ∧ fs w' = fs w3 ∧
                  r = match r3 with Ret _ => Ret 0%Z | Raise e => Raise e end
              else r = Ret 0%Z ∧ t = t1 ++ t2 ∧ fs w' = fs w2
          end
    end.
Proof.
  intros Hv. unfold real_main, with_SaveableTempDir. rewrite Hv.
  unfold bind at 1.
  destruct (stage_loop _ _ _ _) as [[[d|e] w1] t1] eqn:Hs; intros H.
  2:{ exists (Raise e), w1, t1. split; [done|].
      injection H as <- <- <-. by destruct (save_dune_temps args). }
  exists (Ret d), w1, t1. split; [done|].
  unfold bind at 1 in H.
  destruct (format_loop _ _ _ _) as [[[[rc|]|e] w2] t2] eqn:Hf;
    eexists _, w2, t2; (split; [done|]).
  - injection H as <- <- <-. rewrite app_nil_r.
    by destruct (save_dune_temps args).
  - destruct (in_place args).
    + unfold bind at 1 in H.
      destruct (commit_loop d w2) as [[[[]|e] w3] t3] eqn:Hc;
        eexists _, w3, t3; injection H as <- <- <-;
        rewrite ?app_nil_r; by destruct (save_dune_temps args).
    + injection H as <- <- <-. rewrite app_nil_r.
      by destruct (save_dune_temps args).
  - injection H as <- <- <-. by destruct (save_dune_temps args).
Qed.

(** A run with [--version]. *)
Lemma real_main_version args w :
  version args = true →
  real_main args w =
  let own := EvPrint (program_name +:+ " version: " +:+
                      pre_commit_dune_format_dune_file_version +:+ newline) in
  match shutil_which_dune with
  | None =>
      (Raise (FileNotFoundError
                "'dune' executable not found. Try running 'opam install dune'."),
       w, [own])
  | Some exe =>
      match run_process (version_cmd exe) (fs w) with
      | Completed rc out =>
          (Ret 0%Z, w,
           [own; EvRun (version_cmd exe) (Completed rc out);
            EvPrint ("dune format-dune-file version: " +:+ out)])
      | Raised e => (Raise e, w, [own; EvRun (version_cmd exe) (Raised e)])
      end
  end.
Proof.
  intros Hv. unfold real_main. rewrite Hv.
  unfold bind at 1, print at 1, emit, dune_get_exe.
  destruct shutil_which_dune as [exe|]; [|done].
  unfold bind at 1, ret at 1. unfold bind at 1. rewrite subprocess_run_eq.
  by destruct (run_process _ _) as [rc out|e].
Qed.

Lemma well_staged_nil m : well_staged m [].
Proof.
  split_and!; [apply NoDup_nil_2|apply NoDup_nil_2|].
  intros k v Hin. by apply elem_of_nil in Hin.
Qed.

(** In-place mode when every path resolves and every formatter completes
    with status 0. *)
Lemma real_main_in_place_ok args w exe (out : string → string) :
  version args = false → in_place args = true →
  shutil_which_dune = Some exe →
  Forall (valid_target (fs w)) (dune_files args) →
  (∀ p, p ∈ dune_files args →
        run_process (format_cmd exe p) (fs w) = Completed 0 (out p)) →
  ∃ f' td,
    real_main args w =
    (Ret 0%Z, World f' td,
     stage_events (dune_files args)
     ++ ((λ k, EvRun (format_cmd exe k) (Completed 0 (out k)))
           <$> ordered_keys (dune_files args))
     ++ ((λ k, EvWrite k (out k)) <$> ordered_keys (dune_files args)))
    ∧ (∀ p, p ∈ dune_files args →
            f' !! p = Some (Regular (File true true (out p))))
    ∧ (∀ p, p ∉ dune_files args → f' !! p = fs w !! p).
Proof.
  intros Hv Hip Hexe Hall Hrun.
  set (files := dune_files args) in *.
  set (d := (staged true files ∅ []).1).
  set (m := (staged true files ∅ []).2).
  assert (well_staged m d) as Hws.
  { apply (staged_well_staged files ∅ []), well_staged_nil. }
  assert (d.*1 = ordered_keys files) as Hkeys by apply staged_keys_nil.
  destruct (format_loop_in_place_ok exe out d None
              (World (fs w) (Some m)) m Hexe eq_refl) as (l' & Hf & Hin & _).
  { intros k Hk. apply Hrun. simpl.
    by rewrite Hkeys, elem_of_ordered_keys in Hk. }
  { done. }
  simpl in Hf.
  destruct (commit_loop_ok out d (World (fs w) (Some l')) l' eq_refl)
    as (f' & Hc & Hcin & Hcout).
  { intros k v Hkv. destruct Hws as (_ & _ & Hb).
    destruct (Hb k v Hkv) as (t & -> & _). exists t. split; [done|].
    by apply Hin. }
  { by destruct Hws. }
  { intros k Hk. simpl. rewrite Hkeys, elem_of_ordered_keys in Hk.
    by apply (proj1 (Forall_forall _ _) Hall). }
  exists f', (if save_dune_temps args then Some l' else None).
  split_and!.
  - unfold real_main, with_SaveableTempDir. rewrite Hv, Hip.
    rewrite (bind_ret_eq _ _ _ _ _ _
               (stage_loop_valid true files [] (World (fs w) (Some ∅)) ∅
                  eq_refl Hall)).
    simpl. fold d m.
    rewrite (bind_ret_eq _ _ _ _ _ _ Hf).
    rewrite (bind_ret_eq _ _ _ _ _ _ Hc). simpl.
    rewrite app_nil_r, Hkeys. by destruct (save_dune_temps args).
  - intros p Hp. apply Hcin. by rewrite Hkeys, elem_of_ordered_keys.
  - intros p Hp. rewrite Hcout; [done|].
    by rewrite Hkeys, elem_of_ordered_keys.
Qed.

(** Stream mode when every path resolves and every formatter completes
    with status 0. *)
Lemma real_main_stream_ok args w exe (out : string → string) :
  version args = false → in_place args = false →
  shutil_which_dune = Some exe →
  Forall (valid_target (fs w)) (dune_files args) →
  (∀ p, p ∈ dune_files args →
        run_process (format_cmd exe p) (fs w) = Completed 0 (out p)) →
  ∃ td,
    real_main args w =
    (Ret 0%Z, World (fs w) td,
     stage_events (dune_files args)
     ++ (ordered_keys (dune_files args) ≫= λ k,
           [EvRun (format_cmd exe k) (Completed 0 (out k)); EvPrint (out k)])).
Proof.
  intros Hv Hip Hexe Hall Hrun.
  set (files := dune_files args) in *.
  set (d := (staged false files ∅ []).1).
  assert (d.*1 = ordered_keys files) as Hkeys by apply staged_keys_nil.
  exists (if save_dune_temps args then Some ∅ else None).
  unfold real_main, with_SaveableTempDir. rewrite Hv, Hip.
  rewrite (bind_ret_eq _ _ _ _ _ _
             (stage_loop_valid false files [] (World (fs w) (Some ∅)) ∅
                eq_refl Hall)).
  simpl. fold d. rewrite staged_stream.
  rewrite (bind_ret_eq _ _ _ _ _ _
             (format_loop_stream_ok exe out d None
                (World (fs w) (Some ∅)) Hexe
                ltac:(intros k Hk; apply Hrun; simpl;
                      by rewrite Hkeys, elem_of_ordered_keys in Hk))).
  simpl. rewrite app_nil_r, Hkeys. by destruct (save_dune_temps args).
Qed.

(** Once a started process did not complete with status 0, the run ends
    as the formatting loop ended, and nothing was written. *)
Lemma real_main_failed_run args w r w' t cmd o :
  version args = false →
  real_main args w = (r, w', t) →
  EvRun cmd o ∈ t →
  (∀ out, o ≠ Completed 0 out) →
  ∃ r2, stops_with o r2 ∧
        r = match r2 with
            | Ret (Some rc) => Ret rc
            | Ret None => Ret 0%Z
            | Raise e => Raise e
            end ∧
        r2 ≠ Ret None ∧ fs w' = fs w ∧ writes t = [].
Proof.
  intros Hv Hr Hin Ho.
  assert (∀ r2, stops_with o r2 → r2 ≠ Ret None) as Hnone.
  { intros r2 Hst ->. destruct o as [rc out|e]; simpl in Hst.
    - destruct Hst as [->|?]; [by destruct (Ho out)|done].
    - destruct e; simpl in Hst; try done; by destruct Hst. }
  apply real_main_formatting in Hr as (r1 & w1 & t1 & Hs & Hcase); [|done].
  apply stage_loop_inert with (l := ∅) in Hs
    as (Hfs1 & Hr1 & Hw1 & _ & _); [|done].
  apply elem_of_runs in Hin. simpl in Hfs1.
  destruct r1 as [d|e].
  2:{ destruct Hcase as (_ & -> & _). rewrite Hr1 in Hin.
      by apply elem_of_nil in Hin. }
  destruct Hcase as (r2 & w2 & t2 & Hf & Hcase).
  pose proof (format_loop_inert _ _ _ _ _ _ _ Hf) as (Hfs2 & Hw2 & _ & _).
  assert ((cmd, o) ∈ runs t2 → stops_with o r2) as Hst.
  { intros H2%elem_of_runs. by eapply format_loop_stops. }
  destruct r2 as [[rc|]|e].
  - destruct Hcase as (-> & -> & Hfs).
    rewrite runs_app, Hr1 in Hin. simpl in Hin.
    exists (Ret (Some rc)). split_and!; [by apply Hst|done|done|congruence|].
    by rewrite writes_app, Hw1, Hw2.
  - assert ((cmd, o) ∈ runs t2) as H2.
    { destruct (in_place args).
      - destruct Hcase as (r3 & w3 & t3 & Hc & -> & _).
        apply commit_loop_trace in Hc as (Hr3 & _).
        by rewrite !runs_app, Hr1, Hr3, app_nil_r in Hin.
      - destruct Hcase as (_ & -> & _). by rewrite runs_app, Hr1 in Hin. }
    by destruct (Hnone _ (Hst H2)).
  - destruct Hcase as (-> & -> & Hfs).
    rewrite runs_app, Hr1 in Hin. simpl in Hin.
    exists (Raise e). split_and!; [by apply Hst|done|done|congruence|].
    by rewrite writes_app, Hw1, Hw2.
Qed.

(** ** Counting *)

Lemma count_absent {A B} `{EqDecision B} (g : A → B) (a : B) (l : list A) :
  a ∉ g <$> l → length (filter (λ x, g x = a) l) = 0%nat.
Proof.
  induction l as [|x l IH]; csimpl; [done|].
  intros [Hne Hl]%not_elem_of_cons.
  rewrite filter_cons_False by done. by apply IH.
Qed.

Lemma count_le_1 {A B} `{EqDecision B} (g : A → B) (a : B) (l : list A) :
  NoDup (g <$> l) → (length (filter (λ x, g x = a) l) ≤ 1)%nat.
Proof.
  induction l as [|x l IH]; csimpl; [intros; simpl; lia|].
  intros [Hx Hnd]%NoDup_cons.
  destruct (decide (g x = a)) as [<-|Hne].
  - rewrite filter_cons_True by done. simpl.
    rewrite (count_absent g (g x) l) by done. lia.
  - rewrite filter_cons_False by done. by apply IH.
Qed.

Lemma count_eq_1 {A B} `{EqDecision B} (g : A → B) (a : B) (l : list A) :
  NoDup (g <$> l) → a ∈ g <$> l → length (filter (λ x, g x = a) l) = 1%nat.
Proof.
  induction l as [|x l IH]; csimpl; [by intros _ ?%elem_of_nil|].
  intros [Hx Hnd]%NoDup_cons Hin.
  destruct (decide (g x = a)) as [<-|Hne].
  - rewrite filter_cons_True by done. simpl.
    by rewrite (count_absent g (g x) l).
  - rewrite filter_cons_False by done. apply IH; [done|].
    apply elem_of_cons in Hin as [?|?]; [congruence|done].
Qed.

Lemma prefix_NoDup {A} (l1 l2 : list A) :
  l1 `prefix_of` l2 → NoDup l2 → NoDup l1.
Proof. intros [k ->] Hnd. by apply NoDup_app in Hnd as (? & _). Qed.

Lemma format_cmd_NoDup exe keys :
  NoDup keys → NoDup (format_cmd exe <$> keys).
Proof.
  intros Hnd. apply NoDup_fmap_2_strong; [|done].
  intros x y _ _ Heq. by injection Heq.
Qed.

(** The traces of the two loops when all goes well. *)

Lemma runs_run_evs exe (out : string → string) keys :
  runs ((λ k, EvRun (format_cmd exe k) (Completed 0 (out k))) <$> keys)
  = (λ k, (format_cmd exe k, Completed 0 (out k))) <$> keys.
Proof. induction keys as [|k keys IH]; csimpl; [done|]. by rewrite <- IH. Qed.

Lemma writes_run_evs exe (out : string → string) keys :
  writes ((λ k, EvRun (format_cmd exe k) (Completed 0 (out k))) <$> keys) = [].
Proof. induction keys as [|k keys IH]; csimpl; done. Qed.

Lemma prints_run_evs exe (out : string → string) keys :
  prints ((λ k, EvRun (format_cmd exe k) (Completed 0 (out k))) <$> keys) = [].
Proof. induction keys as [|k keys IH]; csimpl; done. Qed.

Lemma runs_write_evs (out : string → string) keys :
  runs ((λ k, EvWrite k (out k)) <$> keys) = [].
Proof. induction keys as [|k keys IH]; csimpl; done. Qed.

Lemma writes_write_evs (out : string → string) keys :
  writes ((λ k, EvWrite k (out k)) <$> keys) = (λ k, (k, out k)) <$> keys.
Proof. induction keys as [|k keys IH]; csimpl; [done|]. by rewrite <- IH. Qed.

Lemma prints_write_evs (out : string → string) keys :
  prints ((λ k, EvWrite k (out k)) <$> keys) = [].
Proof. induction keys as [|k keys IH]; csimpl; done. Qed.

Lemma runs_stream_evs exe (out : string → string) keys :
  runs (keys ≫= λ k, [EvRun (format_cmd exe k) (Completed 0 (out k));
                       EvPrint (out k)])
  = (λ k, (format_cmd exe k, Completed 0 (out k))) <$> keys.
Proof. induction keys as [|k keys IH]; csimpl; [done|]. by rewrite <- IH. Qed.

Lemma writes_stream_evs exe (out : string → string) keys :
  writes (keys ≫= λ k, [EvRun (format_cmd exe k) (Completed 0 (out k));
                         EvPrint (out k)]) = [].
Proof. induction keys as [|k keys IH]; csimpl; done. Qed.

Lemma prints_stream_evs exe (out : string → string) keys :
  prints (keys ≫= λ k, [EvRun (format_cmd exe k) (Completed 0 (out k));
                         EvPrint (out k)]) = out <$> keys.
Proof. induction keys as [|k keys IH]; csimpl; [done|]. by rewrite <- IH. Qed.

(** In any run, no command is started twice and no path is written
    twice. *)
Lemma real_main_NoDup args w r w' t :
  real_main args w = (r, w', t) →
  NoDup (runs t).*1 ∧ NoDup (writes t).*1.
Proof.
  intros Hr. destruct (version args) eqn:Hv.
  { rewrite real_main_version in Hr by done. cbv zeta in Hr.
    destruct shutil_which_dune as [exe|];
      [destruct (run_process _ _) as [rc out|e]|];
      injection Hr as <- <- <-; csimpl;
      split; first [apply NoDup_nil_2 | apply NoDup_singleton]. }
  apply real_main_formatting in Hr as (r1 & w1 & t1 & Hs & Hcase); [|done].
  apply stage_loop_inert with (l := ∅) in Hs
    as (_ & Hr1 & Hw1 & _ & Hres); [|done].
  destruct r1 as [d|e].
  2:{ destruct Hcase as (_ & -> & _). rewrite Hr1, Hw1.
      split; apply NoDup_nil_2. }
  destruct Hres as (_ & -> & _).
  set (d := (staged _ _ _ _).1) in *.
  assert (NoDup d.*1) as Hnd.
  { change (NoDup (dict_keys d)). subst d. rewrite staged_keys_nil.
    apply ordered_keys_NoDup. }
  destruct Hcase as (r2 & w2 & t2 & Hf & Hcase).
  pose proof (format_loop_inert _ _ _ _ _ _ _ Hf) as (_ & Hw2 & _ & _).
  assert (NoDup (runs t2).*1) as Hnd2.
  { destruct shutil_which_dune as [exe|] eqn:Hexe.
    - eapply prefix_NoDup; [by eapply format_loop_runs_prefix|].
      by apply format_cmd_NoDup.
    - rewrite (format_loop_no_exe _ _ _ _ _ _ _ Hexe Hf). apply NoDup_nil_2. }
  assert (runs (t1 ++ t2) = runs t2 ∧ writes (t1 ++ t2) = []) as [Hr12 Hw12].
  { by rewrite runs_app, writes_app, Hr1, Hw1, Hw2. }
  destruct r2 as [[rc|]|e].
  - destruct Hcase as (_ & -> & _). rewrite Hr12, Hw12.
    split; [done|apply NoDup_nil_2].
  - destruct (in_place args).
    + destruct Hcase as (r3 & w3 & t3 & Hc & -> & _).
      apply commit_loop_trace in Hc as (Hr3 & _ & _ & Hpre).
      rewrite !runs_app, !writes_app, Hr1, Hw1, Hw2, Hr3, app_nil_r. simpl.
      split; [done|]. by eapply prefix_NoDup.
    + destruct Hcase as (_ & -> & _). rewrite Hr12, Hw12.
      split; [done|apply NoDup_nil_2].
  - destruct Hcase as (_ & -> & _). rewrite Hr12, Hw12.
    split; [done|apply NoDup_nil_2].
Qed.

(** The first formatter that does not complete with status 0 decides the
    exit code: every path resolving, the formatters before [k] succeeding
    and the one on [k] exiting with [rc], the run starts the formatter on
    [k], returns [rc] and leaves the filesystem as it was. *)
Lemma first_failure_returns_its_code args w exe (out : string → string)
    pre k post rc err :
  version args = false →
  shutil_which_dune = Some exe →
  Forall (valid_target (fs w)) (dune_files args) →
  ordered_keys (dune_files args) = pre ++ k :: post →
  (∀ p, p ∈ pre →
        run_process (format_cmd exe p) (fs w) = Completed 0 (out p)) →
  run_process (format_cmd exe k) (fs w) = Completed rc err → rc ≠ 0%Z →
  ∃ w' t,
    main args w = (rc, w', t) ∧ fs w' = fs w ∧ writes t = [] ∧
    EvRun (format_cmd exe k) (Completed rc err) ∈ t.
Proof.
  intros Hv Hexe Hall Hkeys Hpre Hk Hrc.
  set (ip := in_place args). set (files := dune_files args) in *.
  set (d := (staged ip files ∅ []).1).
  set (m := (staged ip files ∅ []).2).
  pose proof (stage_loop_valid ip files [] (World (fs w) (Some ∅)) ∅
                eq_refl Hall) as Hs.
  simpl in Hs. fold d m in Hs.
  assert (d.*1 = pre ++ k :: post) as Hd.
  { rewrite <- Hkeys. apply staged_keys_nil. }
  apply fmap_app_inv in Hd as (dpre & drest & -> & Hrest & Hd).
  symmetry in Hrest.
  apply fmap_cons_inv in Hrest as ([k0 v] & dpost & -> & -> & ->).
  simpl in *.
  destruct (format_loop_fails_at exe out ip k0 v dpost rc err dpre None
              (World (fs w) (Some m)) m Hexe eq_refl) as (w2 & t2 & Hf & Hin);
    [done|done|done| |].
  { intros Hip p v' Hp.
    assert (well_staged m d) as (_ & _ & Hb).
    { subst d m. rewrite Hip.
      apply (staged_well_staged files ∅ []), well_staged_nil. }
    destruct (Hb p v') as (t & -> & _); [|done].
    rewrite Hd, elem_of_app. by left. }
  rewrite <- Hd in Hf.
  pose proof (format_loop_inert _ _ _ _ _ _ _ Hf) as (Hfs & Hw & _ & _).
  eexists _, _. unfold main, real_main, with_SaveableTempDir. rewrite Hv.
  fold ip files. rewrite (bind_ret_eq _ _ _ _ _ _ Hs).
  rewrite (bind_ret_eq _ _ _ _ _ _ Hf). simpl.
  split_and!; [done| | |].
  - by destruct (save_dune_temps args).
  - by rewrite !writes_app, stage_events_writes, Hw.
  - rewrite !elem_of_app. right. by left.
Qed.

(** ** Ending at the staging loop *)

(** A run that formats and whose staging stops: the exit code is 1, no
    process was started and nothing was written. *)
Lemma real_main_stage_raise args w e w1 t :
  version args = false →
  stage_loop (in_place args) (dune_files args) [] (World (fs w) (Some ∅))
  = (Raise e, w1, t) →
  ∃ w', real_main args w = (Raise e, w', t) ∧ main args w = (1%Z, w', t) ∧
        fs w' = fs w ∧ runs t = [] ∧ writes t = [].
Proof.
  intros Hv Hs.
  pose proof (stage_loop_inert _ _ _ (World (fs w) (Some ∅)) ∅ _ _ _
                eq_refl Hs) as (Hfs & Hr & Hw & _ & He).
  exists (if save_dune_temps args then w1 else World (fs w1) None).
  assert (real_main args w =
          (Raise e, if save_dune_temps args then w1 else World (fs w1) None, t))
    as Hm.
  { unfold real_main, with_SaveableTempDir. rewrite Hv.
    by rewrite (bind_raise_eq _ _ _ _ _ _ Hs). }
  unfold main. rewrite Hm. simpl. rewrite He.
  split_and!; try done. by destruct (save_dune_temps args).
Qed.

(** ** The claims *)

(** C1.  In in-place mode, on a batch of paths that all resolve, when
    the formatter started on a path of the batch exits with a status other
    than 0, the program returns that status, the filesystem is what it was
    before the run (every original is byte-identical) and nothing was
    written over any original. *)
Theorem format_failure_no_partial_commit args w exe p rc out code w' t :
  in_place args = true →
  Forall (valid_target (fs w)) (dune_files args) → p ∈ dune_files args →
  main args w = (code, w', t) →
  EvRun (format_cmd exe p) (Completed rc out) ∈ t → rc ≠ 0%Z →
  code = rc ∧ fs w' = fs w ∧ writes t = [].
Proof.
  intros _ Hall Hp Hm Hin Hrc. unfold main in Hm.
  destruct (real_main args w) as [[r w1] t1] eqn:Hr.
  injection Hm as <- <- <-.
  destruct (version args) eqn:Hv.
  - exfalso.
    destruct (proj1 (Forall_forall _ _) Hall p Hp) as (_ & _ & Hname).
    rewrite real_main_version in Hr by done. cbv zeta in Hr.
    destruct shutil_which_dune as [exe'|];
      [destruct (run_process _ _) as [rc' out'|e]|];
      injection Hr as <- <- <-;
      repeat (apply elem_of_cons in Hin as [Heq|Hin]; simplify_eq);
      try (by apply elem_of_nil in Hin).
    revert Hname. apply (bool_decide_eq_false_1 (permitted_name "--version")).
    vm_compute. reflexivity.
  - destruct (real_main_failed_run _ _ _ _ _ _ _ Hv Hr Hin)
      as (r2 & Hst & -> & _ & Hfs & Hw).
    { intros out' Heq. by simplify_eq. }
    destruct Hst as [?| ->]; done.
Qed.

(** C2.  In-place mode, every path of the batch resolving and every
    formatter completing with status 0: the program exits with code 0 and
    every original holds exactly the output captured from the formatter
    started on it; no other file changed. *)
Theorem in_place_success_content args w exe (out : string → string) :
  version args = false → in_place args = true →
  shutil_which_dune = Some exe →
  Forall (valid_target (fs w)) (dune_files args) →
  (∀ p, p ∈ dune_files args →
        run_process (format_cmd exe p) (fs w) = Completed 0 (out p)) →
  ∃ w' t,
    main args w = (0%Z, w', t) ∧
    (∀ p, p ∈ dune_files args →
          EvRun (format_cmd exe p) (Completed 0 (out p)) ∈ t ∧
          file_content (fs w') p = Some (out p)) ∧
    (∀ p, p ∉ dune_files args → fs w' !! p = fs w !! p).
Proof.
  intros Hv Hip Hexe Hall Hrun.
  destruct (real_main_in_place_ok args w exe out Hv Hip Hexe Hall Hrun)
    as (f' & td & Hr & Hin & Hout).
  eexists (World f' td), _. unfold main. rewrite Hr. simpl.
  split_and!; [done| |done].
  intros p Hp. split.
  - apply elem_of_runs.
    rewrite !runs_app, stage_events_runs, runs_run_evs, runs_write_evs.
    rewrite app_nil_r. simpl.
    apply list_elem_of_fmap. exists p. split; [done|].
    by apply elem_of_ordered_keys.
  - unfold file_content. by rewrite (Hin p Hp).
Qed.

(** C3, amended.  Stream mode.  Whatever happens, the filesystem after
    the run is the filesystem before it and nothing is written.  When every path
    resolves and every formatter completes with status 0, the program
    exits with code 0 and standard output is the concatenation of the
    outputs of the formatters started, one per distinct path in the order
    of first occurrence, which is the input order when no path is
    repeated. *)
Theorem stream_mode_no_mutation_and_output args w :
  in_place args = false →
  (∀ code w' t, main args w = (code, w', t) → fs w' = fs w ∧ writes t = []) ∧
  (∀ exe (out : string → string),
     version args = false →
     shutil_which_dune = Some exe →
     Forall (valid_target (fs w)) (dune_files args) →
     (∀ p, p ∈ dune_files args →
           run_process (format_cmd exe p) (fs w) = Completed 0 (out p)) →
     ∃ w' t,
       main args w = (0%Z, w', t) ∧ fs w' = fs w ∧
       runs t = (λ k, (format_cmd exe k, Completed 0 (out k)))
                  <$> ordered_keys (dune_files args) ∧
       stdout_text t
       = foldr String.append EmptyString (out <$> ordered_keys (dune_files args)) ∧
       (NoDup (dune_files args) →
        stdout_text t = foldr String.append EmptyString (out <$> dune_files args))).
Proof.
  intros Hip. split.
  - intros code w' t Hm. unfold main in Hm.
    destruct (real_main args w) as [[r w1] t1] eqn:Hr.
    injection Hm as <- <- <-.
    destruct (version args) eqn:Hv.
    + rewrite real_main_version in Hr by done. cbv zeta in Hr.
      destruct shutil_which_dune as [exe|];
        [destruct (run_process _ _) as [rc out|e]|];
        by injection Hr as <- <- <-.
    + apply real_main_formatting in Hr as (r1 & w2 & t2 & Hs & Hcase);
        [|done].
      apply stage_loop_inert with (l := ∅) in Hs
        as (Hfs1 & _ & Hw1 & _ & _); [|done].
      simpl in Hfs1. rewrite Hip in Hcase.
      destruct r1 as [d|e].
      2:{ destruct Hcase as (_ & -> & ->). by rewrite Hfs1. }
      destruct Hcase as (r2 & w3 & t3 & Hf & Hcase).
      apply format_loop_inert in Hf as (Hfs2 & Hw2 & _ & _).
      assert (fs w1 = fs w3 ∧ t1 = t2 ++ t3) as [-> ->].
      { destruct r2 as [[rc|]|e]; by destruct Hcase as (_ & -> & ->). }
      split; [congruence|]. by rewrite writes_app, Hw1, Hw2.
  - intros exe out Hv Hexe Hall Hrun.
    destruct (real_main_stream_ok args w exe out Hv Hip Hexe Hall Hrun)
      as (td & Hr).
    eexists (World (fs w) td), _. unfold main. rewrite Hr. simpl.
    assert (∀ l, stdout_text
                   (stage_events (dune_files args)
                    ++ (ordered_keys (dune_files args) ≫= λ k,
                          [EvRun (format_cmd exe k) (Completed 0 (out k));
                           EvPrint (out k)])) = l
                 ↔ foldr String.append EmptyString
                     (out <$> ordered_keys (dune_files args)) = l) as Hout.
    { intros l. unfold stdout_text.
      by rewrite prints_app, stage_events_prints, prints_stream_evs. }
    split_and!; [done|done| |by apply Hout|].
    + by rewrite runs_app, stage_events_runs, runs_stream_evs.
    + intros Hnd. apply Hout. by rewrite ordered_keys_id.
Qed.

(** C4, amended.  A path whose base name is not one of the three is
    answered by the resolver with [None], the wrong-name answer.  A run
    without [--version] whose batch has such a path exits with code 1,
    starts no process and writes nothing; it fails with the wrong-name
    error ([TypeError]) unless a path placed before it is a regular file
    of a permitted name that cannot be read or written, whose
    [PermissionError] then comes first. *)
Theorem wrong_name_aborts_before_formatting args w p :
  version args = false → p ∈ dune_files args → ¬ permitted_name p →
  get_dune_file_path p w = (Ret None, w, [EvIsFile p]) ∧
  ∃ e w' t,
    real_main args w = (Raise e, w', t) ∧ main args w = (1%Z, w', t) ∧
    fs w' = fs w ∧ runs t = [] ∧ writes t = [] ∧
    ((∃ q, q ∈ dune_files args ∧ e = TypeError (not_a_dune_file_msg q))
     ∨ (∃ q msg, q ∈ dune_files args ∧ permission_denied (fs w) q ∧
                 e = PermissionError msg)) ∧
    (∀ pre post,
       dune_files args = pre ++ p :: post →
       (∀ q, q ∈ pre → ¬ permission_denied (fs w) q) →
       ∃ q, q ∈ pre ++ [p] ∧ e = TypeError (not_a_dune_file_msg q)).
Proof.
  intros Hv Hp Hn. split.
  { apply resolve_other; [intros (? & ? & ?)|intros (? & ? & ? & ?)]; done. }
  destruct (stage_loop_cases (in_place args) (dune_files args) []
              (World (fs w) (Some ∅)) ∅ eq_refl) as
    [Hall|(pre' & q & post' & e & w1 & t & Hfiles & Hpre & He & Hs & _)].
  { simpl in Hall. destruct Hn.
    by destruct (proj1 (Forall_forall _ _) Hall p Hp) as (? & ? & ?). }
  simpl in Hpre, He.
  destruct (real_main_stage_raise args w e w1 t Hv Hs)
    as (w' & Hr & Hm & Hfs & Hruns & Hwrites).
  assert (q ∈ dune_files args) as Hq.
  { rewrite Hfiles, elem_of_app, elem_of_cons. auto. }
  exists e, w', t. split_and!; try done.
  - destruct He as [(Hd & msg & ->)|(_ & ->)].
    + right. by exists q, msg.
    + left. by exists q.
  - intros pre post Hdec Hnd.
    assert (q ∈ pre ++ [p]) as Hqin.
    { rewrite Hfiles in Hdec.
      apply app_eq_inv in Hdec as [(k & -> & Hk)|(k & -> & Hk)].
      - destruct k as [|x k]; simpl in Hk; injection Hk as -> ->.
        + rewrite elem_of_app, list_elem_of_singleton. auto.
        + destruct Hn.
          assert (x ∈ pre ++ x :: k) as Hx
            by (rewrite elem_of_app, elem_of_cons; auto).
          by destruct (proj1 (Forall_forall _ _) Hpre x Hx) as (? & ? & ?).
      - destruct k as [|x k]; simpl in Hk; injection Hk as -> ->.
        + rewrite elem_of_app, list_elem_of_singleton. auto.
        + rewrite !elem_of_app, elem_of_cons. auto. }
    exists q. split; [done|].
    destruct He as [(Hd & msg & ->)|(_ & ->)]; [|done].
    apply elem_of_app in Hqin as [Hqin| ->%list_elem_of_singleton].
    + by destruct (Hnd q Hqin).
    + destruct Hd as (? & ? & ? & ?). done.
Qed.

(** C5, amended.  On a regular file with a permitted base name that
    cannot be read, or cannot be written, the resolver raises
    [PermissionError], the read check coming first.  A run without
    [--version] whose batch has such a file exits with code 1, starts no
    process and writes nothing. *)
Theorem permission_denied_aborts args w p fl :
  fs w !! p = Some (Regular fl) → permitted_name p →
  readable fl && writable fl = false →
  get_dune_file_path p w =
  (Raise (PermissionError
            ((if readable fl then "Can't write dune file '"
              else "Can't read dune file '") +:+ p +:+ "'")),
   w,
   EvIsFile p :: EvAccess p R_OK ::
   (if readable fl then [EvAccess p W_OK] else [])) ∧
  (version args = false → p ∈ dune_files args →
   ∃ e w' t,
     real_main args w = (Raise e, w', t) ∧ main args w = (1%Z, w', t) ∧
     fs w' = fs w ∧ runs t = [] ∧ writes t = []).
Proof.
  intros Hl Hn Hperm. split.
  { rewrite get_dune_file_path_eq, Hl, bool_decide_eq_true_2 by done.
    destruct (readable fl), (writable fl); done. }
  intros Hv Hp.
  destruct (stage_loop_cases (in_place args) (dune_files args) []
              (World (fs w) (Some ∅)) ∅ eq_refl) as
    [Hall|(pre' & q & post' & e & w1 & t & Hfiles & Hpre & He & Hs & _)].
  { simpl in Hall.
    destruct (proj1 (Forall_forall _ _) Hall p Hp) as (c & Hc & _).
    rewrite Hl in Hc. injection Hc as ->. done. }
  destruct (real_main_stage_raise args w e w1 t Hv Hs) as (w' & Hr).
  by exists e, w', t.
Qed.

(** C6.  When starting a process raises an exception that is an
    [Exception] other than [CalledProcessError] (the executable vanished,
    say), the exit code is 1. *)
Theorem unexpected_invocation_failure_exit_1 args w cmd e code w' t :
  main args w = (code, w', t) →
  EvRun cmd (Raised e) ∈ t →
  is_Exception e = true → is_CalledProcessError e = false →
  code = 1%Z.
Proof.
  intros Hm Hin He Hc. unfold main in Hm.
  destruct (real_main args w) as [[r w1] t1] eqn:Hr.
  injection Hm as <- <- <-.
  destruct (version args) eqn:Hv.
  - rewrite real_main_version in Hr by done. cbv zeta in Hr.
    destruct shutil_which_dune as [exe|].
    + destruct (run_process _ _) as [rc out|e'];
        injection Hr as <- <- <-;
        repeat (apply elem_of_cons in Hin as [Heq|Hin]; simplify_eq);
        try (by apply elem_of_nil in Hin).
      simpl. by rewrite He.
    + injection Hr as <- <- <-.
      repeat (apply elem_of_cons in Hin as [Heq|Hin]; simplify_eq).
      by apply elem_of_nil in Hin.
  - destruct (real_main_failed_run _ _ _ _ _ _ _ Hv Hr Hin)
      as (r2 & Hst & -> & _ & _); [done|].
    destruct e; simpl in *; try done; by destruct Hst as [->| ->].
Qed.

(** C7.  A [KeyboardInterrupt] that reaches the top level makes the
    program exit with code 0; an interrupt raised while a process is
    waited for does reach the top level. *)
Theorem keyboard_interrupt_exit_0 args w :
  (∀ w' t, real_main args w = (Raise KeyboardInterrupt, w', t) →
           main args w = (0%Z, w', t)) ∧
  (∀ cmd code w' t,
     main args w = (code, w', t) →
     EvRun cmd (Raised KeyboardInterrupt) ∈ t →
     real_main args w = (Raise KeyboardInterrupt, w', t) ∧ code = 0%Z).
Proof.
  split.
  - intros w' t Hr. unfold main. by rewrite Hr.
  - intros cmd code w' t Hm Hin. unfold main in Hm.
    destruct (real_main args w) as [[r w1] t1] eqn:Hr.
    injection Hm as <- <- <-.
    destruct (version args) eqn:Hv.
    + rewrite real_main_version in Hr by done. cbv zeta in Hr.
      destruct shutil_which_dune as [exe|].
      * destruct (run_process _ _) as [rc out|e'];
          injection Hr as <- <- <-;
          repeat (apply elem_of_cons in Hin as [Heq|Hin]; simplify_eq);
          try (by apply elem_of_nil in Hin).
        done.
      * injection Hr as <- <- <-.
        repeat (apply elem_of_cons in Hin as [Heq|Hin]; simplify_eq).
        by apply elem_of_nil in Hin.
    + destruct (real_main_failed_run _ _ _ _ _ _ _ Hv Hr Hin)
        as (r2 & Hst & -> & _ & _); [done|].
      simpl in Hst. by subst r2.
Qed.

(** C8, amended.  With [--version] the program never probes, formats or
    writes a file: the machine is left as it was and the only process
    started, if any, is the version query.  When the formatter executable
    is found and the query is run to completion, the program prints its
    own version, then the version the formatter reported, and exits with
    code 0. *)
Theorem version_flag_prints_and_touches_nothing args w :
  version args = true →
  (∀ code w' t,
     main args w = (code, w', t) →
     w' = w ∧ writes t = [] ∧ probes t = [] ∧
     ∀ cmd o, EvRun cmd o ∈ t →
              ∃ exe, shutil_which_dune = Some exe ∧ cmd = version_cmd exe) ∧
  (∀ exe rc out,
     shutil_which_dune = Some exe →
     run_process (version_cmd exe) (fs w) = Completed rc out →
     main args w =
     (0%Z, w,
      [EvPrint (program_name +:+ " version: " +:+
                pre_commit_dune_format_dune_file_version +:+ newline);
       EvRun (version_cmd exe) (Completed rc out);
       EvPrint ("dune format-dune-file version: " +:+ out)])).
Proof.
  intros Hv. unfold main. rewrite real_main_version by done. cbv zeta.
  split.
  - intros code w' t Hm.
    destruct shutil_which_dune as [exe|];
      [destruct (run_process _ _) as [rc out|e] eqn:Ho|];
      injection Hm as <- <- <-; split_and!; try done;
      intros cmd o Hin;
      repeat (apply elem_of_cons in Hin as [Heq|Hin]; simplify_eq);
      try (by apply elem_of_nil in Hin); by exists exe.
  - intros exe rc out -> ->. done.
Qed.

(** C9.  Naming a path several times does not format, print or commit
    it several times.  In every run, no formatter command is started
    twice and no path is written twice.  When every path resolves, the
    dict that staging hands to the formatting loop has every path of the
    batch as a key exactly once, in the order of first occurrence.  When
    moreover every formatter completes with status 0, the formatter is
    started exactly once on every path of the batch, the path is written
    exactly once in in-place mode (never in stream mode), and in stream
    mode one output is printed per distinct path. *)
Theorem duplicates_collapse args w :
  (∀ r w' t exe p,
     real_main args w = (r, w', t) →
     (times_formatted exe p t ≤ 1)%nat ∧ (times_committed p t ≤ 1)%nat) ∧
  (Forall (valid_target (fs w)) (dune_files args) →
   ∃ d w1 t1,
     stage_loop (in_place args) (dune_files args) [] (World (fs w) (Some ∅))
     = (Ret d, w1, t1) ∧
     dict_keys d = ordered_keys (dune_files args) ∧
     NoDup (dict_keys d) ∧
     (∀ p, p ∈ dict_keys d ↔ p ∈ dune_files args)) ∧
  (∀ exe (out : string → string),
     version args = false →
     shutil_which_dune = Some exe →
     Forall (valid_target (fs w)) (dune_files args) →
     (∀ p, p ∈ dune_files args →
           run_process (format_cmd exe p) (fs w) = Completed 0 (out p)) →
     ∃ w' t,
       real_main args w = (Ret 0%Z, w', t) ∧
       (∀ p, p ∈ dune_files args →
             times_formatted exe p t = 1%nat ∧
             times_committed p t = if in_place args then 1%nat else 0%nat) ∧
       prints t = (if in_place args then []
                   else out <$> ordered_keys (dune_files args))).
Proof.
  pose proof (ordered_keys_NoDup (dune_files args)) as Hnd.
  pose proof (elem_of_ordered_keys (dune_files args)) as Hel.
  split_and!.
  - intros r w' t exe p Hr.
    destruct (real_main_NoDup _ _ _ _ _ Hr) as [Hnr Hnw].
    split; by apply count_le_1.
  - intros Hall. eexists _, _, _. split.
    + by apply (stage_loop_valid _ _ [] (World (fs w) (Some ∅)) ∅).
    + rewrite staged_keys_nil. done.
  - intros exe out Hv Hexe Hall Hrun.
    destruct (in_place args) eqn:Hip.
    + destruct (real_main_in_place_ok args w exe out Hv Hip Hexe Hall Hrun)
        as (f' & td & Hr & _ & _).
      eexists (World f' td), _. split; [exact Hr|].
      split; [|by rewrite !prints_app, stage_events_prints,
                     prints_run_evs, prints_write_evs].
      intros p Hp. unfold times_formatted, times_committed.
      rewrite !runs_app, !writes_app, stage_events_runs, stage_events_writes,
        runs_run_evs, runs_write_evs, writes_run_evs, writes_write_evs,
        app_nil_r. simpl.
      split; apply count_eq_1; rewrite <- ?list_fmap_compose.
      * by apply format_cmd_NoDup.
      * apply list_elem_of_fmap. exists p. split; [done|]. by apply Hel.
      * by rewrite list_fmap_id.
      * rewrite list_fmap_id. by apply Hel.
    + destruct (real_main_stream_ok args w exe out Hv Hip Hexe Hall Hrun)
        as (td & Hr).
      eexists (World (fs w) td), _. split; [exact Hr|].
      split; [|by rewrite !prints_app, stage_events_prints,
                     prints_stream_evs].
      intros p Hp. unfold times_formatted, times_committed.
      rewrite !runs_app, !writes_app, stage_events_runs, stage_events_writes,
        runs_stream_evs, writes_stream_evs. simpl.
      split; [|done]. apply count_eq_1; rewrite <- ?list_fmap_compose.
      * by apply format_cmd_NoDup.
      * apply list_elem_of_fmap. exists p. split; [done|]. by apply Hel.
Qed.

(** C10.  A path that is not an existing regular file, or whose base
    name is not permitted, gets the wrong-name answer from the resolver,
    and the staging loop raises the wrong-name error on it, whatever its
    permissions; the resolver checks permissions only on regular files
    with a permitted name, so it raises [PermissionError] only on those. *)
Theorem wrong_name_precedence arg w :
  ((¬ ∃ fl, fs w !! arg = Some (Regular fl)) ∨ ¬ permitted_name arg →
   get_dune_file_path arg w = (Ret None, w, [EvIsFile arg]) ∧
   ∀ ip rest d,
     stage_loop ip (arg :: rest) d w
     = (Raise (TypeError (not_a_dune_file_msg arg)), w, [EvIsFile arg])) ∧
  (∀ r w' t,
     get_dune_file_path arg w = (r, w', t) →
     (∃ q m, EvAccess q m ∈ t) ∨ (∃ msg, r = Raise (PermissionError msg)) →
     (∃ fl, fs w !! arg = Some (Regular fl)) ∧ permitted_name arg).
Proof.
  split.
  - intros Hbad.
    assert (get_dune_file_path arg w = (Ret None, w, [EvIsFile arg])) as Hg.
    { apply resolve_other.
      - intros (c & Hc & Hn). destruct Hbad as [Hb|Hb]; [|done].
        destruct Hb. by eexists.
      - intros (fl & Hc & Hn & _). destruct Hbad as [Hb|Hb]; [|done].
        destruct Hb. by eexists. }
    split; [done|]. intros ip rest d. simpl.
    by rewrite (bind_ret_eq _ _ _ _ _ _ Hg).
  - intros r w' t Hg Hobs. rewrite get_dune_file_path_eq in Hg.
    destruct (fs w !! arg) as [[|fl]|] eqn:Hl.
    + injection Hg as <- <- <-.
      destruct Hobs as [(q & m & Hin)|(msg & ?)]; [|done].
      by apply list_elem_of_singleton in Hin.
    + case_bool_decide as Hn; [by eauto|].
      injection Hg as <- <- <-.
      destruct Hobs as [(q & m & Hin)|(msg & ?)]; [|done].
      by apply list_elem_of_singleton in Hin.
    + injection Hg as <- <- <-.
      destruct Hobs as [(q & m & Hin)|(msg & ?)]; [|done].
      by apply list_elem_of_singleton in Hin.
Qed.

(** * Further properties of the code *)

(** ** The resolver *)

Lemma has_slash_app_slash d n : has_slash (d +:+ "/" +:+ n) = true.
Proof.
  induction d as [|c d IH]; simpl; [done|].
  by destruct (Ascii.eqb c slash).
Qed.

Lemma basename_no_slash n : has_slash n = false → basename n = n.
Proof.
  destruct n as [|c r]; simpl; [done|].
  destruct (Ascii.eqb c slash); [done|]. by intros ->.
Qed.

Lemma basename_app_slash d n :
  has_slash n = false → basename (d +:+ "/" +:+ n) = n.
Proof.
  intros Hn. induction d as [|c d IH]; simpl.
  - by apply basename_no_slash.
  - rewrite IH, has_slash_app_slash. by destruct (Ascii.eqb c slash).
Qed.

Lemma get_dune_file_path_inert arg w r w' t :
  get_dune_file_path arg w = (r, w', t) →
  w' = w ∧ runs t = [] ∧ writes t = [] ∧ prints t = [] ∧
  (∀ q, q ∈ probes t → q = arg) ∧
  (∀ p, r = Ret (Some p) ↔ p = arg ∧ valid_target (fs w) arg).
Proof.
  rewrite get_dune_file_path_eq. intros H.
  destruct (fs w !! arg) as [[dr dw|[rd wr c]]|] eqn:Hl;
    [|case_bool_decide as Hn; destruct rd, wr|]; simpl in H;
    injection H as <- <- <-; split_and!; try done;
    try (intros q Hq; csimpl in Hq;
         repeat (apply elem_of_cons in Hq as [->|Hq]; [done|]);
         by apply elem_of_nil in Hq);
    intros p;
    (split;
     [ intros Hp; simplify_eq; try (split; [done|by exists c])
     | intros [-> (c' & Hc & Hn')]; by simplify_eq ]).
Qed.

(** X1.  The resolver only looks: it leaves the machine as it was,
    starts nothing, writes nothing, prints nothing and probes no path but
    its argument.  It hands back a path exactly when the argument is a
    regular file with a permitted base name that can be read and written,
    and the path handed back is the argument itself. *)
Theorem resolver_contract arg w r w' t :
  get_dune_file_path arg w = (r, w', t) →
  w' = w ∧ runs t = [] ∧ writes t = [] ∧ prints t = [] ∧
  (∀ q, q ∈ probes t → q = arg) ∧
  (∀ p, r = Ret (Some p) ↔ p = arg ∧ valid_target (fs w) arg).
Proof. apply get_dune_file_path_inert. Qed.

(** X2.  The name test looks at the last component of the path alone:
    a file [n] that has no slash in its name passes in any directory [d]
    exactly when [n] is one of the three names. *)
Theorem name_test_last_component d n :
  has_slash n = false →
  (permitted_name (d +:+ "/" +:+ n) ↔ n ∈ _dune_file_names) ∧
  (permitted_name n ↔ n ∈ _dune_file_names).
Proof.
  intros Hn. unfold permitted_name.
  by rewrite basename_app_slash, basename_no_slash.
Qed.

(** ** The three loops, whatever the formatter does *)

Lemma probes_app_ev t1 t2 : probes (t1 ++ t2) = probes t1 ++ probes t2.
Proof. apply omap_app. Qed.

Lemma stage_loop_probes ip files : ∀ d w r w' t q,
  stage_loop ip files d w = (r, w', t) → q ∈ probes t → q ∈ files.
Proof.
  induction files as [|f files IH]; intros d w r w' t q H Hq.
  - injection H as <- <- <-. by apply elem_of_nil in Hq.
  - simpl in H. unfold bind at 1 in H.
    destruct (get_dune_file_path f w) as [[[o|e] w1] t1] eqn:Hg;
      destruct (get_dune_file_path_inert _ _ _ _ _ Hg)
        as (-> & _ & _ & _ & Hpr & Hres).
    2:{ injection H as <- <- <-. rewrite (Hpr _ Hq). left. }
    destruct o as [orig|].
    2:{ injection H as <- <- <-. rewrite app_nil_r in Hq. rewrite (Hpr _ Hq). left. }
    destruct ip.
    + unfold bind at 1, NamedTemporaryFile in H.
      destruct (tmpdir w) as [m|] eqn:Hm.
      * destruct (stage_loop _ _ _ _) as [[r2 w2] t2] eqn:H2.
        injection H as <- <- <-.
        rewrite probes_app_ev, elem_of_app in Hq.
        destruct Hq as [Hq|Hq]; [rewrite (Hpr _ Hq); left|].
        right. by eapply IH.
      * injection H as <- <- <-. rewrite app_nil_r in Hq. rewrite (Hpr _ Hq). left.
    + destruct (stage_loop _ _ _ _) as [[r2 w2] t2] eqn:H2.
      injection H as <- <- <-.
      rewrite probes_app_ev, elem_of_app in Hq.
      destruct Hq as [Hq|Hq]; [rewrite (Hpr _ Hq); left|].
      right. by eapply IH.
Qed.

(** Every process the formatting loop starts is the formatter on a key
    of the dict, run by the executable that was found, and ends as the
    environment says for the filesystem the loop found. *)
Lemma format_loop_faithful ip items : ∀ df w r w' t cmd o,
  format_loop ip items df w = (r, w', t) →
  (cmd, o) ∈ runs t →
  o = run_process cmd (fs w) ∧
  ∃ exe k, shutil_which_dune = Some exe ∧ cmd = format_cmd exe k ∧
           k ∈ items.*1.
Proof.
  induction items as [|[k v] items IH]; intros df w r w' t cmd o H Hin.
  - injection H as <- <- <-. by apply elem_of_nil in Hin.
  - format_step H; csimpl in Hin;
      repeat (apply elem_of_cons in Hin as [Heq|Hin]; simplify_eq);
      try (by apply elem_of_nil in Hin);
      try (split; [done|]; eexists _, k; split_and!; [done|done|left]);
      match goal with
      | Hf : format_loop _ _ _ _ = _ |- _ =>
          destruct (IH _ _ _ _ _ _ _ Hf Hin) as (-> & exe & k' & ? & -> & ?);
          split; [done|]; exists exe, k'; split_and!; [done|done|by right]
      end.
Qed.

(** In stream mode the loop prints the output of every formatter that
    completed with status 0, and nothing else. *)
Lemma format_loop_prints items : ∀ df w r w' t,
  format_loop false items df w = (r, w', t) →
  prints t = successes (runs t).
Proof.
  induction items as [|[k v] items IH]; intros df w r w' t H.
  - by injection H as <- <- <-.
  - format_step H; csimpl;
      repeat match goal with
             | Hz : negb (_ =? 0)%Z = _ |- _ =>
                 apply (f_equal negb) in Hz; rewrite negb_involutive in Hz;
                 simpl in Hz; rewrite Hz
             end; try done.
    f_equal. by eapply IH.
Qed.

(** A loop that runs to its end found the executable and saw every
    formatter complete with status 0. *)
Lemma format_loop_done ip items : ∀ df w w' t,
  format_loop ip items df w = (Ret None, w', t) →
  items = [] ∨
  ∃ exe, shutil_which_dune = Some exe ∧
         ∀ k, k ∈ items.*1 →
              ∃ out, run_process (format_cmd exe k) (fs w) = Completed 0 out.
Proof.
  induction items as [|[k v] items IH]; intros df w w' t H; [by left|].
  right. format_step H;
    match goal with
    | Hf : format_loop _ _ _ _ = _, Hz : negb (?rc =? 0)%Z = false |- _ =>
        apply negb_false_iff, Z.eqb_eq in Hz; subst rc;
        eexists; split; [done|];
        intros k' [->|Hk']%elem_of_cons; [by eexists|];
        destruct (IH _ _ _ _ Hf) as [->|(exe' & ? & Hall)];
          [by apply elem_of_nil in Hk'|];
        simplify_eq; by apply Hall
    end.
Qed.




(** ** The run, whatever the formatter does *)

Lemma elem_of_writes p c t : EvWrite p c ∈ t ↔ (p, c) ∈ writes t.
Proof.
  unfold writes. rewrite list_elem_of_omap. split.
  - intros H. by exists (EvWrite p c).
  - intros ([] & H & [= -> ->]). done.
Qed.

(** A run that formats falls into three parts: probing, then starting
    formatters and printing, then writing. *)
Lemma real_main_anatomy args w r w' t :
  version args = false →
  real_main args w = (r, w', t) →
  ∃ t1 t2 t3,
    t = t1 ++ t2 ++ t3 ∧
    runs t1 = [] ∧ prints t1 = [] ∧ writes t1 = [] ∧
    (∀ q, q ∈ probes t1 → q ∈ dune_files args) ∧
    probes t2 = [] ∧ writes t2 = [] ∧
    prints t2 = (if in_place args then [] else successes (runs t2)) ∧
    (∀ cmd o, (cmd, o) ∈ runs t2 →
       o = run_process cmd (fs w) ∧
       ∃ exe k, shutil_which_dune = Some exe ∧ cmd = format_cmd exe k ∧
                k ∈ dune_files args ∧ valid_target (fs w) k) ∧
    probes t3 = [] ∧ runs t3 = [] ∧ prints t3 = [] ∧
    (in_place args = false → t3 = []) ∧
    (∀ p, p ∈ (writes t3).*1 → p ∈ dune_files args ∧ valid_target (fs w) p).
Proof.
  intros Hv Hr.
  apply real_main_formatting in Hr as (r1 & w1 & t1 & Hs & Hcase); [|done].
  pose proof (λ q, stage_loop_probes _ _ _ _ _ _ _ q Hs) as Hpr1.
  apply stage_loop_inert with (l := ∅) in Hs
    as (Hfs1 & Hr1 & Hw1 & Hp1 & Hres); [|done].
  simpl in Hfs1.
  assert (prints [] = if in_place args then [] else successes (runs []))
    as Hnil by (by destruct (in_place args)).
  destruct r1 as [d|e].
  2:{ destruct Hcase as (_ & -> & _). exists t1, [], [].
      rewrite !app_nil_r. split_and!; try done.
      - intros cmd o Hin. by apply elem_of_nil in Hin.
      - intros p Hin. by apply elem_of_nil in Hin. }
  destruct Hres as (Hall & -> & _).
  set (d := (staged _ _ _ _).1) in *.
  assert (∀ k, k ∈ d.*1 → k ∈ dune_files args ∧ valid_target (fs w) k)
    as Hkeys.
  { intros k Hk. change (k ∈ dict_keys d) in Hk. subst d.
    rewrite staged_keys_nil, elem_of_ordered_keys in Hk.
    split; [done|]. by apply (proj1 (Forall_forall _ _) Hall). }
  destruct Hcase as (r2 & w2 & t2 & Hf & Hcase).
  pose proof (format_loop_inert _ _ _ _ _ _ _ Hf) as (Hfs2 & Hw2 & Hpr2 & Hp2).
  assert (prints t2 = if in_place args then [] else successes (runs t2))
    as Hprints.
  { destruct (in_place args) eqn:Hip; [by apply Hp2|].
    by eapply format_loop_prints. }
  assert (∀ cmd o, (cmd, o) ∈ runs t2 →
            o = run_process cmd (fs w) ∧
            ∃ exe k, shutil_which_dune = Some exe ∧ cmd = format_cmd exe k ∧
                     k ∈ dune_files args ∧ valid_target (fs w) k) as Hruns.
  { intros cmd o Hin.
    destruct (format_loop_faithful _ _ _ _ _ _ _ _ _ Hf Hin)
      as (-> & exe & k & Hexe & -> & Hk).
    rewrite Hfs1. split; [done|]. exists exe, k.
    destruct (Hkeys k Hk). done. }
  assert (∀ p : string, p ∈ (writes ([] : list event)).*1 →
                        p ∈ dune_files args ∧ valid_target (fs w) p) as Hwnil.
  { intros p Hin. by apply elem_of_nil in Hin. }
  destruct r2 as [[rc|]|e].
  - destruct Hcase as (_ & -> & _). exists t1, t2, [].
    rewrite app_nil_r. split_and!; done.
  - destruct (in_place args) eqn:Hip.
    + destruct Hcase as (r3 & w3 & t3 & Hc & -> & _).
      apply commit_loop_trace in Hc as (Hr3 & Hp3 & Hpr3 & Hpre).
      exists t1, t2, t3. split_and!; try done.
      intros p Hp. apply Hkeys. destruct Hpre as [k ->].
      rewrite elem_of_app. by left.
    + destruct Hcase as (_ & -> & _). exists t1, t2, [].
      rewrite app_nil_r. split_and!; done.
  - destruct Hcase as (_ & -> & _). exists t1, t2, [].
    rewrite app_nil_r. split_and!; done.
Qed.

(** X3.  A run that formats proceeds in three phases that do not
    interleave: first it only probes paths, then it only starts formatters
    (and prints, in stream mode), then it only writes files; the last
    phase is empty in stream mode.  So every path is validated before any
    formatter is started, and every formatter has ended before any file is
    written. *)
Theorem run_phases args w r w' t :
  version args = false →
  real_main args w = (r, w', t) →
  ∃ t1 t2 t3,
    t = t1 ++ t2 ++ t3 ∧
    (runs t1 = [] ∧ prints t1 = [] ∧ writes t1 = []) ∧
    (probes t2 = [] ∧ writes t2 = []) ∧
    (probes t3 = [] ∧ runs t3 = [] ∧ prints t3 = []) ∧
    (in_place args = false → t3 = []).
Proof.
  intros Hv Hr.
  destruct (real_main_anatomy _ _ _ _ _ Hv Hr)
    as (t1 & t2 & t3 & -> & ? & ? & ? & _ & ? & ? & _ & _ & ? & ? & ? & ? & _).
  exists t1, t2, t3. split_and!; done.
Qed.

(** X4.  A run that formats touches the paths of the batch and no
    other: every probe is on a path of the batch; every process started is
    [<exe> format-dune-file <path>], with the executable that was found,
    on a path of the batch that resolved, and ends as the environment says
    for the filesystem the run found; every write is on a path of the
    batch that resolved. *)
Theorem only_batch_paths args w r w' t :
  version args = false →
  real_main args w = (r, w', t) →
  (∀ q, q ∈ probes t → q ∈ dune_files args) ∧
  (∀ cmd o, EvRun cmd o ∈ t →
     o = run_process cmd (fs w) ∧
     ∃ exe k, shutil_which_dune = Some exe ∧ cmd = format_cmd exe k ∧
              k ∈ dune_files args ∧ valid_target (fs w) k) ∧
  (∀ p c, EvWrite p c ∈ t → p ∈ dune_files args ∧ valid_target (fs w) p).
Proof.
  intros Hv Hr.
  destruct (real_main_anatomy _ _ _ _ _ Hv Hr)
    as (t1 & t2 & t3 & -> & Hr1 & _ & Hw1 & Hpr1 & Hpr2 & Hw2 & _ & Hruns
        & Hpr3 & Hr3 & _ & _ & Hwr).
  split_and!.
  - intros q. rewrite !probes_app_ev, Hpr2, Hpr3, !app_nil_r. apply Hpr1.
  - intros cmd o Hin%elem_of_runs.
    rewrite !runs_app, Hr1, Hr3, app_nil_r in Hin. by apply Hruns.
  - intros p c Hin%elem_of_writes.
    rewrite !writes_app, Hw1, Hw2 in Hin. simpl in Hin.
    apply Hwr. apply list_elem_of_fmap. by exists (p, c).
Qed.

(** X5.  Standard output of a run that formats: nothing in in-place
    mode; in stream mode the outputs of the formatters that completed with
    status 0, in the order they were started, and nothing else, also when
    a later formatter fails. *)
Theorem stdout_is_the_successful_outputs args w r w' t :
  version args = false →
  real_main args w = (r, w', t) →
  prints t = if in_place args then [] else successes (runs t).
Proof.
  intros Hv Hr.
  destruct (real_main_anatomy _ _ _ _ _ Hv Hr)
    as (t1 & t2 & t3 & -> & Hr1 & Hp1 & _ & _ & _ & _ & Hp2 & _
        & _ & Hr3 & Hp3 & _).
  by rewrite !prints_app, !runs_app, Hr1, Hp1, Hr3, Hp3, !app_nil_r.
Qed.

(** ** Runs that reach the commit *)

Lemma ordered_keys_nil_inv files : ordered_keys files = [] → files = [].
Proof.
  intros Hk. destruct files as [|f files]; [done|].
  assert (f ∈ ordered_keys (f :: files)) as Hf
    by (apply elem_of_ordered_keys; left).
  rewrite Hk in Hf. by apply elem_of_nil in Hf.
Qed.

Lemma real_main_empty args w :
  version args = false → dune_files args = [] →
  real_main args w
  = (Ret 0%Z,
     World (fs w) (if save_dune_temps args then Some ∅ else None), []).
Proof.
  intros Hv Hf. unfold real_main, with_SaveableTempDir. rewrite Hv, Hf.
  simpl. unfold bind, ret. simpl.
  by destruct (in_place args), (save_dune_temps args).
Qed.

(** An in-place run whose formatting loop ran to its end is a run in
    which every formatter completed with status 0. *)
Lemma real_main_completed args w d w1 t1 w2 t2 :
  stage_loop (in_place args) (dune_files args) [] (World (fs w) (Some ∅))
  = (Ret d, w1, t1) →
  format_loop (in_place args) d None w1 = (Ret None, w2, t2) →
  dune_files args = []
  ∨ ∃ exe, shutil_which_dune = Some exe ∧
           Forall (valid_target (fs w)) (dune_files args) ∧
           ∀ p, p ∈ dune_files args →
                run_process (format_cmd exe p) (fs w)
                = Completed 0 (captured exe (fs w) p).
Proof.
  intros Hs Hf.
  apply stage_loop_inert with (l := ∅) in Hs
    as (Hfs1 & _ & _ & _ & Hall & -> & _); [|done].
  simpl in Hfs1, Hall.
  destruct (format_loop_done _ _ _ _ _ _ Hf) as [Hd|(exe & Hexe & Hok)].
  - left. apply ordered_keys_nil_inv.
    rewrite <- (staged_keys_nil (in_place args) (dune_files args) ∅).
    unfold dict_keys. by rewrite Hd.
  - right. exists exe. split_and!; [done|done|].
    intros p Hp. destruct (Hok p) as (out & Hout).
    + change (p ∈ dict_keys (staged (in_place args) (dune_files args) ∅ []).1).
      by rewrite staged_keys_nil, elem_of_ordered_keys.
    + rewrite Hfs1 in Hout. unfold captured. by rewrite Hout.
Qed.

(** X6.  All or nothing, whatever the formatters do.  A run that
    formats either leaves the filesystem exactly as it found it and writes
    nothing, or it is an in-place run that returns 0 in which, for every
    path of the batch, the formatter was started on it, completed with
    status 0, and its captured output was written to the path and is the
    path's final content, all other paths being untouched. *)
Theorem all_or_nothing args w code w' t :
  version args = false →
  main args w = (code, w', t) →
  (fs w' = fs w ∧ writes t = [])
  ∨ (in_place args = true ∧ code = 0%Z ∧
     ∃ exe, shutil_which_dune = Some exe ∧
       (∀ p, p ∈ dune_files args →
          ∃ out, EvRun (format_cmd exe p) (Completed 0 out) ∈ t ∧
                 EvWrite p out ∈ t ∧
                 file_content (fs w') p = Some out) ∧
       (∀ p, p ∉ dune_files args → fs w' !! p = fs w !! p)).
Proof.
  intros Hv Hm. unfold main in Hm.
  destruct (real_main args w) as [[r w1] t1] eqn:Hr0.
  injection Hm as <- <- <-. pose proof Hr0 as Hr.
  apply real_main_formatting in Hr as (r1 & w2 & t2 & Hs & Hcase); [|done].
  pose proof Hs as Hs0.
  apply stage_loop_inert with (l := ∅) in Hs
    as (Hfs1 & _ & Hw1 & _ & _); [|done].
  simpl in Hfs1.
  destruct r1 as [d|e].
  2:{ left. destruct Hcase as (_ & -> & ->). by rewrite Hfs1. }
  destruct Hcase as (r2 & w3 & t3 & Hf & Hcase).
  pose proof (format_loop_inert _ _ _ _ _ _ _ Hf) as (Hfs2 & Hw2 & _ & _).
  assert (fs w1 = fs w3 → t1 = t2 ++ t3 →
          fs w1 = fs w ∧ writes t1 = []) as Hsame.
  { intros -> ->. split; [congruence|]. by rewrite writes_app, Hw1, Hw2. }
  destruct r2 as [[rc|]|e];
    [left; by destruct Hcase as (_ & ? & ?); apply Hsame
    | |left; by destruct Hcase as (_ & ? & ?); apply Hsame].
  destruct (in_place args) eqn:Hip;
    [|left; by destruct Hcase as (_ & ? & ?); apply Hsame].
  rewrite <- Hip in Hs0, Hf.
  destruct (real_main_completed _ _ _ _ _ _ _ Hs0 Hf)
    as [Hnil|(exe & Hexe & Hall & Hok)].
  - left. rewrite (real_main_empty _ _ Hv Hnil) in Hr0.
    by injection Hr0 as <- <- <-.
  - right.
    destruct (real_main_in_place_ok args w exe (captured exe (fs w))
                Hv Hip Hexe Hall Hok) as (f' & td & Hok' & Hin & Hout).
    rewrite Hok' in Hr0. injection Hr0 as <- <- <-. simpl.
    split_and!; [done|done|]. exists exe. split_and!; [done| |done].
    intros p Hp. exists (captured exe (fs w) p). split_and!.
    + apply elem_of_app. right. apply elem_of_app. left.
      apply list_elem_of_fmap. exists p. split; [done|].
      by apply elem_of_ordered_keys.
    + apply elem_of_app. right. apply elem_of_app. right.
      apply list_elem_of_fmap. exists p. split; [done|].
      by apply elem_of_ordered_keys.
    + unfold file_content. by rewrite (Hin p Hp).
Qed.

Lemma loop_outcome_app r t0 t : loop_outcome r t → loop_outcome r (t0 ++ t).
Proof.
  destruct r as [[rc|]|e]; simpl; [|done|].
  - intros [?|[(c & o & ? & ?)|(c & o & ?)]]; [by left| |].
    + right; left. exists c, o. split; [|done]. apply elem_of_app. by right.
    + right; right. exists c, o. apply elem_of_app. by right.
  - intros [?|[?|(? & c & ?)]]; [by left|right; by left|].
    right; right. split; [done|]. exists c. apply elem_of_app. by right.
Qed.

(** How the formatting loop can end, the dict being well formed. *)
Lemma format_loop_outcome ip items : ∀ df w r w' t,
  format_loop ip items df w = (r, w', t) →
  is_Some (tmpdir w) →
  (ip = true → ∀ k v, (k, v) ∈ items → is_Some v) →
  loop_outcome r t.
Proof.
  induction items as [|[k v] items IH]; intros df w r w' t H Hm Hv.
  - by injection H as <- <- <-.
  - assert (ip = true → ∀ k0 v0, (k0, v0) ∈ items → is_Some v0) as Hv'.
    { intros Hip k0 v0 Hin. apply (Hv Hip k0). by right. }
    assert (ip = true → is_Some v) as Hv0.
    { intros Hip. apply (Hv Hip k). left. }
    rewrite format_loop_cons in H. cbv zeta in H.
    destruct shutil_which_dune as [exe|] eqn:Hexe.
    2:{ injection H as <- <- <-. left. done. }
    destruct (run_process _ _) as [rc out|e] eqn:Ho.
    + destruct (negb (rc =? 0)%Z) eqn:Hz.
      { injection H as <- <- <-. right; left. eexists _, _. split; [left|].
        by apply Z.eqb_neq, negb_true_iff. }
      destruct ip.
      * destruct (Hv0 eq_refl) as [tp ->]. destruct Hm as [m Hm].
        rewrite Hm in H.
        destruct (format_loop _ _ _ _) as [[r2 w2] t2] eqn:Hf.
        injection H as <- <- <-.
        apply (loop_outcome_app _ [_]).
        eapply IH; [exact Hf|by eexists|exact Hv'].
      * destruct (format_loop _ _ _ _) as [[r2 w2] t2] eqn:Hf.
        injection H as <- <- <-.
        apply (loop_outcome_app _ [_; _]).
        eapply IH; [exact Hf|done|exact Hv'].
    + destruct e; simpl in H;
        try (destruct df; injection H as <- <- <-; simpl;
             first [by left | right; by left]).
      * injection H as <- <- <-. right; right. eexists _, _. left.
      * injection H as <- <- <-. right; right. split; [done|]. eexists. left.
Qed.

(** X7.  How a run that formats can end.  It returns 0, 1, or the
    status of a formatter that was started; or it raises the wrong-name
    error on a path of the batch, the permission error on a path of the
    batch that cannot be read or written, the error of the missing
    executable, the unbound [df_res], or what came out of a started
    process and is no [Exception].  In particular neither commit nor the
    temporary files ever fail, and the error for a missing temporary file
    is never raised. *)
Theorem outcome_taxonomy args w r w' t :
  version args = false →
  real_main args w = (r, w', t) →
  match r with
  | Ret code =>
      code = 0%Z ∨ code = 1%Z
      ∨ (∃ cmd out, EvRun cmd (Completed code out) ∈ t ∧ code ≠ 0%Z)
      ∨ (∃ cmd out, EvRun cmd (Raised (CalledProcessError code out)) ∈ t)
  | Raise e =>
      (∃ q, q ∈ dune_files args ∧ e = TypeError (not_a_dune_file_msg q))
      ∨ (∃ q msg, q ∈ dune_files args ∧ permission_denied (fs w) q ∧
                  e = PermissionError msg)
      ∨ (shutil_which_dune = None ∧
         e = FileNotFoundError
               "'dune' executable not found. Try running 'opam install dune'.")
      ∨ e = UnboundLocalError "df_res"
      ∨ (is_Exception e = false ∧ ∃ cmd, EvRun cmd (Raised e) ∈ t)
  end.
Proof.
  intros Hv Hr0. pose proof Hr0 as Hr.
  apply real_main_formatting in Hr as (r1 & w1 & t1 & Hs & Hcase); [|done].
  destruct r1 as [d|e].
  2:{ destruct Hcase as (-> & -> & _).
      destruct (stage_loop_cases (in_place args) (dune_files args) []
                  (World (fs w) (Some ∅)) ∅ eq_refl) as
        [Hall|(pre & q & post & e' & w2 & t2 & Hfiles & _ & He & Hs' & _)].
      { by rewrite (stage_loop_valid _ _ _ (World (fs w) (Some ∅)) ∅
                      eq_refl Hall) in Hs. }
      rewrite Hs' in Hs. injection Hs as <- <- <-.
      assert (q ∈ dune_files args) as Hq.
      { rewrite Hfiles, elem_of_app, elem_of_cons. auto. }
      simpl in He. destruct He as [(Hd & msg & ->)|(_ & ->)].
      - right; left. by exists q, msg.
      - left. by exists q. }
  destruct Hcase as (r2 & w2 & t2 & Hf & Hcase).
  pose proof Hs as Hs0.
  apply stage_loop_inert with (l := ∅) in Hs
    as (_ & _ & _ & _ & Hall & Hd & Htmp); [|done].
  assert (loop_outcome r2 t2) as Hout.
  { eapply format_loop_outcome; [exact Hf|by rewrite Htmp|].
    intros Hip k v Hkv. rewrite Hip in Hd.
    pose proof (staged_well_staged (dune_files args) ∅ []
                  (well_staged_nil ∅)) as (_ & _ & Hb).
    rewrite <- Hd in Hb. destruct (Hb k v Hkv) as (tp & -> & _). by eexists. }
  apply (loop_outcome_app _ t1) in Hout.
  destruct r2 as [[rc|]|e].
  - destruct Hcase as (-> & -> & _). simpl in Hout.
    destruct Hout as [?|[?|?]]; auto.
  - destruct (in_place args) eqn:Hip; [|destruct Hcase as (-> & _); by left].
    rewrite <- Hip in Hs0, Hf.
    destruct (real_main_completed _ _ _ _ _ _ _ Hs0 Hf)
      as [Hnil|(exe & Hexe & _ & Hok)].
    + rewrite (real_main_empty _ _ Hv Hnil) in Hr0.
      injection Hr0 as <- <- <-. by left.
    + destruct (real_main_in_place_ok args w exe (captured exe (fs w))
                  Hv Hip Hexe Hall Hok) as (f' & td & Hok' & _).
      rewrite Hok' in Hr0. injection Hr0 as <- <- <-. by left.
  - destruct Hcase as (-> & -> & _). simpl in Hout.
    destruct Hout as [?|[?|?]]; auto.
Qed.

(** ** A batch whose first formatters succeed *)

Lemma ok_events_cons exe out ip k keys :
  ok_events exe out ip (k :: keys)
  = (EvRun (format_cmd exe k) (Completed 0 (out k))
     :: if ip then [] else [EvPrint (out k)])
    ++ ok_events exe out ip keys.
Proof. by destruct ip. Qed.

Lemma ok_events_runs exe out ip keys :
  runs (ok_events exe out ip keys)
  = (λ k, (format_cmd exe k, Completed 0 (out k))) <$> keys.
Proof. destruct ip; [apply runs_run_evs|apply runs_stream_evs]. Qed.

Lemma ok_events_prints exe out ip keys :
  prints (ok_events exe out ip keys) = if ip then [] else out <$> keys.
Proof. destruct ip; [apply prints_run_evs|apply prints_stream_evs]. Qed.

Lemma ok_events_writes exe out ip keys :
  writes (ok_events exe out ip keys) = [].
Proof. destruct ip; [apply writes_run_evs|apply writes_stream_evs]. Qed.

Lemma df_after_cons out df k keys :
  df_after out df (k :: keys) = df_after out (Some (out k)) keys.
Proof. done. Qed.

Lemma df_after_Some out s keys : is_Some (df_after out (Some s) keys).
Proof.
  revert s. induction keys as [|k keys IH]; intros s; [by eexists|].
  rewrite df_after_cons. apply IH.
Qed.

(** The loop on [pre ++ rest], the formatters on [pre] completing with
    status 0, is the loop on [rest] started after them. *)
Lemma format_loop_app exe (out : string → string) ip rest : ∀ pre df w m,
  shutil_which_dune = Some exe →
  tmpdir w = Some m →
  (∀ p, p ∈ pre.*1 →
        run_process (format_cmd exe p) (fs w) = Completed 0 (out p)) →
  (ip = true → ∀ p v, (p, v) ∈ pre → is_Some v) →
  ∃ m',
    format_loop ip (pre ++ rest) df w =
    match format_loop ip rest (df_after out df pre.*1)
            (World (fs w) (Some m')) with
    | (r, w2, t2) => (r, w2, ok_events exe out ip pre.*1 ++ t2)
    end.
Proof.
  intros pre. induction pre as [|[p v] pre IH];
    intros df w m Hexe Hm Hpre Hsome.
  - exists m. rewrite app_nil_l. destruct w as [f td]. simpl in *. subst td.
    destruct (format_loop _ _ _ _) as [[r w2] t2].
    by destruct ip.
  - assert (∀ q, q ∈ pre.*1 →
                 run_process (format_cmd exe q) (fs w) = Completed 0 (out q))
      as Hpre' by (intros q Hq; apply Hpre; by right).
    assert (ip = true → ∀ q v0, (q, v0) ∈ pre → is_Some v0) as Hsome'
      by (intros Hip q v0 Hq; apply (Hsome Hip q); by right).
    rewrite <- app_comm_cons, format_loop_cons, Hexe. cbv zeta.
    rewrite (Hpre p) by left. rewrite fmap_cons.
    rewrite ok_events_cons, df_after_cons. cbn [fst negb Z.eqb].
    destruct ip.
    + destruct (Hsome eq_refl p v) as [tp ->]; [left|]. rewrite Hm.
      destruct (IH (Some (out p)) (World (fs w) (Some (<[tp:=out p]> m)))
                  (<[tp:=out p]> m) Hexe eq_refl Hpre' Hsome') as (m' & ->).
      exists m'. simpl.
      by destruct (format_loop _ _ _ _) as [[r w2] t2].
    + destruct (IH (Some (out p)) w m Hexe Hm Hpre' Hsome') as (m' & ->).
      exists m'.
      by destruct (format_loop _ _ _ _) as [[r w2] t2].
Qed.

(** The run on a batch that resolves, the formatters on the keys [pre]
    completing with status 0 and the loop stopping on the other keys:
    staging, the events of [pre], then the loop on the other keys. *)
Lemma real_main_after_prefix args w exe (out : string → string) pre rest :
  version args = false →
  shutil_which_dune = Some exe →
  Forall (valid_target (fs w)) (dune_files args) →
  ordered_keys (dune_files args) = pre ++ rest →
  (∀ p, p ∈ pre →
        run_process (format_cmd exe p) (fs w) = Completed 0 (out p)) →
  ∃ (drest : list (string * option nat)) m',
    drest.*1 = rest ∧
    ∀ rr w2 t2,
      format_loop (in_place args) drest (df_after out None pre)
        (World (fs w) (Some m')) = (rr, w2, t2) →
      rr ≠ Ret None →
      ∃ w', fs w' = fs w ∧
        real_main args w
        = (match rr with
           | Ret (Some rc) => Ret rc
           | Ret None => Ret 0%Z
           | Raise e => Raise e
           end,
           w',
           stage_events (dune_files args)
           ++ ok_events exe out (in_place args) pre ++ t2).
Proof.
  intros Hv Hexe Hall Hkeys Hpre.
  set (ip := in_place args). set (files := dune_files args) in *.
  set (d := (staged ip files ∅ []).1).
  set (m := (staged ip files ∅ []).2).
  pose proof (stage_loop_valid ip files [] (World (fs w) (Some ∅)) ∅
                eq_refl Hall) as Hs.
  simpl in Hs. fold d m in Hs.
  assert (d.*1 = pre ++ rest) as Hd.
  { rewrite <- Hkeys. apply staged_keys_nil. }
  apply fmap_app_inv in Hd as (dpre & drest & -> & -> & Hd).
  assert (ip = true → ∀ p v, (p, v) ∈ d → is_Some v) as Hsome.
  { intros Hip p v Hin.
    assert (well_staged m d) as (_ & _ & Hb).
    { subst d m. rewrite Hip.
      apply (staged_well_staged files ∅ []), well_staged_nil. }
    destruct (Hb p v Hin) as (t & -> & _). by eexists. }
  destruct (format_loop_app exe out ip drest dpre None
              (World (fs w) (Some m)) m Hexe eq_refl) as (m' & Happ).
  { done. }
  { intros Hip p v Hin. apply (Hsome Hip p). rewrite Hd, elem_of_app.
    by left. }
  simpl in Happ. rewrite <- Hd in Happ.
  exists drest, m'. split; [done|].
  intros rr w2 t2 Hf Hrr.
  exists (if save_dune_temps args then w2 else World (fs w2) None).
  assert (fs w2 = fs w) as Hfs by (by apply format_loop_inert in Hf as (? & _)).
  split; [by destruct (save_dune_temps args)|].
  unfold real_main, with_SaveableTempDir. rewrite Hv.
  fold ip files. rewrite (bind_ret_eq _ _ _ _ _ _ Hs).
  unfold bind at 1. rewrite Happ, Hf.
  destruct rr as [[rc|]|e]; [|done|]; simpl; by rewrite ?app_nil_r.
Qed.

(** X8.  The first formatter that fails stops the batch.  On a batch
    that resolves, when the formatters on the first distinct paths [pre]
    complete with status 0 and the one on the next path [k] exits with
    another status [rc], the run returns [rc]; the formatters on the paths
    after [k] are never started; in stream mode the outputs for [pre] have
    already been printed, in in-place mode nothing is printed; no file is
    written. *)
Theorem first_failure_stops_the_batch args w exe (out : string → string)
    pre k post rc err :
  version args = false →
  shutil_which_dune = Some exe →
  Forall (valid_target (fs w)) (dune_files args) →
  ordered_keys (dune_files args) = pre ++ k :: post →
  (∀ p, p ∈ pre →
        run_process (format_cmd exe p) (fs w) = Completed 0 (out p)) →
  run_process (format_cmd exe k) (fs w) = Completed rc err → rc ≠ 0%Z →
  ∃ w' t,
    main args w = (rc, w', t) ∧ fs w' = fs w ∧
    runs t = ((λ p, (format_cmd exe p, Completed 0 (out p))) <$> pre)
             ++ [(format_cmd exe k, Completed rc err)] ∧
    prints t = (if in_place args then [] else out <$> pre) ∧
    writes t = [].
Proof.
  intros Hv Hexe Hall Hkeys Hpre Hk Hrc.
  destruct (real_main_after_prefix args w exe out pre (k :: post)
              Hv Hexe Hall Hkeys Hpre) as (drest & m' & Hd & Hrun).
  apply fmap_cons_inv in Hd as ([k0 v] & dpost & -> & -> & ->).
  cbn [fst] in *.
  destruct (Hrun (Ret (Some rc)) (World (fs w) (Some m'))
              [EvRun (format_cmd exe k0) (Completed rc err)])
    as (w' & Hfs & Hr); [|done|].
  { rewrite format_loop_cons, Hexe. cbv zeta. simpl. rewrite Hk.
    apply Z.eqb_neq in Hrc. by rewrite Hrc. }
  eexists w', _. unfold main. rewrite Hr. simpl. split_and!; [done|done| | |].
  - by rewrite !runs_app, stage_events_runs, ok_events_runs.
  - rewrite !prints_app, stage_events_prints, ok_events_prints. simpl.
    by rewrite app_nil_r.
  - by rewrite !writes_app, stage_events_writes, ok_events_writes.
Qed.

(** X9.  The handler of unexpected exceptions and the unbound
    [df_res].  On a batch that resolves, when starting the formatter on a
    path raises an [Exception] other than [CalledProcessError]: if it is
    the first formatter of the run, [real_main] itself raises
    [UnboundLocalError], because the handler reads [df_res] before any
    call has returned; if formatters before it completed with status 0,
    [real_main] returns 1.  The exit code is 1 in both cases and no file
    is written. *)
Theorem unexpected_exception_and_df_res args w exe (out : string → string)
    pre k post e :
  version args = false →
  shutil_which_dune = Some exe →
  Forall (valid_target (fs w)) (dune_files args) →
  ordered_keys (dune_files args) = pre ++ k :: post →
  (∀ p, p ∈ pre →
        run_process (format_cmd exe p) (fs w) = Completed 0 (out p)) →
  run_process (format_cmd exe k) (fs w) = Raised e →
  is_Exception e = true → is_CalledProcessError e = false →
  ∃ w' t,
    real_main args w
    = (match pre with
       | [] => Raise (UnboundLocalError "df_res")
       | _ :: _ => Ret 1%Z
       end, w', t) ∧
    main args w = (1%Z, w', t) ∧ fs w' = fs w ∧ writes t = [] ∧
    runs t = ((λ p, (format_cmd exe p, Completed 0 (out p))) <$> pre)
             ++ [(format_cmd exe k, Raised e)].
Proof.
  intros Hv Hexe Hall Hkeys Hpre Hk He Hc.
  destruct (real_main_after_prefix args w exe out pre (k :: post)
              Hv Hexe Hall Hkeys Hpre) as (drest & m' & Hd & Hrun).
  apply fmap_cons_inv in Hd as ([k0 v] & dpost & -> & -> & ->).
  cbn [fst] in *.
  set (rr := match pre with
             | [] => Raise (UnboundLocalError "df_res")
             | _ :: _ => Ret (Some 1%Z)
             end : py_result (option Z)).
  destruct (Hrun rr (World (fs w) (Some m'))
              [EvRun (format_cmd exe k0) (Raised e)])
    as (w' & Hfs & Hr).
  { rewrite format_loop_cons, Hexe. cbv zeta. simpl. rewrite Hk. subst rr.
    destruct pre as [|p pre].
    - destruct e; simpl in *; done.
    - rewrite df_after_cons.
      destruct (df_after_Some out (out p) pre) as [s ->].
      destruct e; simpl in *; done. }
  { subst rr. by destruct pre. }
  eexists w', _. unfold main. rewrite Hr. subst rr.
  split_and!; [by destruct pre|by destruct pre|done| |].
  - by rewrite !writes_app, stage_events_writes, ok_events_writes.
  - by rewrite !runs_app, stage_events_runs, ok_events_runs.
Qed.

(** X10.  The missing executable.  When no [dune] is on the search path,
    a run that formats never starts a process and never writes; on a
    batch that is not empty it exits with code 1, and when every path
    resolves what it raises is the error of the missing executable, after
    all the paths have been probed: a path that does not resolve is
    reported before the missing executable is. *)
Theorem missing_executable args w :
  shutil_which_dune = None →
  version args = false →
  dune_files args ≠ [] →
  ∃ e w' t,
    real_main args w = (Raise e, w', t) ∧ main args w = (1%Z, w', t) ∧
    fs w' = fs w ∧ runs t = [] ∧ writes t = [] ∧
    (Forall (valid_target (fs w)) (dune_files args) →
     e = FileNotFoundError
           "'dune' executable not found. Try running 'opam install dune'." ∧
     t = stage_events (dune_files args)).
Proof.
  intros Hexe Hv Hne.
  destruct (stage_loop_cases (in_place args) (dune_files args) []
              (World (fs w) (Some ∅)) ∅ eq_refl) as
    [Hall|(pre & q & post & e & w1 & t & Hfiles & Hpre & He & Hs & _)].
  - simpl in Hall.
    pose proof (stage_loop_valid (in_place args) (dune_files args) []
                  (World (fs w) (Some ∅)) ∅ eq_refl Hall) as Hs.
    simpl in Hs.
    set (d := (staged (in_place args) (dune_files args) ∅ []).1) in *.
    destruct d as [|[k v] d'] eqn:Hd.
    { destruct Hne. apply ordered_keys_nil_inv.
      rewrite <- (staged_keys_nil (in_place args) (dune_files args) ∅).
      unfold dict_keys. fold d. by rewrite Hd. }
    eexists _, _, _.
    assert (∀ w0, format_loop (in_place args) ((k, v) :: d') None w0
                  = (Raise (FileNotFoundError
                       "'dune' executable not found. Try running 'opam install dune'."),
                     w0, [])) as Hf.
    { intros w0. by rewrite format_loop_cons, Hexe. }
    assert (real_main args w
            = (Raise (FileNotFoundError
                 "'dune' executable not found. Try running 'opam install dune'."),
               (if save_dune_temps args
                then World (fs w)
                       (Some (staged (in_place args) (dune_files args) ∅ []).2)
                else World (fs w) None),
               stage_events (dune_files args))) as Hr.
    { unfold real_main, with_SaveableTempDir. rewrite Hv.
      rewrite (bind_ret_eq _ _ _ _ _ _ Hs).
      rewrite (bind_raise_eq _ _ _ _ _ _ (Hf _)).
      by rewrite app_nil_r. }
    unfold main. rewrite Hr. simpl.
    split_and!; [done|done| | | |done].
    + by destruct (save_dune_temps args).
    + apply stage_events_runs.
    + apply stage_events_writes.
  - destruct (real_main_stage_raise args w e w1 t Hv Hs)
      as (w' & Hr & Hm & Hfs & Hruns & Hwrites).
    exists e, w', t. split_and!; try done.
    intros Hall. exfalso. simpl in Hpre, He.
    assert (valid_target (fs w) q) as Hq.
    { apply (proj1 (Forall_forall _ _) Hall).
      rewrite Hfiles, elem_of_app, elem_of_cons. auto. }
    destruct He as [(Hd & _)|([Hn|Hn] & _)].
    + destruct Hq as (c & Hc & _). destruct Hd as (fl & Hfl & _ & Hperm).
      rewrite Hc in Hfl. by injection Hfl as <-.
    + by destruct Hq as (? & ? & ?).
    + destruct Hq as (c & Hc & _). destruct Hn. by eexists.
Qed.

(** ** The temporary directory *)


Lemma staged_size files : ∀ m d,
  size (staged true files m d).2 = size m + length files.
Proof.
  induction files as [|f files IH]; intros m d; simpl; [lia|].
  rewrite IH, map_size_insert_None; [lia|].
  apply not_elem_of_dom, is_fresh.
Qed.

Lemma staged_all_empty files : ∀ m d tp c,
  (∀ tp c, m !! tp = Some c → c = EmptyString) →
  (staged true files m d).2 !! tp = Some c → c = EmptyString.
Proof.
  induction files as [|f files IH]; intros m d tp c Hm; simpl; [apply Hm|].
  apply IH. intros tp' c'.
  rewrite lookup_insert. case_decide; [by intros [= <-]|apply Hm].
Qed.

(** X12.  What [--save-dune-temps] keeps after a run that succeeds.  In
    in-place mode the directory holds one temporary file per argument, a
    path named several times getting several; for every path of the batch
    one of them holds the output of its formatter, and every other one is
    empty.  In stream mode the directory is empty. *)
Theorem saved_temporary_files args w exe (out : string → string) :
  version args = false → save_dune_temps args = true →
  shutil_which_dune = Some exe →
  Forall (valid_target (fs w)) (dune_files args) →
  (∀ p, p ∈ dune_files args →
        run_process (format_cmd exe p) (fs w) = Completed 0 (out p)) →
  ∃ f' m' t,
    real_main args w = (Ret 0%Z, World f' (Some m'), t) ∧
    if in_place args
    then size m' = length (dune_files args) ∧
         (∀ p, p ∈ dune_files args → ∃ tp, m' !! tp = Some (out p)) ∧
         (∀ tp c, m' !! tp = Some c →
                  c = EmptyString ∨ ∃ p, p ∈ dune_files args ∧ c = out p)
    else m' = ∅.
Proof.
  intros Hv Hsave Hexe Hall Hrun.
  set (files := dune_files args) in *.
  destruct (in_place args) eqn:Hip.
  - set (d := (staged true files ∅ []).1).
    set (m := (staged true files ∅ []).2).
    assert (well_staged m d) as Hws.
    { apply (staged_well_staged files ∅ []), well_staged_nil. }
    assert (d.*1 = ordered_keys files) as Hkeys by apply staged_keys_nil.
    destruct (format_loop_in_place_ok exe out d None
                (World (fs w) (Some m)) m Hexe eq_refl)
      as (m' & Hf & Hin & Hout); [|done|].
    { intros k Hk. apply Hrun. simpl.
      by rewrite Hkeys, elem_of_ordered_keys in Hk. }
    simpl in Hf.
    destruct (commit_loop_ok out d (World (fs w) (Some m')) m' eq_refl)
      as (f' & Hc & _ & _).
    { intros k v Hkv. destruct Hws as (_ & _ & Hb).
      destruct (Hb k v Hkv) as (t & -> & _). exists t. split; [done|].
      by apply Hin. }
    { by destruct Hws. }
    { intros k Hk. simpl. rewrite Hkeys, elem_of_ordered_keys in Hk.
      by apply (proj1 (Forall_forall _ _) Hall). }
    exists f', m'. eexists. split.
    { unfold real_main, with_SaveableTempDir. rewrite Hv, Hip, Hsave.
      fold files.
      rewrite (bind_ret_eq _ _ _ _ _ _
                 (stage_loop_valid true files [] (World (fs w) (Some ∅)) ∅
                    eq_refl Hall)).
      simpl. fold d m.
      rewrite (bind_ret_eq _ _ _ _ _ _ Hf).
      rewrite (bind_ret_eq _ _ _ _ _ _ Hc). simpl. done. }
    assert (∀ tp, Some tp ∈ d.*2 →
                  ∃ k, (k, Some tp) ∈ d ∧ tp ∈ dom m ∧ k ∈ files) as Hval.
    { intros tp ([k v] & Heq & Hkv)%list_elem_of_fmap. simpl in Heq. subst v.
      exists k. destruct Hws as (_ & _ & Hb).
      destruct (Hb k _ Hkv) as (t & [= <-] & Hdom).
      split_and!; [done|done|].
      apply elem_of_ordered_keys. rewrite <- Hkeys.
      apply list_elem_of_fmap. by exists (k, Some tp). }
    split_and!.
    + rewrite <- (Nat.add_0_l (length files)).
      rewrite <- (map_size_empty (M := gmap nat) (A := string)).
      rewrite <- (staged_size files ∅ []). fold m.
      rewrite <- !size_dom. f_equal. apply set_eq. intros tp.
      rewrite !elem_of_dom.
      destruct (decide (Some tp ∈ d.*2)) as [Htp|Htp].
      * destruct (Hval tp Htp) as (k & Hkv & Hdom & _).
        rewrite (Hin k tp Hkv). apply elem_of_dom in Hdom.
        split; [done|by eexists].
      * by rewrite (Hout tp Htp).
    + intros p Hp.
      assert (p ∈ d.*1) as Hpd by (by rewrite Hkeys, elem_of_ordered_keys).
      apply list_elem_of_fmap in Hpd as ([k v] & -> & Hkv). simpl.
      destruct Hws as (_ & _ & Hb).
      destruct (Hb k v Hkv) as (tp & -> & _). exists tp. by apply Hin.
    + intros tp c Hc'.
      destruct (decide (Some tp ∈ d.*2)) as [Htp|Htp].
      * destruct (Hval tp Htp) as (k & Hkv & _ & Hk).
        rewrite (Hin k tp Hkv) in Hc'. injection Hc' as <-.
        right. by exists k.
      * rewrite (Hout tp Htp) in Hc'. left.
        by apply (staged_all_empty files ∅ [] tp c).
  - exists (fs w), ∅. eexists. split; [|done].
    set (d := (staged false files ∅ []).1).
    assert (d.*1 = ordered_keys files) as Hkeys by apply staged_keys_nil.
    unfold real_main, with_SaveableTempDir. rewrite Hv, Hip, Hsave.
    fold files.
    rewrite (bind_ret_eq _ _ _ _ _ _
               (stage_loop_valid false files [] (World (fs w) (Some ∅)) ∅
                  eq_refl Hall)).
    simpl. fold d. rewrite staged_stream.
    rewrite (bind_ret_eq _ _ _ _ _ _
               (format_loop_stream_ok exe out d None
                  (World (fs w) (Some ∅)) Hexe
                  ltac:(intros k Hk; apply Hrun; simpl;
                        by rewrite Hkeys, elem_of_ordered_keys in Hk))).
    simpl. done.
Qed.

(** ** Running the program again *)

(** X13.  Two in-place runs one after the other, with a formatter whose
    output is a function [fmt] of the file's content.  Both return 0; after
    the first every file of the batch holds [fmt] of its content, after the
    second [fmt] of that; files outside the batch are those of the start.
    When [fmt] is idempotent the second run leaves the tree of the first
    and writes again what the first wrote. *)
Theorem formatting_twice args w exe (fmt : string → string) :
  version args = false → in_place args = true →
  shutil_which_dune = Some exe →
  Forall (valid_target (fs w)) (dune_files args) →
  (∀ f p c, p ∈ dune_files args →
            f !! p = Some (Regular (File true true c)) →
            run_process (format_cmd exe p) f = Completed 0 (fmt c)) →
  ∃ w1 t1 w2 t2,
    main args w = (0%Z, w1, t1) ∧ main args w1 = (0%Z, w2, t2) ∧
    (∀ p c, p ∈ dune_files args → file_content (fs w) p = Some c →
            file_content (fs w1) p = Some (fmt c) ∧
            file_content (fs w2) p = Some (fmt (fmt c))) ∧
    (∀ p, p ∉ dune_files args → fs w2 !! p = fs w !! p) ∧
    ((∀ c, fmt (fmt c) = fmt c) → fs w2 = fs w1 ∧ writes t2 = writes t1).
Proof.
  intros Hv Hip Hexe Hall Hfmt.
  set (out1 := λ p, fmt (default EmptyString (file_content (fs w) p))).
  assert (∀ p, p ∈ dune_files args →
            run_process (format_cmd exe p) (fs w) = Completed 0 (out1 p))
    as Hrun1.
  { intros p Hp.
    destruct (proj1 (Forall_forall _ _) Hall p Hp) as (c & Hc & _).
    rewrite (Hfmt _ _ _ Hp Hc). unfold out1, file_content. by rewrite Hc. }
  destruct (real_main_in_place_ok args w exe out1 Hv Hip Hexe Hall Hrun1)
    as (f1 & td1 & Hr1 & Hin1 & Hout1).
  set (w1 := World f1 td1).
  assert (Forall (valid_target (fs w1)) (dune_files args)) as Hall1.
  { apply Forall_forall. intros p Hp.
    destruct (proj1 (Forall_forall _ _) Hall p Hp) as (c & _ & Hn).
    exists (out1 p). split; [by apply Hin1|done]. }
  set (out2 := λ p, fmt (out1 p)).
  assert (∀ p, p ∈ dune_files args →
            run_process (format_cmd exe p) (fs w1) = Completed 0 (out2 p))
    as Hrun2.
  { intros p Hp. apply (Hfmt _ _ _ Hp). by apply Hin1. }
  destruct (real_main_in_place_ok args w1 exe out2 Hv Hip Hexe Hall1 Hrun2)
    as (f2 & td2 & Hr2 & Hin2 & Hout2).
  exists w1. eexists. exists (World f2 td2). eexists.
  unfold main. rewrite Hr1, Hr2. simpl.
  split_and!; [done|done| | |].
  - intros p c Hp Hc. unfold file_content.
    rewrite (Hin1 p Hp), (Hin2 p Hp). unfold out2, out1. by rewrite Hc.
  - intros p Hp. by rewrite (Hout2 p Hp), <- (Hout1 p Hp).
  - intros Hid. split.
    + apply map_eq. intros p.
      destruct (decide (p ∈ dune_files args)) as [Hp|Hp].
      * rewrite (Hin2 p Hp), (Hin1 p Hp). unfold out2, out1.
        by rewrite Hid.
      * by rewrite (Hout2 p Hp).
    + rewrite !writes_app, !stage_events_writes, !writes_run_evs,
        !writes_write_evs. simpl.
      apply list_fmap_ext. intros _ k _. unfold out2, out1.
      by rewrite Hid.
Qed.

(** ** The keyword arguments handed on to [TempDir] *)

(** X14.  [__super_kwargs__], through which [__new__] and [__init__] hand
    their keyword arguments on to the base class: the result has no
    [save]; every other keyword is kept with its value, in the order
    given; keywords without [save] pass through as they are; a second
    pass removes nothing more. *)
Theorem super_kwargs_drop_save {V : Type} (kwargs : list (string * V)) :
  ("save" ∉ (__super_kwargs__ kwargs).*1) ∧
  (∀ k v, (k, v) ∈ __super_kwargs__ kwargs ↔ (k, v) ∈ kwargs ∧ k ≠ "save") ∧
  __super_kwargs__ kwargs `sublist_of` kwargs ∧
  ("save" ∉ kwargs.*1 → __super_kwargs__ kwargs = kwargs) ∧
  __super_kwargs__ (__super_kwargs__ kwargs) = __super_kwargs__ kwargs.
Proof.
  assert (∀ k v, (k, v) ∈ __super_kwargs__ kwargs
                 ↔ (k, v) ∈ kwargs ∧ k ≠ "save") as Hmem.
  { intros k v. unfold __super_kwargs__, my_kwargs.
    rewrite list_elem_of_filter. simpl. rewrite list_elem_of_singleton.
    tauto. }
  split_and!.
  - intros ([k v] & Hk & Hkv)%list_elem_of_fmap. simpl in Hk. subst k.
    apply Hmem in Hkv. by destruct Hkv.
  - done.
  - apply sublist_filter.
  - intros Hno. clear Hmem. unfold __super_kwargs__, my_kwargs.
    induction kwargs as [|[k v] kwargs IH]; [done|].
    rewrite fmap_cons, not_elem_of_cons in Hno. destruct Hno as [Hk Hno].
    rewrite filter_cons_True.
    + f_equal. by apply IH.
    + simpl. rewrite list_elem_of_singleton. by intros ->.
  - clear Hmem. unfold __super_kwargs__. induction kwargs as [|[k v] kwargs IH]; [done|].
    rewrite filter_cons. case_decide as Hk.
    + rewrite filter_cons_True by done. by rewrite IH.
    + apply IH.
Qed.

(** ** The two modes side by side *)

Lemma stage_loop_cons ip f files d w :
  stage_loop ip (f :: files) d w =
  match get_dune_file_path f w with
  | (Raise e, w1, t1) => (Raise e, w1, t1)
  | (Ret None, w1, t1) => (Raise (TypeError (not_a_dune_file_msg f)), w1, t1)
  | (Ret (Some p), w1, t1) =>
      match (if ip then
               do tmp <- NamedTemporaryFile;
               stage_loop ip files (dict_set p (Some tmp) d)
             else stage_loop ip files (dict_set p None d)) w1 with
      | (r, w2, t2) => (r, w2, t1 ++ t2)
      end
  end.
Proof.
  simpl. unfold bind at 1.
  destruct (get_dune_file_path f w) as [[[[p|]|e] w1] t1]; try done.
  unfold raise. by rewrite app_nil_r.
Qed.

Lemma stage_loop_modes ip1 ip2 files : ∀ d1 d2 w1 w2 r1 w1' t1 r2 w2' t2,
  fs w1 = fs w2 → is_Some (tmpdir w1) → is_Some (tmpdir w2) →
  stage_loop ip1 files d1 w1 = (r1, w1', t1) →
  stage_loop ip2 files d2 w2 = (r2, w2', t2) →
  t1 = t2 ∧
  match r1, r2 with
  | Ret _, Ret _ => True
  | Raise e1, Raise e2 => e1 = e2
  | _, _ => False
  end.
Proof.
  induction files as [|f files IH];
    intros d1 d2 w1 w2 r1 w1' t1 r2 w2' t2 Hfs [m1 Hm1] [m2 Hm2] H1 H2.
  - injection H1 as <- <- <-. by injection H2 as <- <- <-.
  - rewrite stage_loop_cons, get_dune_file_path_eq in H1, H2.
    rewrite Hfs in H1.
    destruct (fs w2 !! f) as [[|[r wr c]]|]; try (by simplify_eq).
    case_bool_decide; [|by simplify_eq].
    destruct r, wr; cbn [readable writable] in H1, H2; try (by simplify_eq).
    assert (∀ (ip : bool) (d : staging) (w : world) m
              (r : py_result staging) w' t,
              tmpdir w = Some m →
              (if ip then
                 do tmp <- NamedTemporaryFile;
                 stage_loop ip files (dict_set f (Some tmp) d)
               else stage_loop ip files (dict_set f None d)) w = (r, w', t) →
              ∃ d' w0, fs w0 = fs w ∧ is_Some (tmpdir w0) ∧
                       stage_loop ip files d' w0 = (r, w', t)) as Hstep.
    { intros ip d w m r w' t Hm Hr. destruct ip.
      - rewrite (bind_ret_eq _ _ _ _ _ _ (NamedTemporaryFile_eq _ _ Hm)) in Hr.
        destruct (stage_loop true files _ _) as [[r0 w0] t0] eqn:E in Hr.
        injection Hr as <- <- <-.
        exists (dict_set f (Some (fresh (dom m))) d),
               (World (fs w) (Some (<[fresh (dom m) := EmptyString]> m))).
        split_and!; [done|by eexists|exact E].
      - exists (dict_set f None d), w. split_and!; [done|by eexists|done]. }
    match type of H1 with
    | (let (_, _) := ?x in _) = _ => destruct x as [[ra wa] ta] eqn:E1
    end.
    match type of H2 with
    | (let (_, _) := ?x in _) = _ => destruct x as [[rb wb] tb] eqn:E2
    end.
    injection H1 as <- <- <-. injection H2 as <- <- <-.
    destruct (Hstep _ _ _ _ _ _ _ Hm1 E1) as (d1' & w1n & Hf1 & Ht1 & Hs1).
    destruct (Hstep _ _ _ _ _ _ _ Hm2 E2) as (d2' & w2n & Hf2 & Ht2 & Hs2).
    assert (fs w1n = fs w2n) as Hfn by congruence.
    destruct (IH _ _ _ _ _ _ _ _ _ _ Hfn Ht1 Ht2 Hs1 Hs2) as [-> Hr].
    done.
Qed.

(** One turn of the formatting loop whose formatter completes with
    status 0. *)
Lemma format_loop_cons_ok ip k v rest df w exe out r w' t :
  shutil_which_dune = Some exe →
  run_process (format_cmd exe k) (fs w) = Completed 0 out →
  (ip = true → is_Some (tmpdir w) ∧ is_Some v) →
  format_loop ip ((k, v) :: rest) df w = (r, w', t) →
  ∃ wn tn,
    fs wn = fs w ∧ (is_Some (tmpdir w) → is_Some (tmpdir wn)) ∧
    format_loop ip rest (Some out) wn = (r, w', tn) ∧
    runs t = (format_cmd exe k, Completed 0 out) :: runs tn.
Proof.
  intros Hexe Hrun Hp H.
  rewrite format_loop_cons, Hexe in H. cbv zeta in H. rewrite Hrun in H.
  cbn [negb Z.eqb] in H. destruct ip.
  - destruct (Hp eq_refl) as [[m Hm] [tp ->]]. rewrite Hm in H.
    destruct (format_loop true rest _ _) as [[r0 w0] t0] eqn:E in H.
    injection H as <- <- <-.
    exists (World (fs w) (Some (<[tp := out]> m))), t0.
    split_and!; [done|by eexists|exact E|done].
  - destruct (format_loop false rest _ _) as [[r0 w0] t0] eqn:E in H.
    injection H as <- <- <-. exists w, t0.
    split_and!; [done|done|exact E|done].
Qed.

(** Started on the same tree with the same keys, the formatting loops of
    the two modes end the same way after starting the same formatters. *)
Lemma format_loop_modes ip1 ip2 : ∀ items1 items2 df1 df2 w1 w2
    r1 w1' t1 r2 w2' t2,
  items1.*1 = items2.*1 → fs w1 = fs w2 →
  (df1 = None ↔ df2 = None) →
  (ip1 = true → is_Some (tmpdir w1) ∧ ∀ k v, (k, v) ∈ items1 → is_Some v) →
  (ip2 = true → is_Some (tmpdir w2) ∧ ∀ k v, (k, v) ∈ items2 → is_Some v) →
  format_loop ip1 items1 df1 w1 = (r1, w1', t1) →
  format_loop ip2 items2 df2 w2 = (r2, w2', t2) →
  r1 = r2 ∧ runs t1 = runs t2.
Proof.
  induction items1 as [|[k v1] items1 IH];
    intros [|[k2 v2] items2] df1 df2 w1 w2 r1 w1' t1 r2 w2' t2
      Hk Hfs Hdf Hp1 Hp2 H1 H2; try done.
  - injection H1 as <- <- <-. by injection H2 as <- <- <-.
  - rewrite !fmap_cons in Hk. cbn [fst] in Hk. injection Hk as -> Hk.
    destruct shutil_which_dune as [exe|] eqn:Hexe.
    2:{ rewrite format_loop_cons, Hexe in H1, H2. by simplify_eq. }
    destruct (run_process (format_cmd exe k2) (fs w2)) as [rc out|e] eqn:Hrun.
    + destruct (decide (rc = 0%Z)) as [->|Hrc].
      * pose proof Hrun as Hrun1. rewrite <- Hfs in Hrun1.
        apply (format_loop_cons_ok _ _ _ _ _ _ _ _ _ _ _ Hexe Hrun1) in H1
          as (w1n & t1n & Hf1 & Ht1 & E1 & ->).
        2:{ intros Hip. destruct (Hp1 Hip) as [Hm Hv].
            split; [done|]. apply (Hv k2). left. }
        apply (format_loop_cons_ok _ _ _ _ _ _ _ _ _ _ _ Hexe Hrun) in H2
          as (w2n & t2n & Hf2 & Ht2 & E2 & ->).
        2:{ intros Hip. destruct (Hp2 Hip) as [Hm Hv].
            split; [done|]. apply (Hv k2). left. }
        assert (fs w1n = fs w2n) as Hfn by congruence.
        assert (r1 = r2 ∧ runs t1n = runs t2n) as [-> ->]; [|done].
        eapply (IH items2 (Some out) (Some out));
          [exact Hk|exact Hfn|done| | |exact E1|exact E2].
        -- intros Hip. destruct (Hp1 Hip) as [Hm Hv]. split; [by apply Ht1|].
           intros k v Hin. apply (Hv k). by right.
        -- intros Hip. destruct (Hp2 Hip) as [Hm Hv]. split; [by apply Ht2|].
           intros k v Hin. apply (Hv k). by right.
      * rewrite format_loop_cons, Hexe in H1, H2. cbv zeta in H1, H2.
        rewrite Hfs in H1. rewrite Hrun in H1, H2.
        apply Z.eqb_neq in Hrc. rewrite Hrc in H1, H2.
        cbn [negb] in H1, H2. by simplify_eq.
    + rewrite format_loop_cons, Hexe in H1, H2. cbv zeta in H1, H2.
      rewrite Hfs in H1. rewrite Hrun in H1, H2.
      destruct df1 as [s1|], df2 as [s2|];
        try (by destruct Hdf as [Ha Hb];
             first [discriminate (Ha eq_refl)|discriminate (Hb eq_refl)]);
        destruct e; cbn [is_Exception] in H1, H2; by simplify_eq.
Qed.

(** The result of a run that formats, read off its two loops: the
    writing loop adds no probe and no formatter and, reached only when
    every formatter completed with status 0, does not raise. *)
Lemma real_main_result args w r w' t :
  version args = false →
  real_main args w = (r, w', t) →
  ∃ r1 w1 t1,
    stage_loop (in_place args) (dune_files args) [] (World (fs w) (Some ∅))
    = (r1, w1, t1) ∧
    match r1 with
    | Raise e => r = Raise e ∧ t = t1
    | Ret d =>
        ∃ r2 w2 t2,
          format_loop (in_place args) d None w1 = (r2, w2, t2) ∧
          probes t = probes t1 ∧ runs t = runs t2 ∧
          r = match r2 with
              | Raise e => Raise e
              | Ret (Some rc) => Ret rc
              | Ret None => Ret 0%Z
              end
    end.
Proof.
  intros Hv Hr. pose proof Hr as Hr0.
  apply real_main_formatting in Hr as (r1 & w1 & t1 & Hs & Hcase); [|done].
  exists r1, w1, t1. split; [done|].
  destruct r1 as [d|e]; [|by destruct Hcase as (-> & -> & _)].
  destruct Hcase as (r2 & w2 & t2 & Hf & Hcase).
  exists r2, w2, t2. split; [done|].
  pose proof Hs as Hs0.
  apply stage_loop_inert with (l := ∅) in Hs as (_ & Hr1 & _ & _ & _);
    [|done].
  pose proof Hf as Hf0.
  apply format_loop_inert in Hf as (_ & _ & Hp2 & _).
  destruct r2 as [[rc|]|e].
  - destruct Hcase as (-> & -> & _).
    by rewrite probes_app_ev, runs_app, Hp2, Hr1, app_nil_r.
  - destruct (in_place args) eqn:Hip.
    + destruct Hcase as (r3 & w3 & t3 & Hc & -> & _ & _).
      apply commit_loop_trace in Hc as (Hr3 & _ & Hp3 & _).
      rewrite !probes_app_ev, !runs_app, Hp2, Hr1, Hp3, Hr3, !app_nil_r.
      split_and!; [done|done|].
      rewrite <- Hip in Hs0, Hf0.
      destruct (real_main_completed _ _ _ _ _ _ _ Hs0 Hf0)
        as [Hnil|(exe & Hexe & Hall & Hok)].
      * rewrite (real_main_empty _ _ Hv Hnil) in Hr0. by injection Hr0.
      * destruct (real_main_in_place_ok _ _ _ _ Hv Hip Hexe Hall Hok)
          as (f' & td & Hok' & _).
        rewrite Hok' in Hr0. by injection Hr0.
    + destruct Hcase as (-> & -> & _).
      by rewrite probes_app_ev, runs_app, Hp2, Hr1, app_nil_r.
  - destruct Hcase as (-> & -> & _).
    by rewrite probes_app_ev, runs_app, Hp2, Hr1, app_nil_r.
Qed.

(** X15.  The options do not change what a run does to find its result.
    Two command lines without [--version] that name the same paths,
    whatever their [-i], [--save-dune-temps] and verbosity flags, run on
    the same tree, make the same probes, start the same formatters with
    the same outcomes, and end with the same result or the same exception:
    stream mode is a faithful rehearsal of in-place mode. *)
Theorem flags_do_not_change_the_outcome a b w ra wa ta rb wb tb :
  version a = false → version b = false →
  dune_files a = dune_files b →
  real_main a w = (ra, wa, ta) → real_main b w = (rb, wb, tb) →
  ra = rb ∧ probes ta = probes tb ∧ runs ta = runs tb ∧
  (main a w).1.1 = (main b w).1.1.
Proof.
  intros Hva Hvb Hfiles Ha Hb.
  assert (ra = rb ∧ probes ta = probes tb ∧ runs ta = runs tb)
    as (-> & Hp & Hr).
  2:{ split_and!; try done. unfold main. by rewrite Ha, Hb. }
  apply real_main_result in Ha as (r1 & w1 & t1 & Hs1 & Hc1); [|done].
  apply real_main_result in Hb as (r2 & w2 & t2 & Hs2 & Hc2); [|done].
  rewrite <- Hfiles in Hs2.
  assert (is_Some (tmpdir (World (fs w) (Some ∅)))) as Htd by (by eexists).
  destruct (stage_loop_modes _ _ _ _ _ _ _ _ _ _ _ _ _ eq_refl Htd Htd
              Hs1 Hs2) as [<- Hrr].
  destruct r1 as [d1|e1], r2 as [d2|e2]; try done.
  2:{ destruct Hc1 as [-> ->], Hc2 as [-> ->]. by subst. }
  apply stage_loop_inert with (l := ∅) in Hs1
    as (Hfs1 & _ & _ & _ & _ & Hd1 & Htd1); [|done].
  apply stage_loop_inert with (l := ∅) in Hs2
    as (Hfs2 & _ & _ & _ & _ & Hd2 & Htd2); [|done].
  destruct Hc1 as (o1 & w1' & u1 & Hf1 & -> & -> & ->).
  destruct Hc2 as (o2 & w2' & u2 & Hf2 & -> & -> & ->).
  assert (∀ ip (w0 : world) d,
            tmpdir w0 = Some (staged ip (dune_files a) ∅ []).2 →
            d = (staged ip (dune_files a) ∅ []).1 →
            ip = true →
            is_Some (tmpdir w0) ∧ ∀ k v, (k, v) ∈ d → is_Some v) as Hpre.
  { intros ip w0 d Htd0 -> ->. split; [by eexists|].
    intros k v Hin.
    destruct (staged_well_staged (dune_files a) ∅ [] (well_staged_nil ∅))
      as (_ & _ & Hb).
    destruct (Hb k v Hin) as (tp & -> & _). by eexists. }
  assert (d1.*1 = d2.*1) as Hkeys.
  { change (dict_keys d1 = dict_keys d2).
    by rewrite Hd1, Hd2, !staged_keys_nil. }
  assert (fs w1 = fs w2) as Hfs by (by rewrite Hfs1, Hfs2).
  assert (@None string = None ↔ @None string = None) as Hdf by done.
  destruct (format_loop_modes _ _ _ _ _ _ _ _ _ _ _ _ _ _ Hkeys Hfs Hdf
              (Hpre _ _ _ Htd1 Hd1) (Hpre _ _ _ Htd2 Hd2) Hf1 Hf2)
    as [-> ->].
  done.
Qed.

(** ** The order of the work *)

Lemma stage_loop_probes_prefix ip files : ∀ d w r w' t,
  is_Some (tmpdir w) →
  stage_loop ip files d w = (r, w', t) →
  probes t `prefix_of` (files ≫= λ f, [f; f; f]).
Proof.
  induction files as [|f files IH]; intros d w r w' t [m Hm] H.
  - injection H as <- <- <-. apply prefix_nil.
  - rewrite stage_loop_cons, get_dune_file_path_eq in H. csimpl.
    destruct (fs w !! f) as [[|[rd wr c]]|];
      try (injection H as <- <- <-; apply prefix_cons, prefix_nil).
    case_bool_decide;
      [|injection H as <- <- <-; apply prefix_cons, prefix_nil].
    destruct rd; cbn [readable writable] in H;
      [|injection H as <- <- <-;
        apply prefix_cons, prefix_cons, prefix_nil].
    destruct wr;
      [|injection H as <- <- <-;
        apply prefix_cons, prefix_cons, prefix_cons, prefix_nil].
    destruct ip.
    + rewrite (bind_ret_eq _ _ _ _ _ _ (NamedTemporaryFile_eq _ _ Hm)) in H.
      destruct (stage_loop true files _ _) as [[r0 w0] t0] eqn:E in H.
      injection H as <- <- <-. csimpl.
      apply prefix_cons, prefix_cons, prefix_cons.
      eapply IH; [|exact E]. by eexists.
    + destruct (stage_loop false files _ _) as [[r0 w0] t0] eqn:E in H.
      injection H as <- <- <-. csimpl.
      apply prefix_cons, prefix_cons, prefix_cons.
      eapply IH; [|exact E]. by eexists.
Qed.

(** Every formatter started before the last one completed with status
    0. *)
Lemma format_loop_last ip items : ∀ df w r w' t pre cmd o post,
  format_loop ip items df w = (r, w', t) →
  runs t = pre ++ (cmd, o) :: post → post ≠ [] →
  ∃ out, o = Completed 0 out.
Proof.
  induction items as [|[k v] items IH];
    intros df w r w' t pre cmd o post H Hruns Hpost.
  - injection H as <- <- <-. by destruct pre.
  - format_step H; csimpl in Hruns;
      try (by destruct pre as [|? [|? ?]]; simplify_eq/=);
      match goal with
      | Hz : negb (?rc =? 0)%Z = false |- _ =>
          apply negb_false_iff, Z.eqb_eq in Hz; subst rc
      end;
      (destruct pre as [|x pre]; simplify_eq/=; [by eexists|by eapply IH]).
Qed.

(** The paths written are none, or the distinct paths of the batch in the
    order of first occurrence. *)
Lemma real_main_writes args w r w' t :
  version args = false →
  real_main args w = (r, w', t) →
  (writes t).*1 = [] ∨
  in_place args = true ∧ r = Ret 0%Z ∧
  (writes t).*1 = ordered_keys (dune_files args).
Proof.
  intros Hv Hr0. pose proof Hr0 as Hr.
  apply real_main_formatting in Hr as (r1 & w2 & t2 & Hs & Hcase); [|done].
  pose proof Hs as Hs0.
  apply stage_loop_inert with (l := ∅) in Hs
    as (_ & _ & Hw1 & _ & _); [|done].
  destruct r1 as [d|e].
  2:{ left. destruct Hcase as (_ & -> & _). by rewrite Hw1. }
  destruct Hcase as (r2 & w3 & t3 & Hf & Hcase).
  pose proof (format_loop_inert _ _ _ _ _ _ _ Hf) as (_ & Hw2 & _ & _).
  assert (t = t2 ++ t3 → (writes t).*1 = []) as Hsame.
  { intros ->. by rewrite writes_app, Hw1, Hw2. }
  destruct r2 as [[rc|]|e];
    [left; by destruct Hcase as (_ & ? & ?); apply Hsame
    | |left; by destruct Hcase as (_ & ? & ?); apply Hsame].
  destruct (in_place args) eqn:Hip;
    [|left; by destruct Hcase as (_ & ? & ?); apply Hsame].
  rewrite <- Hip in Hs0, Hf.
  destruct (real_main_completed _ _ _ _ _ _ _ Hs0 Hf)
    as [Hnil|(exe & Hexe & Hall & Hok)].
  - left. rewrite (real_main_empty _ _ Hv Hnil) in Hr0.
    by injection Hr0 as <- <- <-.
  - right.
    destruct (real_main_in_place_ok args w exe (captured exe (fs w))
                Hv Hip Hexe Hall Hok) as (f' & td & Hok' & _).
    rewrite Hok' in Hr0. injection Hr0 as <- <- <-.
    split_and!; [done|done|].
    rewrite !writes_app, stage_events_writes, writes_run_evs,
      writes_write_evs. simpl.
    rewrite <- list_fmap_compose. apply list_fmap_id.
Qed.

(** X16.  The order of the work in a run that formats.  The probes go
    through the arguments in the order given, at most three to an
    argument, as far as the run gets.  The formatters are started on the
    distinct paths in the order of first occurrence, as far as the run
    gets, and every one but the last started has completed with status 0.
    The paths written are none or, in the same order, all the distinct
    paths. *)
Theorem work_in_argument_order args w r w' t :
  version args = false →
  real_main args w = (r, w', t) →
  probes t `prefix_of` (dune_files args ≫= λ f, [f; f; f]) ∧
  (∀ exe, shutil_which_dune = Some exe →
     (runs t).*1 `prefix_of`
       (format_cmd exe <$> ordered_keys (dune_files args))) ∧
  (∀ pre cmd o post,
     runs t = pre ++ (cmd, o) :: post → post ≠ [] →
     ∃ out, o = Completed 0 out) ∧
  ((writes t).*1 = [] ∨ (writes t).*1 = ordered_keys (dune_files args)).
Proof.
  intros Hv Hr.
  assert ((writes t).*1 = [] ∨ (writes t).*1 = ordered_keys (dune_files args))
    as Hw.
  { destruct (real_main_writes _ _ _ _ _ Hv Hr) as [?|(_ & _ & ?)]; auto. }
  apply real_main_result in Hr as (r1 & w1 & t1 & Hs & Hcase); [|done].
  assert (is_Some (tmpdir (World (fs w) (Some ∅)))) as Htd by (by eexists).
  pose proof (stage_loop_probes_prefix _ _ _ _ _ _ _ Htd Hs) as Hp.
  apply stage_loop_inert with (l := ∅) in Hs
    as (_ & Hr1 & _ & _ & Hres); [|done].
  destruct r1 as [d|e].
  2:{ destruct Hcase as [-> ->]. rewrite Hr1.
      split_and!; [done| |by intros []|done].
      intros exe _. apply prefix_nil. }
  destruct Hcase as (r2 & w2 & t2 & Hf & -> & -> & _).
  destruct Hres as (_ & Hd & _).
  split_and!; [done| | |done].
  - intros exe Hexe.
    rewrite <- (staged_keys_nil (in_place args) (dune_files args) ∅).
    rewrite <- Hd. by eapply format_loop_runs_prefix.
  - intros pre cmd o post. by eapply format_loop_last.
Qed.

End Program.

(** * The claims on the concrete machine *)

Ltac in_list :=
  repeat first [apply list_elem_of_here | apply list_elem_of_further].

Ltac by_cases_in H :=
  repeat (apply elem_of_cons in H as [->|H]);
  [.. | by apply elem_of_nil in H].

Ltac not_in_list H :=
  repeat (apply elem_of_cons in H as [H|H]; [discriminate H|]);
  by apply elem_of_nil in H.

Ltac valid_here :=
  eexists; split; [vm_compute; reflexivity|];
  apply (bool_decide_unpack _); vm_compute; exact I.

(** C1 on the two-file scenario: the second formatter exits with 2. *)
Lemma format_failure_no_partial_commit_witness :
  ∃ code w' t,
    main (Some ex_exe) ex_run_fail "1.0"
      (ex_args true ["dune"; "sub/dune-project"]) ex_world = (code, w', t) ∧
    EvRun (format_cmd ex_exe "sub/dune-project") (Completed 2 "syntax error")
      ∈ t ∧
    code = 2%Z ∧ fs w' = ex_fs ∧ writes t = [].
Proof.
  destruct (main (Some ex_exe) ex_run_fail "1.0"
              (ex_args true ["dune"; "sub/dune-project"]) ex_world)
    as [[code w'] t] eqn:E.
  exists code, w', t. split; [reflexivity|].
  assert (EvRun (format_cmd ex_exe "sub/dune-project")
            (Completed 2 "syntax error") ∈ t) as Hin.
  { pose proof E as E'. vm_compute in E'. injection E' as <- <- <-. in_list. }
  split; [exact Hin|].
  apply (format_failure_no_partial_commit (Some ex_exe) ex_run_fail "1.0"
           (ex_args true ["dune"; "sub/dune-project"]) ex_world
           ex_exe "sub/dune-project" 2%Z "syntax error" code w' t
           eq_refl); [|simpl; in_list|exact E|exact Hin|lia].
  repeat (apply Forall_cons; split; [valid_here|]). apply Forall_nil_2.
Defined.

(** C2 on a batch that names [dune] twice. *)
Lemma in_place_success_content_witness :
  ∃ w' t,
    main (Some ex_exe) ex_run "1.0"
      (ex_args true ["dune"; "sub/dune-project"; "dune"]) ex_world
    = (0%Z, w', t) ∧
    file_content (fs w') "dune" = Some "formatted:(library(name foo))" ∧
    file_content (fs w') "sub/dune-project" = Some "formatted:(lang dune 3.0)" ∧
    fs w' !! "locked/dune" = ex_fs !! "locked/dune".
Proof.
  destruct (in_place_success_content (Some ex_exe) ex_run "1.0"
              (ex_args true ["dune"; "sub/dune-project"; "dune"]) ex_world
              ex_exe ex_out eq_refl eq_refl eq_refl)
    as (w' & t & Hm & Hin & Hout).
  - repeat (apply Forall_cons; split; [valid_here|]). apply Forall_nil_2.
  - intros p Hp. simpl in Hp. by_cases_in Hp; vm_compute; reflexivity.
  - exists w', t. split; [exact Hm|]. split_and!.
    + apply (Hin "dune"). simpl. in_list.
    + apply (Hin "sub/dune-project"). simpl. in_list.
    + apply Hout. simpl. intros Hp. not_in_list Hp.
Defined.

(** C3 as stated fails: [dune] named twice is formatted and printed
    once, so standard output is not the concatenation of one output per
    argument; and with [--version], without [-i], the run succeeds and
    standard output holds the two version lines, not a formatter output. *)
Lemma stream_output_not_once_per_argument :
  valid_target ex_fs "dune" ∧
  ex_run (format_cmd ex_exe "dune") ex_fs
  = Completed 0 "formatted:(library(name foo))" ∧
  (main (Some ex_exe) ex_run "1.0" (ex_args false ["dune"; "dune"])
     ex_world).1.1 = 0%Z ∧
  stdout_text
    (main (Some ex_exe) ex_run "1.0" (ex_args false ["dune"; "dune"])
       ex_world).2
  = "formatted:(library(name foo))" ∧
  stdout_text
    (main (Some ex_exe) ex_run "1.0" (ex_args false ["dune"; "dune"])
       ex_world).2
  ≠ "formatted:(library(name foo))" +:+ "formatted:(library(name foo))" ∧
  (main (Some ex_exe) ex_run "1.0" (ex_version_args ["dune"]) ex_world).1.1
  = 0%Z ∧
  stdout_text
    (main (Some ex_exe) ex_run "1.0" (ex_version_args ["dune"]) ex_world).2
  = "pre-commit-dune-format-dune-file version: 1.0" +:+ newline +:+
    "dune format-dune-file version: 3.16.0" +:+ newline.
Proof.
  split_and!.
  - valid_here.
  - vm_compute. reflexivity.
  - vm_compute. reflexivity.
  - vm_compute. reflexivity.
  - vm_compute. discriminate.
  - vm_compute. reflexivity.
  - vm_compute. reflexivity.
Qed.

(** C3, amended, on a two-file batch in stream mode. *)
Lemma stream_mode_no_mutation_and_output_witness :
  ∃ w' t,
    main (Some ex_exe) ex_run "1.0"
      (ex_args false ["dune"; "sub/dune-project"]) ex_world = (0%Z, w', t) ∧
    fs w' = ex_fs ∧
    stdout_text t = "formatted:(library(name foo))formatted:(lang dune 3.0)".
Proof.
  destruct (proj2 (stream_mode_no_mutation_and_output (Some ex_exe) ex_run
                     "1.0" (ex_args false ["dune"; "sub/dune-project"])
                     ex_world eq_refl)
              ex_exe ex_out eq_refl eq_refl)
    as (w' & t & Hm & Hfs & _ & Hout & _).
  - repeat (apply Forall_cons; split; [valid_here|]). apply Forall_nil_2.
  - intros p Hp. simpl in Hp. by_cases_in Hp; vm_compute; reflexivity.
  - exists w', t. split; [exact Hm|]. split; [exact Hfs|]. exact Hout.
Defined.

(** C4 as stated fails: with an unreadable [locked/dune] placed first
    the run fails with [PermissionError], and with [--version] it exits
    with code 0. *)
Lemma wrong_name_not_always_NotADuneFile :
  "BUILD.bazel" ∈ ["locked/dune"; "BUILD.bazel"] ∧
  ¬ permitted_name "BUILD.bazel" ∧
  real_main (Some ex_exe) ex_run "1.0"
    (ex_args false ["locked/dune"; "BUILD.bazel"]) ex_world
  = (Raise (PermissionError "Can't read dune file 'locked/dune'"), ex_world,
     [EvIsFile "locked/dune"; EvAccess "locked/dune" R_OK]) ∧
  (main (Some ex_exe) ex_run "1.0" (ex_version_args ["BUILD.bazel"])
     ex_world).1.1 = 0%Z.
Proof.
  split_and!.
  - in_list.
  - apply (bool_decide_eq_false_1 (permitted_name "BUILD.bazel")).
    vm_compute. reflexivity.
  - vm_compute. reflexivity.
  - vm_compute. reflexivity.
Qed.

(** C4, amended, on a batch whose second path is [BUILD.bazel]. *)
Lemma wrong_name_aborts_before_formatting_witness :
  ∃ w' t,
    main (Some ex_exe) ex_run "1.0" (ex_args true ["dune"; "BUILD.bazel"])
      ex_world = (1%Z, w', t) ∧
    real_main (Some ex_exe) ex_run "1.0" (ex_args true ["dune"; "BUILD.bazel"])
      ex_world = (Raise (TypeError (not_a_dune_file_msg "BUILD.bazel")), w', t) ∧
    fs w' = ex_fs ∧ runs t = [] ∧ writes t = [].
Proof.
  assert (¬ permitted_name "BUILD.bazel") as Hn.
  { apply (bool_decide_eq_false_1 (permitted_name "BUILD.bazel")).
    vm_compute. reflexivity. }
  destruct (wrong_name_aborts_before_formatting (Some ex_exe) ex_run "1.0"
              (ex_args true ["dune"; "BUILD.bazel"]) ex_world "BUILD.bazel"
              eq_refl ltac:(simpl; in_list) Hn)
    as (_ & e & w' & t & Hr & Hm & Hfs & Hruns & Hwrites & _ & Hfirst).
  destruct (Hfirst ["dune"] [] eq_refl) as (q & Hq & ->).
  { intros q Hq (fl & Hl & _ & Hperm). by_cases_in Hq.
    vm_compute in Hl. injection Hl as <-. discriminate. }
  exists w', t. by_cases_in Hq.
  - exfalso. revert Hr. vm_compute. discriminate.
  - split_and!; assumption.
Defined.

(** C5 as stated fails: [BUILD.bazel] can be neither read nor written,
    and the resolver answers wrong-name. *)
Lemma unreadable_wrong_name_not_PermissionDenied :
  ex_fs !! "BUILD.bazel" = Some (Regular (File false false "cc_library()")) ∧
  get_dune_file_path "BUILD.bazel" ex_world
  = (Ret None, ex_world, [EvIsFile "BUILD.bazel"]) ∧
  real_main (Some ex_exe) ex_run "1.0" (ex_args false ["BUILD.bazel"]) ex_world
  = (Raise (TypeError (not_a_dune_file_msg "BUILD.bazel")), ex_world,
     [EvIsFile "BUILD.bazel"]).
Proof. split_and!; vm_compute; reflexivity. Qed.

(** C5, amended, on the unreadable [locked/dune]. *)
Lemma permission_denied_aborts_witness :
  get_dune_file_path "locked/dune" ex_world
  = (Raise (PermissionError "Can't read dune file 'locked/dune'"), ex_world,
     [EvIsFile "locked/dune"; EvAccess "locked/dune" R_OK]) ∧
  ∃ e w' t,
    real_main (Some ex_exe) ex_run "1.0" (ex_args true ["dune"; "locked/dune"])
      ex_world = (Raise e, w', t) ∧
    main (Some ex_exe) ex_run "1.0" (ex_args true ["dune"; "locked/dune"])
      ex_world = (1%Z, w', t) ∧
    fs w' = ex_fs ∧ runs t = [] ∧ writes t = [].
Proof.
  destruct (permission_denied_aborts (Some ex_exe) ex_run "1.0"
              (ex_args true ["dune"; "locked/dune"]) ex_world "locked/dune"
              (File false true "(rule)"))
    as (Hg & Hrun).
  - vm_compute. reflexivity.
  - apply (bool_decide_unpack _). vm_compute. exact I.
  - reflexivity.
  - split; [exact Hg|]. apply Hrun; [reflexivity|simpl; in_list].
Defined.

(** C6 when the executable has vanished. *)
Lemma unexpected_invocation_failure_exit_1_witness :
  ∃ code w' t,
    main (Some ex_exe) ex_run_vanished "1.0" (ex_args true ["dune"]) ex_world
    = (code, w', t) ∧
    EvRun (format_cmd ex_exe "dune") (Raised (FileNotFoundError "dune")) ∈ t ∧
    code = 1%Z.
Proof.
  destruct (main (Some ex_exe) ex_run_vanished "1.0" (ex_args true ["dune"])
              ex_world) as [[code w'] t] eqn:E.
  exists code, w', t. split; [reflexivity|].
  assert (EvRun (format_cmd ex_exe "dune") (Raised (FileNotFoundError "dune"))
            ∈ t) as Hin.
  { pose proof E as E'. vm_compute in E'. injection E' as <- <- <-. in_list. }
  split; [exact Hin|].
  exact (unexpected_invocation_failure_exit_1 _ _ _ _ _ _ _ code w' t E Hin
           eq_refl eq_refl).
Defined.

(** C7 when the user interrupts the formatter. *)
Lemma keyboard_interrupt_exit_0_witness :
  ∃ code w' t,
    main (Some ex_exe) ex_run_interrupted "1.0" (ex_args true ["dune"])
      ex_world = (code, w', t) ∧
    EvRun (format_cmd ex_exe "dune") (Raised KeyboardInterrupt) ∈ t ∧
    code = 0%Z ∧ fs w' = ex_fs.
Proof.
  destruct (main (Some ex_exe) ex_run_interrupted "1.0" (ex_args true ["dune"])
              ex_world) as [[code w'] t] eqn:E.
  exists code, w', t. split; [reflexivity|].
  assert (EvRun (format_cmd ex_exe "dune") (Raised KeyboardInterrupt) ∈ t)
    as Hin.
  { pose proof E as E'. vm_compute in E'. injection E' as <- <- <-. in_list. }
  split; [exact Hin|].
  destruct (proj2 (keyboard_interrupt_exit_0 _ _ _ _ _) _ code w' t E Hin)
    as [_ Hcode].
  split; [exact Hcode|].
  pose proof E as E'. vm_compute in E'. injection E' as <- <- <-. reflexivity.
Defined.

(** C8 as stated fails: without a [dune] on the search path the program
    prints its own version and exits with code 1. *)
Lemma version_without_dune_exit_1 :
  version (ex_version_args ["dune"]) = true ∧
  main None ex_run "1.0" (ex_version_args ["dune"]) ex_world
  = (1%Z, ex_world,
     [EvPrint ("pre-commit-dune-format-dune-file version: 1.0" +:+ newline)]).
Proof. split; vm_compute; reflexivity. Qed.

(** C8, amended, with the formatter on the search path. *)
Lemma version_flag_prints_and_touches_nothing_witness :
  main (Some ex_exe) ex_run "1.0" (ex_version_args ["dune"; "BUILD.bazel"])
    ex_world
  = (0%Z, ex_world,
     [EvPrint ("pre-commit-dune-format-dune-file version: 1.0" +:+ newline);
      EvRun (version_cmd ex_exe) (Completed 0 ("3.16.0" +:+ newline));
      EvPrint ("dune format-dune-file version: 3.16.0" +:+ newline)]).
Proof.
  exact (proj2 (version_flag_prints_and_touches_nothing (Some ex_exe) ex_run
                  "1.0" (ex_version_args ["dune"; "BUILD.bazel"]) ex_world
                  eq_refl)
           ex_exe 0%Z ("3.16.0" +:+ newline) eq_refl eq_refl).
Defined.

(** C9 on a batch that names [dune] twice, in-place. *)
Lemma duplicates_collapse_witness :
  ∃ w' t,
    real_main (Some ex_exe) ex_run "1.0"
      (ex_args true ["dune"; "sub/dune-project"; "dune"]) ex_world
    = (Ret 0%Z, w', t) ∧
    times_formatted ex_exe "dune" t = 1%nat ∧
    times_committed "dune" t = 1%nat.
Proof.
  destruct (proj2 (proj2 (duplicates_collapse (Some ex_exe) ex_run "1.0"
                            (ex_args true ["dune"; "sub/dune-project"; "dune"])
                            ex_world))
              ex_exe ex_out eq_refl eq_refl)
    as (w' & t & Hr & Hcount & _).
  - repeat (apply Forall_cons; split; [valid_here|]). apply Forall_nil_2.
  - intros p Hp. simpl in Hp. by_cases_in Hp; vm_compute; reflexivity.
  - exists w', t. split; [exact Hr|].
    apply (Hcount "dune"). simpl. in_list.
Defined.

(** C10 on a directory that bears a permitted name. *)
Lemma wrong_name_precedence_witness :
  get_dune_file_path "ws/dune-workspace" ex_world
  = (Ret None, ex_world, [EvIsFile "ws/dune-workspace"]) ∧
  stage_loop true ["ws/dune-workspace"; "dune"] [] ex_world
  = (Raise (TypeError (not_a_dune_file_msg "ws/dune-workspace")), ex_world,
     [EvIsFile "ws/dune-workspace"]).
Proof.
  destruct (proj1 (wrong_name_precedence "ws/dune-workspace" ex_world))
    as [Hg Hs].
  - left. intros (fl & Hl). vm_compute in Hl. discriminate.
  - split; [exact Hg|apply Hs].
Defined.

(** * The further properties on the concrete machine *)

(** X1 on [dune]. *)
Lemma resolver_contract_witness :
  get_dune_file_path "dune" ex_world
  = (Ret (Some "dune"), ex_world,
     [EvIsFile "dune"; EvAccess "dune" R_OK; EvAccess "dune" W_OK]) ∧
  valid_target ex_fs "dune".
Proof.
  assert (get_dune_file_path "dune" ex_world
          = (Ret (Some "dune"), ex_world,
             [EvIsFile "dune"; EvAccess "dune" R_OK; EvAccess "dune" W_OK]))
    as E by (vm_compute; reflexivity).
  split; [exact E|].
  destruct (resolver_contract "dune" ex_world _ _ _ E)
    as (_ & _ & _ & _ & _ & Hres).
  exact (proj2 (proj1 (Hres "dune") eq_refl)).
Defined.

(** X2 on [sub/dune-project]. *)
Lemma name_test_last_component_witness :
  has_slash "dune-project" = false ∧ permitted_name "sub/dune-project".
Proof.
  split; [reflexivity|].
  apply (proj2 (proj1 (name_test_last_component "sub" "dune-project"
                         eq_refl))).
  unfold _dune_file_names. in_list.
Defined.

(** X3 on an in-place run of two files. *)
Lemma run_phases_witness :
  ∃ r w' t t1 t2 t3,
    real_main (Some ex_exe) ex_run "1.0"
      (ex_args true ["dune"; "sub/dune-project"]) ex_world = (r, w', t) ∧
    t = t1 ++ t2 ++ t3 ∧
    runs t1 = [] ∧ probes t2 = [] ∧ writes t2 = [] ∧ runs t3 = [].
Proof.
  destruct (real_main (Some ex_exe) ex_run "1.0"
              (ex_args true ["dune"; "sub/dune-project"]) ex_world)
    as [[r w'] t] eqn:E.
  destruct (run_phases (Some ex_exe) ex_run "1.0"
              (ex_args true ["dune"; "sub/dune-project"]) ex_world _ _ _
              eq_refl E)
    as (t1 & t2 & t3 & Ht & (Hr1 & _) & (Hp2 & Hw2) & (_ & Hr3 & _) & _).
  exists r, w', t, t1, t2, t3. split_and!; [reflexivity|assumption..].
Defined.

(** X4 on an in-place run of [dune]. *)
Lemma only_batch_paths_witness :
  ∃ r w' t,
    real_main (Some ex_exe) ex_run "1.0" (ex_args true ["dune"]) ex_world
    = (r, w', t) ∧
    (∀ q, q ∈ probes t → q ∈ ["dune"]) ∧
    (∀ p c, EvWrite p c ∈ t → p ∈ ["dune"] ∧ valid_target ex_fs p).
Proof.
  destruct (real_main (Some ex_exe) ex_run "1.0" (ex_args true ["dune"])
              ex_world) as [[r w'] t] eqn:E.
  destruct (only_batch_paths (Some ex_exe) ex_run "1.0"
              (ex_args true ["dune"]) ex_world _ _ _ eq_refl E)
    as (Hp & _ & Hw).
  exists r, w', t. split_and!; [reflexivity|exact Hp|exact Hw].
Defined.

(** X5 on a stream run whose second formatter fails. *)
Lemma stdout_is_the_successful_outputs_witness :
  ∃ r w' t,
    real_main (Some ex_exe) ex_run_fail "1.0"
      (ex_args false ["dune"; "sub/dune-project"]) ex_world = (r, w', t) ∧
    prints t = successes (runs t) ∧
    prints t = ["formatted:(library(name foo))"].
Proof.
  destruct (real_main (Some ex_exe) ex_run_fail "1.0"
              (ex_args false ["dune"; "sub/dune-project"]) ex_world)
    as [[r w'] t] eqn:E.
  pose proof (stdout_is_the_successful_outputs (Some ex_exe) ex_run_fail
                "1.0" (ex_args false ["dune"; "sub/dune-project"]) ex_world
                _ _ _ eq_refl E) as Hp.
  exists r, w', t. split_and!; [reflexivity|exact Hp|].
  vm_compute in E. injection E as <- <- <-. reflexivity.
Defined.

(** X6 on an in-place run whose second formatter fails. *)
Lemma all_or_nothing_witness :
  ∃ code w' t,
    main (Some ex_exe) ex_run_fail "1.0"
      (ex_args true ["dune"; "sub/dune-project"]) ex_world = (code, w', t) ∧
    code = 2%Z ∧ fs w' = ex_fs ∧ writes t = [].
Proof.
  destruct (main (Some ex_exe) ex_run_fail "1.0"
              (ex_args true ["dune"; "sub/dune-project"]) ex_world)
    as [[code w'] t] eqn:E.
  pose proof (all_or_nothing (Some ex_exe) ex_run_fail "1.0"
                (ex_args true ["dune"; "sub/dune-project"]) ex_world _ _ _
                eq_refl E) as H.
  assert (code = 2%Z) as Hc.
  { pose proof E as E'. vm_compute in E'. by injection E' as <- <- <-. }
  exists code, w', t. split_and!; [reflexivity|exact Hc| |].
  - destruct H as [[H _]|(_ & H0 & _)]; [exact H|]. rewrite Hc in H0.
    discriminate H0.
  - destruct H as [[_ H]|(_ & H0 & _)]; [exact H|]. rewrite Hc in H0.
    discriminate H0.
Defined.

(** X7 on a run whose second formatter exits with 2. *)
Lemma outcome_taxonomy_witness :
  ∃ w' t,
    real_main (Some ex_exe) ex_run_fail "1.0"
      (ex_args true ["dune"; "sub/dune-project"]) ex_world
    = (Ret 2%Z, w', t) ∧
    ((∃ cmd out, EvRun cmd (Completed 2 out) ∈ t ∧ 2%Z ≠ 0%Z)
     ∨ (∃ cmd out, EvRun cmd (Raised (CalledProcessError 2 out)) ∈ t)).
Proof.
  destruct (real_main (Some ex_exe) ex_run_fail "1.0"
              (ex_args true ["dune"; "sub/dune-project"]) ex_world)
    as [[r w'] t] eqn:E.
  pose proof (outcome_taxonomy (Some ex_exe) ex_run_fail "1.0"
                (ex_args true ["dune"; "sub/dune-project"]) ex_world _ _ _
                eq_refl E) as H.
  assert (r = Ret 2%Z) as ->.
  { pose proof E as E'. vm_compute in E'. by injection E' as <- <- <-. }
  exists w', t. split; [reflexivity|].
  destruct H as [H|[H|H]]; [discriminate H|discriminate H|exact H].
Defined.

(** X8 on a stream run of three arguments whose second path fails. *)
Lemma first_failure_stops_the_batch_witness :
  ∃ w' t,
    main (Some ex_exe) ex_run_fail "1.0"
      (ex_args false ["dune"; "sub/dune-project"; "dune"]) ex_world
    = (2%Z, w', t) ∧
    fs w' = ex_fs ∧
    runs t = [(format_cmd ex_exe "dune",
               Completed 0 "formatted:(library(name foo))");
              (format_cmd ex_exe "sub/dune-project",
               Completed 2 "syntax error")] ∧
    prints t = ["formatted:(library(name foo))"] ∧
    writes t = [].
Proof.
  apply (first_failure_stops_the_batch (Some ex_exe) ex_run_fail "1.0"
           (ex_args false ["dune"; "sub/dune-project"; "dune"]) ex_world
           ex_exe ex_out ["dune"] "sub/dune-project" [] 2%Z "syntax error"
           eq_refl eq_refl).
  - repeat (apply Forall_cons; split; [valid_here|]). apply Forall_nil_2.
  - vm_compute. reflexivity.
  - intros p Hp. by_cases_in Hp; vm_compute; reflexivity.
  - vm_compute. reflexivity.
  - lia.
Defined.

(** X9 on a run whose first formatter cannot be started. *)
Lemma unexpected_exception_and_df_res_witness :
  ∃ w' t,
    real_main (Some ex_exe) ex_run_vanished "1.0" (ex_args true ["dune"])
      ex_world = (Raise (UnboundLocalError "df_res"), w', t) ∧
    main (Some ex_exe) ex_run_vanished "1.0" (ex_args true ["dune"])
      ex_world = (1%Z, w', t) ∧
    fs w' = ex_fs ∧ writes t = [] ∧
    runs t = [(format_cmd ex_exe "dune", Raised (FileNotFoundError "dune"))].
Proof.
  apply (unexpected_exception_and_df_res (Some ex_exe) ex_run_vanished "1.0"
           (ex_args true ["dune"]) ex_world
           ex_exe ex_out [] "dune" [] (FileNotFoundError "dune")
           eq_refl eq_refl).
  - repeat (apply Forall_cons; split; [valid_here|]). apply Forall_nil_2.
  - vm_compute. reflexivity.
  - intros p Hp. by apply elem_of_nil in Hp.
  - reflexivity.
  - reflexivity.
  - reflexivity.
Defined.

(** X10 on a machine without [dune]. *)
Lemma missing_executable_witness :
  ∃ w' t,
    real_main None ex_run "1.0" (ex_args true ["dune"]) ex_world
    = (Raise (FileNotFoundError
                "'dune' executable not found. Try running 'opam install dune'."),
       w', t) ∧
    main None ex_run "1.0" (ex_args true ["dune"]) ex_world = (1%Z, w', t) ∧
    fs w' = ex_fs ∧ t = stage_events ["dune"].
Proof.
  destruct (missing_executable None ex_run "1.0" (ex_args true ["dune"])
              ex_world eq_refl eq_refl ltac:(discriminate))
    as (e & w' & t & Hr & Hm & Hfs & _ & _ & Hall).
  destruct Hall as [-> ->].
  { repeat (apply Forall_cons; split; [valid_here|]). apply Forall_nil_2. }
  exists w', (stage_events ["dune"]). split_and!; [exact Hr|exact Hm|exact Hfs|reflexivity].
Defined.


(** X12 on an in-place run that names [dune] twice. *)
Lemma saved_temporary_files_witness :
  ∃ f' m' t,
    real_main (Some ex_exe) ex_run "1.0" (ex_save_args true ["dune"; "dune"])
      ex_world = (Ret 0%Z, World f' (Some m'), t) ∧
    size m' = 2 ∧
    ∃ tp, m' !! tp = Some "formatted:(library(name foo))".
Proof.
  destruct (saved_temporary_files (Some ex_exe) ex_run "1.0"
              (ex_save_args true ["dune"; "dune"]) ex_world ex_exe ex_out
              eq_refl eq_refl eq_refl)
    as (f' & m' & t & Hr & Hsize & Hin & _).
  - repeat (apply Forall_cons; split; [valid_here|]). apply Forall_nil_2.
  - intros p Hp. simpl in Hp. by_cases_in Hp; vm_compute; reflexivity.
  - exists f', m', t. split_and!; [exact Hr|exact Hsize|].
    apply (Hin "dune"). simpl. in_list.
Defined.

Lemma ex_tidy_idempotent c : ex_tidy (ex_tidy c) = ex_tidy c.
Proof.
  unfold ex_tidy. destruct (decide (c = "(library(name foo))")) as [->|Hc].
  - reflexivity.
  - destruct (decide (c = "(library(name foo))")); [contradiction|reflexivity].
Qed.

(** X13 on two in-place runs over two files. *)
Lemma formatting_twice_witness :
  ∃ w1 t1 w2 t2,
    main (Some ex_exe) ex_run_tidy "1.0"
      (ex_args true ["dune"; "sub/dune-project"]) ex_world = (0%Z, w1, t1) ∧
    main (Some ex_exe) ex_run_tidy "1.0"
      (ex_args true ["dune"; "sub/dune-project"]) w1 = (0%Z, w2, t2) ∧
    file_content (fs w1) "dune" = Some "(library (name foo))" ∧
    fs w2 = fs w1 ∧ writes t2 = writes t1.
Proof.
  destruct (formatting_twice (Some ex_exe) ex_run_tidy "1.0"
              (ex_args true ["dune"; "sub/dune-project"]) ex_world
              ex_exe ex_tidy eq_refl eq_refl eq_refl)
    as (w1 & t1 & w2 & t2 & H1 & H2 & Hc & _ & Hid).
  - repeat (apply Forall_cons; split; [valid_here|]). apply Forall_nil_2.
  - intros f p c _ Hl. unfold ex_run_tidy, format_cmd. rewrite Hl.
    reflexivity.
  - destruct (Hid ex_tidy_idempotent) as [Hfs Hw].
    exists w1, t1, w2, t2. split_and!; [exact H1|exact H2| |exact Hfs|exact Hw].
    apply (Hc "dune" "(library(name foo))"); [simpl; in_list|].
    vm_compute. reflexivity.
Defined.

(** X14 on the keyword arguments of the call in [real_main]. *)
Lemma super_kwargs_drop_save_witness :
  __super_kwargs__ [("prefix", "pre-commit-dune-format-dune-file-tmp-");
                    ("save", "True")]
  = [("prefix", "pre-commit-dune-format-dune-file-tmp-")] ∧
  "save" ∉ (__super_kwargs__
              [("prefix", "pre-commit-dune-format-dune-file-tmp-");
               ("save", "True")]).*1.
Proof.
  split; [vm_compute; reflexivity|].
  exact (proj1 (super_kwargs_drop_save
                  [("prefix", "pre-commit-dune-format-dune-file-tmp-");
                   ("save", "True")])).
Defined.

(** X15 on the two modes of a run whose second formatter fails. *)
Lemma flags_do_not_change_the_outcome_witness :
  ∃ r wa ta wb tb,
    real_main (Some ex_exe) ex_run_fail "1.0"
      (ex_args true ["dune"; "sub/dune-project"]) ex_world = (r, wa, ta) ∧
    real_main (Some ex_exe) ex_run_fail "1.0"
      (ex_save_args false ["dune"; "sub/dune-project"]) ex_world
    = (r, wb, tb) ∧
    probes ta = probes tb ∧ runs ta = runs tb.
Proof.
  destruct (real_main (Some ex_exe) ex_run_fail "1.0"
              (ex_args true ["dune"; "sub/dune-project"]) ex_world)
    as [[ra wa] ta] eqn:Ea.
  destruct (real_main (Some ex_exe) ex_run_fail "1.0"
              (ex_save_args false ["dune"; "sub/dune-project"]) ex_world)
    as [[rb wb] tb] eqn:Eb.
  destruct (flags_do_not_change_the_outcome (Some ex_exe) ex_run_fail "1.0"
              (ex_args true ["dune"; "sub/dune-project"])
              (ex_save_args false ["dune"; "sub/dune-project"]) ex_world
              _ _ _ _ _ _ eq_refl eq_refl eq_refl Ea Eb)
    as (-> & Hp & Hr & _).
  exists rb, wa, ta, wb, tb. split_and!; [reflexivity|reflexivity|exact Hp|exact Hr].
Defined.

(** X16 on an in-place run that names [dune] twice. *)
Lemma work_in_argument_order_witness :
  ∃ r w' t,
    real_main (Some ex_exe) ex_run "1.0"
      (ex_args true ["dune"; "sub/dune-project"; "dune"]) ex_world
    = (r, w', t) ∧
    probes t `prefix_of`
      ["dune"; "dune"; "dune";
       "sub/dune-project"; "sub/dune-project"; "sub/dune-project";
       "dune"; "dune"; "dune"] ∧
    (runs t).*1 `prefix_of`
      [format_cmd ex_exe "dune"; format_cmd ex_exe "sub/dune-project"].
Proof.
  destruct (real_main (Some ex_exe) ex_run "1.0"
              (ex_args true ["dune"; "sub/dune-project"; "dune"]) ex_world)
    as [[r w'] t] eqn:E.
  destruct (work_in_argument_order (Some ex_exe) ex_run "1.0"
              (ex_args true ["dune"; "sub/dune-project"; "dune"]) ex_world
              _ _ _ eq_refl E) as (Hp & Hr & _).
  exists r, w', t. split_and!; [reflexivity|exact Hp|exact (Hr ex_exe eq_refl)].
Defined.
